(** * kvm-kext: a shallow embedding of the control core of [main.cpp]

    The development follows the source file section by section: the
    extended page table (EPT) functions, the VM-exit handlers and their
    dispatch table, the world switch, memory-region installation, the run
    loop and the interrupt line.

    Kernel memory that the code reaches through pointers is a finite map
    from block addresses to arrays of 64-bit words; a pointer is the address
    of its block and [NULL] is [0].  Code that mutates [struct vcpu], the
    VMCS or the console runs in a state monad over the whole machine, with a
    fault outcome for invalid memory accesses.  What the kext obtains from
    outside [main.cpp] (the kernel allocator, [__pa], the VMX and KVM
    constants, the [cpuid] instruction, the memory descriptor service) is an
    interface the definitions are parametrised by. *)

From Stdlib Require Import ZArith Lia.
From stdpp Require Import gmap list strings functions.
Local Open Scope Z_scope.

(** ** Machine integers *)

(** [unsigned long] on x86-64. *)
Definition ulong (x : Z) : Z := x mod 2 ^ 64.

Definition u32 (x : Z) : Z := x mod 2 ^ 32.
Definition u16 (x : Z) : Z := x mod 2 ^ 16.
Definition u8 (x : Z) : Z := x mod 2 ^ 8.

(** [int]: the value a 32-bit two's complement object holds after a store. *)
Definition int (x : Z) : Z := (x + 2 ^ 31) mod 2 ^ 32 - 2 ^ 31.

(** ** Kernel memory *)

Abbreviation mem := (gmap Z (list Z)).

(** [p[i]] as an rvalue; dereferencing [NULL], an address that is not the
    start of a live block, or an index outside the block is a fault. *)
Definition load (m : mem) (p i : Z) : option Z :=
  if decide (p = 0 ∨ i < 0) then None
  else b ← m !! p; b !! Z.to_nat i.

(** [p[i] = v]. *)
Definition store (m : mem) (p i v : Z) : option mem :=
  if decide (p = 0 ∨ i < 0) then None
  else b ← m !! p;
       if decide (Z.to_nat i < length b)%nat
       then Some (<[p := <[Z.to_nat i := v]> b]> m)
       else None.

(** [memcpy(dst, &val, n)]: the [n] low bytes of [val], little endian, over
    the start of the byte buffer [dst]. *)
Definition memcpy_from_ulong (dst : list Z) (val : Z) (n : Z) : list Z :=
  list_inserts 0
    ((λ k, Z.land (Z.shiftr val (8 * k)) 0xFF) <$> seqZ 0 n) dst.

(** [memcpy(&val, src, n)] into a [val] that was [0]. *)
Definition memcpy_to_ulong (src : list Z) (n : Z) : Z :=
  foldr (λ b acc, Z.lor (Z.land b 0xFF) (Z.shiftl acc 8)) 0
    (take (Z.to_nat n) src).

(** ** Constants of [main.cpp] *)

(** Modelled from the spec: [PAGE_SIZE] comes from the kernel headers; the
    spec fixes a 12-bit page offset. *)
Definition PAGE_SIZE : Z := 4096.

Definition KVM_PIO_PAGE_OFFSET : Z := 1.
Definition IRQ_MAX : Z := 16.
Definition PAGE_OFFSET : Z := 512.
Definition EPT_CACHE_WRITEBACK : Z := Z.shiftl 6 3.

(** ** Types declared in the headers *)

(** The register enum of [helpers/kvm_host.h], by name. *)
Inductive kvm_reg :=
  | VCPU_REGS_RAX | VCPU_REGS_RCX | VCPU_REGS_RDX | VCPU_REGS_RBX
  | VCPU_REGS_RSP | VCPU_REGS_RBP | VCPU_REGS_RSI | VCPU_REGS_RDI
  | VCPU_REGS_R8 | VCPU_REGS_R9 | VCPU_REGS_R10 | VCPU_REGS_R11
  | VCPU_REGS_R12 | VCPU_REGS_R13 | VCPU_REGS_R14 | VCPU_REGS_R15
  | VCPU_REGS_RIP.

#[global] Instance kvm_reg_eq_dec : EqDecision kvm_reg.
Proof. solve_decision. Defined.

(** The VMCS fields that the embedded functions name. *)
Inductive vmcs_field :=
  | GUEST_CR0 | GUEST_CR3 | GUEST_RFLAGS | GUEST_RSP | GUEST_RIP
  | CR0_READ_SHADOW | SECONDARY_VM_EXEC_CONTROL | CPU_BASED_VM_EXEC_CONTROL
  | VM_ENTRY_INTR_INFO_FIELD | VM_EXIT_INSTRUCTION_LEN | EXIT_QUALIFICATION
  | GUEST_PHYSICAL_ADDRESS | VM_INSTRUCTION_ERROR
  | VM_ENTRY_EXCEPTION_ERROR_CODE | VM_EXIT_REASON.

#[global] Instance vmcs_field_eq_dec : EqDecision vmcs_field.
Proof. solve_decision. Defined.

(** [struct kvm_cpuid_entry2] of [linux/kvm.h]. *)
Module kvm_cpuid_entry2.
Record t := { function : Z; index : Z; flags : Z;
              eax : Z; ebx : Z; ecx : Z; edx : Z }.
End kvm_cpuid_entry2.

(** [struct kvm_run] of [linux/kvm.h]: the exit reason and the [io] member
    of its union. *)
Module kvm_run.
Record io_t := { direction : Z; size : Z; port : Z; count : Z;
                 data_offset : Z }.
Record t := { exit_reason : Z; io : io_t }.
Definition set_exit_reason (x : Z) (r : t) : t :=
  {| exit_reason := x; io := io r |}.
Definition set_io (x : io_t) (r : t) : t :=
  {| exit_reason := exit_reason r; io := x |}.
End kvm_run.

(** [struct kvm_irq_level] of [linux/kvm.h]. *)
Module kvm_irq_level.
Record t := { irq : Z; level : Z }.
End kvm_irq_level.

(** [struct kvm_userspace_memory_region] of [linux/kvm.h]. *)
Module kvm_userspace_memory_region.
Record t := { slot : Z; flags : Z; guest_phys_addr : Z; memory_size : Z;
              userspace_addr : Z }.
End kvm_userspace_memory_region.

(** ** [struct vcpu] *)

(** The members that the C code of the embedded functions reads or writes.
    [regs] is indexed by the register enum; [pio_data] is the byte content
    of the data page it points to; [cpuids] is the content of the override
    array. *)
Record vcpu := {
  kvm_vcpu : kvm_run.t;
  regs : kvm_reg → Z;
  rflags : Z;
  cr2 : Z;
  pio_data : list Z;
  pending_io : Z;
  cr3_shadow : Z;
  exit_qualification : Z;
  exit_instruction_len : Z;
  phys : Z;
  irq_level : list Z;
  pending_irq : Z;
  cpuids : list kvm_cpuid_entry2.t;
  cpuid_count : Z;
  vmcs_loaded : Z;
  pml4 : Z;
  paging : Z
}.

Definition set_kvm_vcpu (x : kvm_run.t) (r : vcpu) : vcpu :=
  {| kvm_vcpu := x; regs := regs r; rflags := rflags r; cr2 := cr2 r;
     pio_data := pio_data r; pending_io := pending_io r;
     cr3_shadow := cr3_shadow r; exit_qualification := exit_qualification r;
     exit_instruction_len := exit_instruction_len r; phys := phys r;
     irq_level := irq_level r; pending_irq := pending_irq r;
     cpuids := cpuids r; cpuid_count := cpuid_count r;
     vmcs_loaded := vmcs_loaded r; pml4 := pml4 r; paging := paging r |}.
Definition set_regs (x : kvm_reg → Z) (r : vcpu) : vcpu :=
  {| kvm_vcpu := kvm_vcpu r; regs := x; rflags := rflags r; cr2 := cr2 r;
     pio_data := pio_data r; pending_io := pending_io r;
     cr3_shadow := cr3_shadow r; exit_qualification := exit_qualification r;
     exit_instruction_len := exit_instruction_len r; phys := phys r;
     irq_level := irq_level r; pending_irq := pending_irq r;
     cpuids := cpuids r; cpuid_count := cpuid_count r;
     vmcs_loaded := vmcs_loaded r; pml4 := pml4 r; paging := paging r |}.
Definition set_rflags (x : Z) (r : vcpu) : vcpu :=
  {| kvm_vcpu := kvm_vcpu r; regs := regs r; rflags := x; cr2 := cr2 r;
     pio_data := pio_data r; pending_io := pending_io r;
     cr3_shadow := cr3_shadow r; exit_qualification := exit_qualification r;
     exit_instruction_len := exit_instruction_len r; phys := phys r;
     irq_level := irq_level r; pending_irq := pending_irq r;
     cpuids := cpuids r; cpuid_count := cpuid_count r;
     vmcs_loaded := vmcs_loaded r; pml4 := pml4 r; paging := paging r |}.
Definition set_cr2 (x : Z) (r : vcpu) : vcpu :=
  {| kvm_vcpu := kvm_vcpu r; regs := regs r; rflags := rflags r; cr2 := x;
     pio_data := pio_data r; pending_io := pending_io r;
     cr3_shadow := cr3_shadow r; exit_qualification := exit_qualification r;
     exit_instruction_len := exit_instruction_len r; phys := phys r;
     irq_level := irq_level r; pending_irq := pending_irq r;
     cpuids := cpuids r; cpuid_count := cpuid_count r;
     vmcs_loaded := vmcs_loaded r; pml4 := pml4 r; paging := paging r |}.
Definition set_pio_data (x : list Z) (r : vcpu) : vcpu :=
  {| kvm_vcpu := kvm_vcpu r; regs := regs r; rflags := rflags r;
     cr2 := cr2 r; pio_data := x; pending_io := pending_io r;
     cr3_shadow := cr3_shadow r; exit_qualification := exit_qualification r;
     exit_instruction_len := exit_instruction_len r; phys := phys r;
     irq_level := irq_level r; pending_irq := pending_irq r;
     cpuids := cpuids r; cpuid_count := cpuid_count r;
     vmcs_loaded := vmcs_loaded r; pml4 := pml4 r; paging := paging r |}.
Definition set_pending_io (x : Z) (r : vcpu) : vcpu :=
  {| kvm_vcpu := kvm_vcpu r; regs := regs r; rflags := rflags r;
     cr2 := cr2 r; pio_data := pio_data r; pending_io := x;
     cr3_shadow := cr3_shadow r; exit_qualification := exit_qualification r;
     exit_instruction_len := exit_instruction_len r; phys := phys r;
     irq_level := irq_level r; pending_irq := pending_irq r;
     cpuids := cpuids r; cpuid_count := cpuid_count r;
     vmcs_loaded := vmcs_loaded r; pml4 := pml4 r; paging := paging r |}.
Definition set_cr3_shadow (x : Z) (r : vcpu) : vcpu :=
  {| kvm_vcpu := kvm_vcpu r; regs := regs r; rflags := rflags r;
     cr2 := cr2 r; pio_data := pio_data r; pending_io := pending_io r;
     cr3_shadow := x; exit_qualification := exit_qualification r;
     exit_instruction_len := exit_instruction_len r; phys := phys r;
     irq_level := irq_level r; pending_irq := pending_irq r;
     cpuids := cpuids r; cpuid_count := cpuid_count r;
     vmcs_loaded := vmcs_loaded r; pml4 := pml4 r; paging := paging r |}.
Definition set_exit_qualification (x : Z) (r : vcpu) : vcpu :=
  {| kvm_vcpu := kvm_vcpu r; regs := regs r; rflags := rflags r;
     cr2 := cr2 r; pio_data := pio_data r; pending_io := pending_io r;
     cr3_shadow := cr3_shadow r; exit_qualification := x;
     exit_instruction_len := exit_instruction_len r; phys := phys r;
     irq_level := irq_level r; pending_irq := pending_irq r;
     cpuids := cpuids r; cpuid_count := cpuid_count r;
     vmcs_loaded := vmcs_loaded r; pml4 := pml4 r; paging := paging r |}.
Definition set_exit_instruction_len (x : Z) (r : vcpu) : vcpu :=
  {| kvm_vcpu := kvm_vcpu r; regs := regs r; rflags := rflags r;
     cr2 := cr2 r; pio_data := pio_data r; pending_io := pending_io r;
     cr3_shadow := cr3_shadow r; exit_qualification := exit_qualification r;
     exit_instruction_len := x; phys := phys r; irq_level := irq_level r;
     pending_irq := pending_irq r; cpuids := cpuids r;
     cpuid_count := cpuid_count r; vmcs_loaded := vmcs_loaded r;
     pml4 := pml4 r; paging := paging r |}.
Definition set_phys (x : Z) (r : vcpu) : vcpu :=
  {| kvm_vcpu := kvm_vcpu r; regs := regs r; rflags := rflags r;
     cr2 := cr2 r; pio_data := pio_data r; pending_io := pending_io r;
     cr3_shadow := cr3_shadow r; exit_qualification := exit_qualification r;
     exit_instruction_len := exit_instruction_len r; phys := x;
     irq_level := irq_level r; pending_irq := pending_irq r;
     cpuids := cpuids r; cpuid_count := cpuid_count r;
     vmcs_loaded := vmcs_loaded r; pml4 := pml4 r; paging := paging r |}.
Definition set_irq_level (x : list Z) (r : vcpu) : vcpu :=
  {| kvm_vcpu := kvm_vcpu r; regs := regs r; rflags := rflags r;
     cr2 := cr2 r; pio_data := pio_data r; pending_io := pending_io r;
     cr3_shadow := cr3_shadow r; exit_qualification := exit_qualification r;
     exit_instruction_len := exit_instruction_len r; phys := phys r;
     irq_level := x; pending_irq := pending_irq r; cpuids := cpuids r;
     cpuid_count := cpuid_count r; vmcs_loaded := vmcs_loaded r;
     pml4 := pml4 r; paging := paging r |}.
Definition set_pending_irq (x : Z) (r : vcpu) : vcpu :=
  {| kvm_vcpu := kvm_vcpu r; regs := regs r; rflags := rflags r;
     cr2 := cr2 r; pio_data := pio_data r; pending_io := pending_io r;
     cr3_shadow := cr3_shadow r; exit_qualification := exit_qualification r;
     exit_instruction_len := exit_instruction_len r; phys := phys r;
     irq_level := irq_level r; pending_irq := x; cpuids := cpuids r;
     cpuid_count := cpuid_count r; vmcs_loaded := vmcs_loaded r;
     pml4 := pml4 r; paging := paging r |}.
Definition set_cpuids (x : list kvm_cpuid_entry2.t) (r : vcpu) : vcpu :=
  {| kvm_vcpu := kvm_vcpu r; regs := regs r; rflags := rflags r;
     cr2 := cr2 r; pio_data := pio_data r; pending_io := pending_io r;
     cr3_shadow := cr3_shadow r; exit_qualification := exit_qualification r;
     exit_instruction_len := exit_instruction_len r; phys := phys r;
     irq_level := irq_level r; pending_irq := pending_irq r; cpuids := x;
     cpuid_count := cpuid_count r; vmcs_loaded := vmcs_loaded r;
     pml4 := pml4 r; paging := paging r |}.
Definition set_cpuid_count (x : Z) (r : vcpu) : vcpu :=
  {| kvm_vcpu := kvm_vcpu r; regs := regs r; rflags := rflags r;
     cr2 := cr2 r; pio_data := pio_data r; pending_io := pending_io r;
     cr3_shadow := cr3_shadow r; exit_qualification := exit_qualification r;
     exit_instruction_len := exit_instruction_len r; phys := phys r;
     irq_level := irq_level r; pending_irq := pending_irq r;
     cpuids := cpuids r; cpuid_count := x; vmcs_loaded := vmcs_loaded r;
     pml4 := pml4 r; paging := paging r |}.
Definition set_vmcs_loaded (x : Z) (r : vcpu) : vcpu :=
  {| kvm_vcpu := kvm_vcpu r; regs := regs r; rflags := rflags r;
     cr2 := cr2 r; pio_data := pio_data r; pending_io := pending_io r;
     cr3_shadow := cr3_shadow r; exit_qualification := exit_qualification r;
     exit_instruction_len := exit_instruction_len r; phys := phys r;
     irq_level := irq_level r; pending_irq := pending_irq r;
     cpuids := cpuids r; cpuid_count := cpuid_count r; vmcs_loaded := x;
     pml4 := pml4 r; paging := paging r |}.
Definition set_pml4 (x : Z) (r : vcpu) : vcpu :=
  {| kvm_vcpu := kvm_vcpu r; regs := regs r; rflags := rflags r;
     cr2 := cr2 r; pio_data := pio_data r; pending_io := pending_io r;
     cr3_shadow := cr3_shadow r; exit_qualification := exit_qualification r;
     exit_instruction_len := exit_instruction_len r; phys := phys r;
     irq_level := irq_level r; pending_irq := pending_irq r;
     cpuids := cpuids r; cpuid_count := cpuid_count r;
     vmcs_loaded := vmcs_loaded r; pml4 := x; paging := paging r |}.
Definition set_paging (x : Z) (r : vcpu) : vcpu :=
  {| kvm_vcpu := kvm_vcpu r; regs := regs r; rflags := rflags r;
     cr2 := cr2 r; pio_data := pio_data r; pending_io := pending_io r;
     cr3_shadow := cr3_shadow r; exit_qualification := exit_qualification r;
     exit_instruction_len := exit_instruction_len r; phys := phys r;
     irq_level := irq_level r; pending_irq := pending_irq r;
     cpuids := cpuids r; cpuid_count := cpuid_count r;
     vmcs_loaded := vmcs_loaded r; pml4 := pml4 r; paging := x |}.

(** ** The machine *)

(** The vcpu together with what its code reaches outside of it: kernel
    memory, the content of the VMCS, the MSR file of the host processor
    ([None] at an index where the processor has no MSR), the interrupt flag
    of the host, whether a signal is pending for the calling process, the
    number of world switches performed so far, and the console that
    [printf] writes to (format string and arguments). *)
Record machine := {
  cpu : vcpu;
  kmem : mem;
  vmcs : vmcs_field → Z;
  host_msr : Z → option Z;
  host_if : bool;
  signal_pending : bool;
  world_switches : nat;
  console : list (string * list Z)
}.

Definition set_cpu (x : vcpu) (r : machine) : machine :=
  {| cpu := x; kmem := kmem r; vmcs := vmcs r; host_msr := host_msr r;
     host_if := host_if r; signal_pending := signal_pending r;
     world_switches := world_switches r; console := console r |}.
Definition set_kmem (x : mem) (r : machine) : machine :=
  {| cpu := cpu r; kmem := x; vmcs := vmcs r; host_msr := host_msr r;
     host_if := host_if r; signal_pending := signal_pending r;
     world_switches := world_switches r; console := console r |}.
Definition set_vmcs (x : vmcs_field → Z) (r : machine) : machine :=
  {| cpu := cpu r; kmem := kmem r; vmcs := x; host_msr := host_msr r;
     host_if := host_if r; signal_pending := signal_pending r;
     world_switches := world_switches r; console := console r |}.
Definition set_host_msr (x : Z → option Z) (r : machine) : machine :=
  {| cpu := cpu r; kmem := kmem r; vmcs := vmcs r; host_msr := x;
     host_if := host_if r; signal_pending := signal_pending r;
     world_switches := world_switches r; console := console r |}.
Definition set_host_if (x : bool) (r : machine) : machine :=
  {| cpu := cpu r; kmem := kmem r; vmcs := vmcs r; host_msr := host_msr r;
     host_if := x; signal_pending := signal_pending r;
     world_switches := world_switches r; console := console r |}.
Definition set_signal_pending (x : bool) (r : machine) : machine :=
  {| cpu := cpu r; kmem := kmem r; vmcs := vmcs r; host_msr := host_msr r;
     host_if := host_if r; signal_pending := x;
     world_switches := world_switches r; console := console r |}.
Definition set_world_switches (x : nat) (r : machine) : machine :=
  {| cpu := cpu r; kmem := kmem r; vmcs := vmcs r; host_msr := host_msr r;
     host_if := host_if r; signal_pending := signal_pending r;
     world_switches := x; console := console r |}.
Definition set_console (x : list (string * list Z)) (r : machine) : machine :=
  {| cpu := cpu r; kmem := kmem r; vmcs := vmcs r; host_msr := host_msr r;
     host_if := host_if r; signal_pending := signal_pending r;
     world_switches := world_switches r; console := x |}.

(** What one world switch leaves behind: the guest registers saved by the
    exit stub, the VMCS as the processor updated it, and the state of the
    host that changed while the guest ran. *)
Record vmexit := {
  exit_regs : kvm_reg → Z;
  exit_cr2 : Z;
  exit_vmcs : vmcs_field → Z;
  exit_host_msr : Z → option Z;
  exit_signal_pending : bool
}.

(** ** The monad of the vcpu code *)

(** A computation ends with a result and a new machine, with a fault (an
    invalid memory access), or because the fuel of a loop ran out. *)
Inductive outcome (A : Type) :=
  | Ok (x : A) (s : machine)
  | Fault
  | OutOfFuel.
Arguments Ok {A} x s.
Arguments Fault {A}.
Arguments OutOfFuel {A}.

Definition M (A : Type) : Type := machine → outcome A.

#[global] Instance M_ret : MRet M := λ A x s, Ok x s.
#[global] Instance M_bind : MBind M := λ A B f c s,
  match c s with
  | Ok x s' => f x s'
  | Fault => Fault
  | OutOfFuel => OutOfFuel
  end.

Definition get : M machine := λ s, Ok s s.
Definition modify (f : machine → machine) : M unit := λ s, Ok () (f s).
Definition get_vcpu : M vcpu := λ s, Ok (cpu s) s.
Definition modify_vcpu (f : vcpu → vcpu) : M unit :=
  modify (λ s, set_cpu (f (cpu s)) s).
Definition lift_option {A} (o : option A) : M A :=
  λ s, match o with Some x => Ok x s | None => Fault end.
Definition out_of_fuel {A} : M A := λ _, OutOfFuel.

Definition printf (fmt : string) (args : list Z) : M unit :=
  modify (λ s, set_console (console s ++ [(fmt, args)]) s).

(** Modelled from the spec: the VMCS accessors of [helpers/vmcs.h] read and
    write one field of the hardware control structure, at the width their
    name says. *)
Definition vmcs_readl (f : vmcs_field) : M Z := λ s, Ok (vmcs s f) s.
Definition vmcs_read32 (f : vmcs_field) : M Z := λ s, Ok (u32 (vmcs s f)) s.
Definition vmcs_writel (f : vmcs_field) (v : Z) : M unit :=
  modify (λ s, set_vmcs (<[f := ulong v]> (vmcs s)) s).
Definition vmcs_write64 (f : vmcs_field) (v : Z) : M unit :=
  modify (λ s, set_vmcs (<[f := ulong v]> (vmcs s)) s).
Definition vmcs_write32 (f : vmcs_field) (v : Z) : M unit :=
  modify (λ s, set_vmcs (<[f := u32 v]> (vmcs s)) s).

(** The macros [LOAD_VMCS] and [RELEASE_VMCS].  The spin lock they take
    and release, and the [vmcs_load] and [vmcs_clear] of the processor,
    have no counterpart in the sequential machine. *)
Definition LOAD_VMCS : M unit := modify_vcpu (set_vmcs_loaded 1).
Definition RELEASE_VMCS : M unit := modify_vcpu (set_vmcs_loaded 0).

(** ** Interfaces of the surrounding kernel *)

(** Constants of [asm/uapi_vmx.h]. *)
Class vmx_h := {
  VMX_EPT_READABLE_MASK : Z;
  VMX_EPT_WRITABLE_MASK : Z;
  VMX_EPT_EXECUTABLE_MASK : Z;
  EXIT_REASON_EXTERNAL_INTERRUPT : Z;
  EXIT_REASON_CPUID : Z;
  EXIT_REASON_IO_INSTRUCTION : Z;
  EXIT_REASON_MSR_READ : Z;
  EXIT_REASON_MSR_WRITE : Z;
  EXIT_REASON_EPT_VIOLATION : Z;
  EXIT_REASON_PREEMPTION_TIMER : Z;
  EXIT_REASON_APIC_ACCESS : Z;
  EXIT_REASON_PENDING_INTERRUPT : Z;
  EXIT_REASON_CR_ACCESS : Z;
  EXIT_REASON_DR_ACCESS : Z;
  EXIT_REASON_TASK_SWITCH : Z;
  INTR_INFO_VALID_MASK : Z;
  INTR_TYPE_EXT_INTR : Z;
  CPU_BASED_VIRTUAL_INTR_PENDING : Z;
  SECONDARY_EXEC_UNRESTRICTED_GUEST : Z;
  CONTROL_REG_ACCESS_NUM : Z;
  CONTROL_REG_ACCESS_TYPE : Z;
  CONTROL_REG_ACCESS_REG : Z
}.

(** Constants of [linux/kvm.h] and [errno.h]. *)
Class kvm_h := {
  KVM_EXIT_IO : Z;
  KVM_EXIT_IO_IN : Z;
  KVM_EXIT_IO_OUT : Z;
  EINVAL : Z
}.

(** Services of the kernel and of the processor.
    - [IOMallocAligned m size alignment]: the address of the block handed
      out in memory [m], or [0] when the allocation fails;
    - [__pa]: kernel virtual to physical address;
    - [cpuid eax ecx]: the [cpuid] instruction, giving eax, ebx, ecx, edx;
    - [kvm_reg_index n]: the register that slot [n] of [vcpu->regs] holds;
    - [init_host_values]: the host fields it writes into the VMCS;
    - [prepare addr size]: [IOMemoryDescriptor::prepare] on the descriptor
      of the user range, and [getPhysicalSegment addr size off] on it;
    - [cpu_number]. *)
Class kernel := {
  IOMallocAligned : mem → Z → Z → Z;
  __pa : Z → Z;
  cpuid : Z → Z → Z * Z * Z * Z;
  kvm_reg_index : Z → kvm_reg;
  init_host_values : (vmcs_field → Z) → (vmcs_field → Z);
  prepare : Z → Z → Z;
  getPhysicalSegment : Z → Z → Z → Z;
  cpu_number : Z
}.

Section Kext.
Context {vmx : vmx_h} {kvm : kvm_h} {krn : kernel}.

(** [IOCallocAligned] gives the memory after the call and the pointer it
    returns; a block of [size] bytes holds [size / 8] words. *)
Definition IOCallocAligned (m : mem) (size alignment : Z) : mem * Z :=
  let ret := IOMallocAligned m size alignment in
  if decide (ret ≠ 0)
  then (<[ret := replicate (Z.to_nat (size / 8)) 0]> m, ret)
  else (m, ret).

(** ** EPT functions *)

Definition EPT_DEFAULTS : Z :=
  Z.lor (Z.lor VMX_EPT_EXECUTABLE_MASK VMX_EPT_WRITABLE_MASK)
        VMX_EPT_READABLE_MASK.

(** [ept_init] gives the memory after the allocation and the new value of
    [vcpu->pml4].  The EPT functions use no member of the vcpu but [pml4]
    and take it in place of the vcpu. *)
Definition ept_init (m : mem) : mem * Z :=
  IOCallocAligned m (PAGE_SIZE * 2) PAGE_SIZE.

Definition ept_translate (m : mem) (pml4 virtual_address : Z) : option Z :=
  let pml4_idx := Z.land (Z.shiftr virtual_address 39) 0x1FF in
  let pdpt_idx := Z.land (Z.shiftr virtual_address 30) 0x1FF in
  let pd_idx := Z.land (Z.shiftr virtual_address 21) 0x1FF in
  let pt_idx := Z.land (Z.shiftr virtual_address 12) 0x1FF in
  pdpt ← load m pml4 (PAGE_OFFSET + pml4_idx);
  if decide (pdpt = 0) then Some 0 else
  pd ← load m pdpt (PAGE_OFFSET + pdpt_idx);
  if decide (pd = 0) then Some 0 else
  pt ← load m pd (PAGE_OFFSET + pd_idx);
  if decide (pt = 0) then Some 0 else
  e ← load m pt pt_idx;
  Some (Z.land e (ulong (Z.lnot (PAGE_SIZE - 1)))).

Definition ept_add_page (m : mem) (pml4 virtual_address physical_address : Z)
  : option mem :=
  let pml4_idx := Z.land (Z.shiftr virtual_address 39) 0x1FF in
  let pdpt_idx := Z.land (Z.shiftr virtual_address 30) 0x1FF in
  let pd_idx := Z.land (Z.shiftr virtual_address 21) 0x1FF in
  let pt_idx := Z.land (Z.shiftr virtual_address 12) 0x1FF in
  (* allocate the pdpt in the pml4 if NULL *)
  pdpt ← load m pml4 (PAGE_OFFSET + pml4_idx);
  '(m, pdpt) ←
    (if decide (pdpt = 0) then
       let '(m, pdpt) := IOCallocAligned m (PAGE_SIZE * 2) PAGE_SIZE in
       m ← store m pml4 (PAGE_OFFSET + pml4_idx) pdpt;
       m ← store m pml4 pml4_idx (Z.lor (__pa pdpt) EPT_DEFAULTS);
       Some (m, pdpt)
     else Some (m, pdpt));
  (* allocate the pd in the pdpt *)
  pd ← load m pdpt (PAGE_OFFSET + pdpt_idx);
  '(m, pd) ←
    (if decide (pd = 0) then
       let '(m, pd) := IOCallocAligned m (PAGE_SIZE * 2) PAGE_SIZE in
       m ← store m pdpt (PAGE_OFFSET + pdpt_idx) pd;
       m ← store m pdpt pdpt_idx (Z.lor (__pa pd) EPT_DEFAULTS);
       Some (m, pd)
     else Some (m, pd));
  (* allocate the pt in the pd *)
  pt ← load m pd (PAGE_OFFSET + pd_idx);
  '(m, pt) ←
    (if decide (pt = 0) then
       let '(m, pt) := IOCallocAligned m PAGE_SIZE PAGE_SIZE in
       m ← store m pd (PAGE_OFFSET + pd_idx) pt;
       m ← store m pd pd_idx (Z.lor (__pa pt) EPT_DEFAULTS);
       Some (m, pt)
     else Some (m, pt));
  (* set the entry in the page table *)
  store m pt pt_idx
    (Z.lor (Z.lor physical_address EPT_DEFAULTS) EPT_CACHE_WRITEBACK).

(** ** Handle functions for different exit conditions *)

Definition skip_emulated_instruction : M unit :=
  modify_vcpu (λ v,
    set_regs (<[VCPU_REGS_RIP :=
                  ulong (regs v VCPU_REGS_RIP + exit_instruction_len v)]>
                (regs v)) v).

Definition handle_io : M Z :=
  v ← get_vcpu;
  let exit_qualification := exit_qualification v in
  let in_ := bool_decide (Z.land exit_qualification 8 ≠ 0) in
  modify_vcpu (λ v, set_kvm_vcpu (kvm_run.set_io
    {| kvm_run.direction := u8 (if in_ then KVM_EXIT_IO_IN else KVM_EXIT_IO_OUT);
       kvm_run.size := u8 (Z.land exit_qualification 7 + 1);
       kvm_run.port := u16 (Z.shiftr exit_qualification 16);
       kvm_run.count := 1;
       kvm_run.data_offset := KVM_PIO_PAGE_OFFSET * PAGE_SIZE |}
    (kvm_vcpu v)) v);;
  (if negb in_ then
     v ← get_vcpu;
     let val := regs v VCPU_REGS_RAX in
     let size := u32 (kvm_run.size (kvm_run.io (kvm_vcpu v))
                      * kvm_run.count (kvm_run.io (kvm_vcpu v))) in
     modify_vcpu (λ v,
       set_pio_data (memcpy_from_ulong (pio_data v) val (Z.min size 8)) v)
   else
     modify_vcpu (set_pending_io 1));;
  modify_vcpu (λ v,
    set_kvm_vcpu (kvm_run.set_exit_reason KVM_EXIT_IO (kvm_vcpu v)) v);;
  skip_emulated_instruction;;
  mret 0.

Definition handle_cpuid : M Z :=
  v ← get_vcpu;
  let function := u32 (regs v VCPU_REGS_RAX) in
  let eax := function in
  let ecx := u32 (regs v VCPU_REGS_RCX) in
  (* the loop stops at the first entry that matches *)
  let found :=
    find (λ e, bool_decide (kvm_cpuid_entry2.function e = function
                            ∧ kvm_cpuid_entry2.index e = ecx))
         (take (Z.to_nat (cpuid_count v)) (cpuids v)) in
  let '(eax, ebx, ecx, edx) :=
    match found with
    | Some e => (u32 (kvm_cpuid_entry2.eax e), u32 (kvm_cpuid_entry2.ebx e),
                 u32 (kvm_cpuid_entry2.ecx e), u32 (kvm_cpuid_entry2.edx e))
    | None =>
        (* lol emulate *)
        let '(a, b, c, d) := cpuid eax ecx in (u32 a, u32 b, u32 c, u32 d)
    end in
  (* xgetbv is JOKES *)
  let '(ecx, edx) :=
    if decide (function = 1) then
      (* no sse *)
      let edx := Z.land edx (Z.lnot (Z.lor (Z.shiftl 1 25) (Z.shiftl 1 26))) in
      (* no sse3 *)
      let ecx := Z.land ecx (Z.lnot (Z.lor (Z.shiftl 1 0) (Z.shiftl 1 9))) in
      (* no sse4 *)
      let ecx := Z.land ecx (Z.lnot (Z.lor (Z.shiftl 1 19) (Z.shiftl 1 20))) in
      (* no xsave *)
      let ecx := Z.land ecx (Z.lnot (Z.lor (Z.shiftl 1 26) (Z.shiftl 1 27))) in
      (ecx, edx)
    else (ecx, edx) in
  modify_vcpu (λ v, set_regs (<[VCPU_REGS_RAX := eax]> (regs v)) v);;
  modify_vcpu (λ v, set_regs (<[VCPU_REGS_RBX := ebx]> (regs v)) v);;
  modify_vcpu (λ v, set_regs (<[VCPU_REGS_RCX := ecx]> (regs v)) v);;
  modify_vcpu (λ v, set_regs (<[VCPU_REGS_RDX := edx]> (regs v)) v);;
  skip_emulated_instruction;;
  mret 1.

(** The [rdmsr] instruction on the MSR file of the host: the register
    selected by ECX, split into EAX (low half) and EDX (high half).  At an
    index where the processor has no MSR the instruction raises a
    general-protection fault; the code has no recovery for it, so there is
    no result. *)
Definition rdmsr (msr : Z → option Z) (c : Z) : option (Z * Z) :=
  x ← msr (u32 c);
  Some (Z.land x 0xFFFFFFFF, Z.land (Z.shiftr x 32) 0xFFFFFFFF).

Definition handle_rdmsr : M Z :=
  v ← get_vcpu;
  printf "rdmsr 0x%lX\n" [regs v VCPU_REGS_RCX];;
  (* emulation is lol *)
  s ← get;
  '(a, d) ← lift_option (rdmsr (host_msr s) (regs v VCPU_REGS_RCX));
  modify_vcpu (λ v, set_regs (<[VCPU_REGS_RAX := a]> (regs v)) v);;
  modify_vcpu (λ v, set_regs (<[VCPU_REGS_RDX := d]> (regs v)) v);;
  skip_emulated_instruction;;
  mret 1.

Definition handle_wrmsr : M Z :=
  v ← get_vcpu;
  printf "wrmsr 0x%lX\n" [regs v VCPU_REGS_RCX];;
  skip_emulated_instruction;;
  mret 1.

Definition handle_ept_violation : M Z :=
  v ← get_vcpu;
  printf "!!ept violation at %lx\n" [phys v];;
  skip_emulated_instruction;;
  mret 1.

Definition handle_preemption_timer : M Z := mret 1.

Definition handle_external_interrupt : M Z :=
  v ← get_vcpu;
  (* run the guest timer in lockstep with the host *)
  (if decide (exit_qualification v = 0)
   then modify_vcpu (λ v, set_pending_irq (Z.lor (pending_irq v) 1) v)
   else mret ());;
  (* check for signal to process *)
  s ← get;
  if signal_pending s then
    printf "got signal\n" [];;
    mret 0
  else
    mret 1.

Definition handle_apic_access : M Z :=
  v ← get_vcpu;
  printf "apic access: %lx\n" [exit_qualification v];;
  skip_emulated_instruction;;
  mret 1.

Definition handle_interrupt_window : M Z := mret 1.

Definition handle_dr : M Z :=
  skip_emulated_instruction;;
  mret 1.

Definition handle_cr : M Z :=
  v ← get_vcpu;
  let cr_num := int (Z.land (exit_qualification v) CONTROL_REG_ACCESS_NUM) in
  let cr_type :=
    int (Z.shiftr (Z.land (exit_qualification v) CONTROL_REG_ACCESS_TYPE) 4) in
  let cr_to_reg :=
    int (Z.shiftr (Z.land (exit_qualification v) CONTROL_REG_ACCESS_REG) 8) in
  (if decide (cr_num = 3) then
     if decide (cr_type = 0) then
       (* mov to cr3 *)
       modify_vcpu (λ v, set_cr3_shadow (regs v (kvm_reg_index cr_to_reg)) v);;
       s ← get;
       pa ← lift_option
              (ept_translate (kmem s) (pml4 (cpu s)) (cr3_shadow (cpu s)));
       printf "load cr3 %lx -> %lx\n" [cr3_shadow (cpu s); pa];;
       vmcs_writel GUEST_CR3 (cr3_shadow (cpu s))
     else if decide (cr_type = 1) then
       (* mov from cr3 *)
       modify_vcpu (λ v,
         set_regs (<[kvm_reg_index cr_to_reg := cr3_shadow v]> (regs v)) v)
     else mret ()
   else if decide (cr_num = 0) then
     if decide (cr_type = 0) then
       let val := regs v (kvm_reg_index cr_to_reg) in
       (* mov to cr0 *)
       vmcs_writel GUEST_CR0 val;;
       if decide (Z.land val (ulong (int (Z.shiftl 1 31))) ≠ 0) then
         printf "paging is on\n" [];;
         modify_vcpu (set_paging 1);;
         (* no unrestricted mode *)
         c ← vmcs_read32 SECONDARY_VM_EXEC_CONTROL;
         vmcs_write32 SECONDARY_VM_EXEC_CONTROL
           (Z.land c (Z.lnot SECONDARY_EXEC_UNRESTRICTED_GUEST));;
         vmcs_write64 CR0_READ_SHADOW (int (Z.shiftl 1 31))
       else
         printf "paging is off\n" [];;
         modify_vcpu (set_paging 0);;
         (* unrestricted mode *)
         c ← vmcs_read32 SECONDARY_VM_EXEC_CONTROL;
         vmcs_write32 SECONDARY_VM_EXEC_CONTROL
           (Z.lor c SECONDARY_EXEC_UNRESTRICTED_GUEST);;
         vmcs_write64 CR0_READ_SHADOW 0
     else mret ()
   else
     printf "can't emulate cr%d\n" [cr_num]);;
  skip_emulated_instruction;;
  mret 1.

Definition handle_task_switch : M Z :=
  printf "task switch\n" [];;
  mret 1.

(** The designated initialisers of the handler array, in the order of the
    source. *)
Definition kvm_vmx_exit_handlers : list (Z * M Z) :=
  [ (EXIT_REASON_EXTERNAL_INTERRUPT, handle_external_interrupt);
    (EXIT_REASON_CPUID, handle_cpuid);
    (EXIT_REASON_IO_INSTRUCTION, handle_io);
    (EXIT_REASON_MSR_READ, handle_rdmsr);
    (EXIT_REASON_MSR_WRITE, handle_wrmsr);
    (EXIT_REASON_EPT_VIOLATION, handle_ept_violation);
    (EXIT_REASON_PREEMPTION_TIMER, handle_preemption_timer);
    (EXIT_REASON_APIC_ACCESS, handle_apic_access);
    (EXIT_REASON_PENDING_INTERRUPT, handle_interrupt_window);
    (EXIT_REASON_CR_ACCESS, handle_cr);
    (EXIT_REASON_DR_ACCESS, handle_dr);
    (EXIT_REASON_TASK_SWITCH, handle_task_switch) ].

(** [ARRAY_SIZE]: one more than the largest designated index. *)
Definition kvm_vmx_max_exit_handlers : Z :=
  foldr (λ e n, Z.max (e.1 + 1) n) 0 kvm_vmx_exit_handlers.

(** [kvm_vmx_exit_handlers[r]]: the handler of the last initialiser that
    designates index [r]; an index no initialiser designates holds [NULL]. *)
Fixpoint designated (tbl : list (Z * M Z)) (r : Z) : option (M Z) :=
  match tbl with
  | [] => None
  | (k, h) :: tbl =>
      match designated tbl r with
      | Some h' => Some h'
      | None => if decide (k = r) then Some h else None
      end
  end.

(** ** Device functions *)

(** The assembly block of [kvm_run]: the guest runs until the next exit.
    The exit stub stores the guest's general registers other than RSP and
    RIP, and CR2, into the vcpu; the processor has updated the VMCS. *)
Definition world_switch (e : vmexit) : M unit :=
  modify (λ s,
    set_cpu
      (set_cr2 (exit_cr2 e)
        (set_regs (λ r, if decide (r = VCPU_REGS_RSP ∨ r = VCPU_REGS_RIP)
                        then regs (cpu s) r else exit_regs e r)
           (cpu s)))
      (set_vmcs (exit_vmcs e)
        (set_host_msr (exit_host_msr e)
          (set_signal_pending (exit_signal_pending e)
            (set_world_switches (S (world_switches s)) s))))).

(** [kvm_run]; [e] is what its world switch leaves behind. *)
Definition kvm_run (e : vmexit) : M unit :=
  v ← get_vcpu;
  (* load the backing store *)
  vmcs_writel GUEST_RFLAGS (rflags v);;
  vmcs_writel GUEST_RSP (regs v VCPU_REGS_RSP);;
  vmcs_writel GUEST_RIP (regs v VCPU_REGS_RIP);;
  (* cli *)
  modify (set_host_if false);;
  modify (λ s, set_vmcs (init_host_values (vmcs s)) s);;
  world_switch e;;
  (* read them? *)
  rf ← vmcs_readl GUEST_RFLAGS;
  modify_vcpu (set_rflags rf);;
  rsp ← vmcs_readl GUEST_RSP;
  modify_vcpu (λ v, set_regs (<[VCPU_REGS_RSP := rsp]> (regs v)) v);;
  rip ← vmcs_readl GUEST_RIP;
  modify_vcpu (λ v, set_regs (<[VCPU_REGS_RIP := rip]> (regs v)) v).

(** The loop of [kvm_set_user_memory_region] from offset [off] on, with [n]
    pages still to visit. *)
Fixpoint kvm_set_user_memory_region_pages
    (mr : kvm_userspace_memory_region.t) (n : nat) (off : Z) : M Z :=
  match n with
  | O => mret 0
  | S n =>
      let va := ulong (kvm_userspace_memory_region.userspace_addr mr + off) in
      let pa := getPhysicalSegment
                  (kvm_userspace_memory_region.userspace_addr mr)
                  (kvm_userspace_memory_region.memory_size mr) off in
      if decide (pa ≠ 0) then
        s ← get;
        m ← lift_option
              (ept_add_page (kmem s) (pml4 (cpu s))
                 (ulong (kvm_userspace_memory_region.guest_phys_addr mr + off))
                 pa);
        modify (set_kmem m);;
        kvm_set_user_memory_region_pages mr n (off + PAGE_SIZE)
      else
        printf "couldn't find vpage %lx\n" [va];;
        mret EINVAL
  end.

(** The [for] loop visits the offsets [0], [PAGE_SIZE], ... below
    [memory_size]; for a size that does not make [off] wrap, that is one
    pass per started page. *)
Definition kvm_set_user_memory_region
    (mr : kvm_userspace_memory_region.t) : M Z :=
  (* check alignment *)
  printf "MAPPING 0x%llx WITH FLAGS %x SLOT %d IN GUEST AT 0x%llx-0x%llx\n"
    [kvm_userspace_memory_region.userspace_addr mr;
     kvm_userspace_memory_region.flags mr;
     kvm_userspace_memory_region.slot mr;
     kvm_userspace_memory_region.guest_phys_addr mr;
     ulong (kvm_userspace_memory_region.guest_phys_addr mr
            + kvm_userspace_memory_region.memory_size mr)];;
  (* wire in the memory *)
  let ret := prepare (kvm_userspace_memory_region.userspace_addr mr)
                     (kvm_userspace_memory_region.memory_size mr) in
  if decide (ret ≠ 0) then
    printf "wire pages failed :(\n" [];;
    mret EINVAL
  else
    kvm_set_user_memory_region_pages mr
      (Z.to_nat ((kvm_userspace_memory_region.memory_size mr + PAGE_SIZE - 1)
                 / PAGE_SIZE)) 0.

(** The interrupt injection at the head of the loop body: the lowest
    pending line is taken off the bitmap and turned into the interrupt
    information of the next entry. *)
Definition kvm_run_wrapper_inject : M Z :=
  v ← get_vcpu;
  match find (λ i, bool_decide (Z.land (pending_irq v) (Z.shiftl 1 i) ≠ 0))
             (seqZ 0 IRQ_MAX) with
  | Some i =>
      modify_vcpu (λ v,
        set_pending_irq (Z.land (pending_irq v) (Z.lnot (Z.shiftl 1 i))) v);;
      if decide (paging v ≠ 0) then
        mret (Z.lor (Z.lor INTR_INFO_VALID_MASK INTR_TYPE_EXT_INTR) (i + 0x30))
      else
        mret (Z.lor (Z.lor INTR_INFO_VALID_MASK INTR_TYPE_EXT_INTR) (i + 8))
  | None => mret 0
  end.

(** The dispatch in the loop body: the handler of the exit reason is
    called when the reason is inside the array and its slot is not [NULL];
    otherwise [cont] becomes 0. *)
Definition kvm_run_wrapper_dispatch (exit_reason : Z) : M Z :=
  if decide (exit_reason < kvm_vmx_max_exit_handlers) then
    match designated kvm_vmx_exit_handlers exit_reason with
    | Some handler => handler
    | None => mret 0
    end
  else mret 0.

(** One pass through the body of the [while] loop of [kvm_run_wrapper]; it
    gives the new [cont], [exit_reason] and [error]. *)
Definition kvm_run_wrapper_body (exits : nat → vmexit)
    (cpun maxcont exit_reason : Z) : M (Z * Z * Z) :=
  intr_info ←
    (if decide (exit_reason = EXIT_REASON_PENDING_INTERRUPT)
     then kvm_run_wrapper_inject else mret 0);
  LOAD_VMCS;;
  (if decide (intr_info ≠ 0)
   then vmcs_write32 VM_ENTRY_INTR_INFO_FIELD intr_info else mret ());;
  v ← get_vcpu;
  c ← vmcs_read32 CPU_BASED_VM_EXEC_CONTROL;
  (if decide (pending_irq v ≠ 0) then
     (* set interrupt pending *)
     vmcs_write32 CPU_BASED_VM_EXEC_CONTROL
       (Z.lor c CPU_BASED_VIRTUAL_INTR_PENDING)
   else
     (* clear interrupt pending *)
     vmcs_write32 CPU_BASED_VM_EXEC_CONTROL
       (Z.land c (Z.lnot CPU_BASED_VIRTUAL_INTR_PENDING)));;
  (* DISABLES INTERRUPTS!!! *)
  s ← get;
  kvm_run (exits (world_switches s));;
  len ← vmcs_read32 VM_EXIT_INSTRUCTION_LEN;
  modify_vcpu (set_exit_instruction_len (int len));;
  qual ← vmcs_readl EXIT_QUALIFICATION;
  modify_vcpu (set_exit_qualification qual);;
  gpa ← vmcs_readl GUEST_PHYSICAL_ADDRESS;
  modify_vcpu (set_phys gpa);;
  error ← vmcs_read32 VM_INSTRUCTION_ERROR;
  entry_error ← vmcs_read32 VM_ENTRY_EXCEPTION_ERROR_CODE;
  exit_reason ← vmcs_read32 VM_EXIT_REASON;
  cont ← kvm_run_wrapper_dispatch exit_reason;
  RELEASE_VMCS;;
  (* sti *)
  modify (set_host_if true);;
  (* interrupt gets delivered here *)
  (if decide (exit_reason ≠ EXIT_REASON_IO_INSTRUCTION
              ∧ exit_reason ≠ EXIT_REASON_PREEMPTION_TIMER
              ∧ exit_reason ≠ EXIT_REASON_EXTERNAL_INTERRUPT
              ∧ exit_reason ≠ EXIT_REASON_PENDING_INTERRUPT
              ∧ exit_reason ≠ EXIT_REASON_TASK_SWITCH
              ∧ exit_reason ≠ EXIT_REASON_CPUID) then
     v ← get_vcpu;
     printf "%3d -(%d,%d)- entry %ld exit %ld(0x%lx) error %ld phys 0x%lx    rip %lx  rsp %lx\n"
       [maxcont; cpun; cpu_number; entry_error; exit_reason; exit_reason;
        error; phys v; regs v VCPU_REGS_RIP; regs v VCPU_REGS_RSP]
   else mret ());;
  mret (cont, exit_reason, error).

(** The [while] loop of [kvm_run_wrapper], from the evaluation of its
    condition on; it gives the final [cont], [maxcont] and [exit_reason].
    [fuel] bounds the number of times the condition is evaluated. *)
Fixpoint kvm_run_wrapper_loop (fuel : nat) (exits : nat → vmexit)
    (cpun cont maxcont exit_reason : Z) : M (Z * Z * Z) :=
  match fuel with
  | O => out_of_fuel
  | S fuel =>
      if decide (cont ≠ 0) then
        (* (maxcont++) < 1000 *)
        if decide (maxcont < 1000) then
          let maxcont := maxcont + 1 in
          '(cont, exit_reason, error) ←
            kvm_run_wrapper_body exits cpun maxcont exit_reason;
          if decide (error ≠ 0) then mret (cont, maxcont, exit_reason)
          else kvm_run_wrapper_loop fuel exits cpun cont maxcont exit_reason
        else mret (cont, maxcont + 1, exit_reason)
      else mret (cont, maxcont, exit_reason)
  end.

(** [exits n] is what the world switch number [n] of the machine leaves
    behind. *)
Definition kvm_run_wrapper (fuel : nat) (exits : nat → vmexit) : M Z :=
  let cpun := cpu_number in
  v ← get_vcpu;
  (if decide (pending_io v ≠ 0) then
     let size := u32 (kvm_run.size (kvm_run.io (kvm_vcpu v))
                      * kvm_run.count (kvm_run.io (kvm_vcpu v))) in
     let val := memcpy_to_ulong (pio_data v) (Z.min size 8) in
     modify_vcpu (λ v, set_regs (<[VCPU_REGS_RAX := val]> (regs v)) v);;
     modify_vcpu (set_pending_io 0)
   else mret ());;
  modify_vcpu (λ v,
    set_kvm_vcpu (kvm_run.set_exit_reason 0 (kvm_vcpu v)) v);;
  '(cont, maxcont, exit_reason) ←
    kvm_run_wrapper_loop fuel exits cpun 1 0 0;
  (if decide (cont = 1)
   then printf "%d EXIT FROM TIMEOUT %lx\n" [maxcont; exit_reason]
   else mret ());;
  mret 0.

Definition kvm_irq_line (irq : kvm_irq_level.t) : M Z :=
  (* don't ask about the interrupt thing, i'm mad too *)
  (* cli *)
  modify (set_host_if false);;
  (if decide (kvm_irq_level.irq irq < IRQ_MAX) then
     v ← get_vcpu;
     l ← lift_option (irq_level v !! Z.to_nat (kvm_irq_level.irq irq));
     (if decide (l = 0 ∧ kvm_irq_level.level irq = 1) then
        (* trigger on rising edge? *)
        modify_vcpu (λ v,
          set_pending_irq
            (Z.lor (pending_irq v) (Z.shiftl 1 (kvm_irq_level.irq irq))) v)
      else mret ());;
     modify_vcpu (λ v,
       set_irq_level (<[Z.to_nat (kvm_irq_level.irq irq) :=
                          int (kvm_irq_level.level irq)]> (irq_level v)) v)
   else mret ());;
  (* sti *)
  modify (set_host_if true);;
  mret 0.

End Kext.

(** ** Well-formed page tables *)

(** A levelling [L] of the live blocks: level 4 is a pml4, 3 a pdpt, 2 a pd
    and 1 a pt; level 0 is any other block.  A table above level 1 has
    both halves and every non-null pointer of its shadow half leads to a
    live table one level down; a pt has one page of entries. *)
Definition ept_table_ok (L : Z → nat) (m : mem) (p : Z) (b : list Z) : Prop :=
  match L p with
  | O => True
  | S O => length b = 512%nat
  | S (S n) =>
      length b = 1024%nat
      ∧ ∀ i c, 0 ≤ i < 512 → b !! Z.to_nat (PAGE_OFFSET + i) = Some c →
               c ≠ 0 → L c = S n ∧ is_Some (m !! c)
  end.

Definition ept_typed (L : Z → nat) (m : mem) : Prop :=
  ∀ p b, m !! p = Some b → ept_table_ok L m p b.

Definition wf_ept (m : mem) (pml4 : Z) : Prop :=
  pml4 ≠ 0 ∧ is_Some (m !! pml4) ∧ ∃ L, L pml4 = 4%nat ∧ ept_typed L m.

(** The walk of an address reaches a table that was never allocated: the
    shadow slot of the pml4, of the pdpt or of the pd on its path is
    [NULL]. *)
Definition ept_walk_missing (m : mem) (pml4 va : Z) : Prop :=
  let pml4_idx := Z.land (Z.shiftr va 39) 0x1FF in
  let pdpt_idx := Z.land (Z.shiftr va 30) 0x1FF in
  let pd_idx := Z.land (Z.shiftr va 21) 0x1FF in
  load m pml4 (PAGE_OFFSET + pml4_idx) = Some 0
  ∨ (∃ pdpt, load m pml4 (PAGE_OFFSET + pml4_idx) = Some pdpt ∧ pdpt ≠ 0
       ∧ load m pdpt (PAGE_OFFSET + pdpt_idx) = Some 0)
  ∨ (∃ pdpt pd, load m pml4 (PAGE_OFFSET + pml4_idx) = Some pdpt ∧ pdpt ≠ 0
       ∧ load m pdpt (PAGE_OFFSET + pdpt_idx) = Some pd ∧ pd ≠ 0
       ∧ load m pd (PAGE_OFFSET + pd_idx) = Some 0).

(** ** Reasoning about the monad *)

(** [wp c Q s]: run from [s], the computation [c] completes without a
    fault and within its fuel, with a result and a state that satisfy
    [Q]. *)
Definition wp {A} (c : M A) (Q : A → machine → Prop) (s : machine) : Prop :=
  ∃ x s', c s = Ok x s' ∧ Q x s'.

(** What the handlers and the run loop leave alone or change in step: the
    kernel memory and the root of the page tables, and the number of world
    switches and the pending-signal flag, which only the world switch
    updates. *)
Definition frame (m : mem) (p : Z) (n : nat) (b : bool) (s : machine) : Prop :=
  kmem s = m ∧ pml4 (cpu s) = p ∧ world_switches s = n ∧ signal_pending s = b.

(** The [wrmsr] instruction on the MSR file of the host: the register
    selected by ECX receives EDX:EAX. *)
Definition wrmsr (msr : Z → option Z) (c a d : Z) : Z → option Z :=
  <[u32 c := Some (Z.lor (Z.shiftl (u32 d) 32) (u32 a))]> msr.

Section RunLoopPredicates.
Context {vmx : vmx_h} {kvm : kvm_h} {krn : kernel}.

(** The handler that the run loop calls for the exit [e] returns
    "continue": on every machine whose pending-signal flag is the one the
    exit left, the dispatch of the exit reason, when it completes, gives
    1. *)
Definition handler_continues (e : vmexit) : Prop :=
  ∀ s c s', signal_pending s = exit_signal_pending e →
    kvm_run_wrapper_dispatch (u32 (exit_vmcs e VM_EXIT_REASON)) s = Ok c s' →
    c = 1.

(** The designated initialisers of the handler array name distinct
    indices. *)
Definition exit_reasons_distinct : Prop :=
  NoDup (kvm_vmx_exit_handlers.*1).

(** The exit is no read of an MSR that the host processor lacks: when its
    reason is an MSR read, the MSR file that the exit leaves has the
    register that the guest's RCX names. *)
Definition rdmsr_exit_readable (e : vmexit) : Prop :=
  u32 (exit_vmcs e VM_EXIT_REASON) = EXIT_REASON_MSR_READ →
  is_Some (exit_host_msr e (u32 (exit_regs e VCPU_REGS_RCX))).

(** The exit reasons whose handler returns 1 whenever it returns. *)
Definition continuing_reasons : list Z :=
  [ EXIT_REASON_CPUID; EXIT_REASON_MSR_READ; EXIT_REASON_MSR_WRITE;
    EXIT_REASON_EPT_VIOLATION; EXIT_REASON_PREEMPTION_TIMER;
    EXIT_REASON_APIC_ACCESS; EXIT_REASON_PENDING_INTERRUPT;
    EXIT_REASON_CR_ACCESS; EXIT_REASON_DR_ACCESS; EXIT_REASON_TASK_SWITCH ].

End RunLoopPredicates.

(** ** A concrete kernel *)

(** The architectural values of the VMX constants. *)
Definition intel_vmx : vmx_h := {|
  VMX_EPT_READABLE_MASK := 0x1;
  VMX_EPT_WRITABLE_MASK := 0x2;
  VMX_EPT_EXECUTABLE_MASK := 0x4;
  EXIT_REASON_EXTERNAL_INTERRUPT := 1;
  EXIT_REASON_CPUID := 10;
  EXIT_REASON_IO_INSTRUCTION := 30;
  EXIT_REASON_MSR_READ := 31;
  EXIT_REASON_MSR_WRITE := 32;
  EXIT_REASON_EPT_VIOLATION := 48;
  EXIT_REASON_PREEMPTION_TIMER := 52;
  EXIT_REASON_APIC_ACCESS := 44;
  EXIT_REASON_PENDING_INTERRUPT := 7;
  EXIT_REASON_CR_ACCESS := 28;
  EXIT_REASON_DR_ACCESS := 29;
  EXIT_REASON_TASK_SWITCH := 9;
  INTR_INFO_VALID_MASK := 0x80000000;
  INTR_TYPE_EXT_INTR := 0;
  CPU_BASED_VIRTUAL_INTR_PENDING := 0x4;
  SECONDARY_EXEC_UNRESTRICTED_GUEST := 0x80;
  CONTROL_REG_ACCESS_NUM := 0x7;
  CONTROL_REG_ACCESS_TYPE := 0x30;
  CONTROL_REG_ACCESS_REG := 0xf00
|}.

Definition linux_kvm : kvm_h := {|
  KVM_EXIT_IO := 2;
  KVM_EXIT_IO_IN := 0;
  KVM_EXIT_IO_OUT := 1;
  EINVAL := 22
|}.

(** A kernel whose allocator hands out the next address that is neither
    [NULL] nor live, whose memory is identity mapped, whose processor
    answers every [cpuid] leaf with all feature bits set, and whose memory
    descriptor wires every user range. *)
Definition bump_kernel : kernel := {|
  IOMallocAligned := λ m _ _, fresh ({[0]} ∪ dom m);
  __pa := λ x, x;
  cpuid := λ _ _, (0xFFFFFFFF, 0xFFFFFFFF, 0xFFFFFFFF, 0xFFFFFFFF);
  kvm_reg_index := λ n,
    nth (Z.to_nat n)
      [VCPU_REGS_RAX; VCPU_REGS_RCX; VCPU_REGS_RDX; VCPU_REGS_RBX;
       VCPU_REGS_RSP; VCPU_REGS_RBP; VCPU_REGS_RSI; VCPU_REGS_RDI;
       VCPU_REGS_R8; VCPU_REGS_R9; VCPU_REGS_R10; VCPU_REGS_R11;
       VCPU_REGS_R12; VCPU_REGS_R13; VCPU_REGS_R14; VCPU_REGS_R15]
      VCPU_REGS_RAX;
  init_host_values := λ f, f;
  prepare := λ _ _, 0;
  getPhysicalSegment := λ addr _ off, addr + off;
  cpu_number := 0
|}.

(** ** Concrete machines *)

(** The machine right after [KVM_CREATE_VM] on [bump_kernel]: the vcpu is
    zeroed, the pml4 is allocated, no world switch has happened. *)
Definition boot_vcpu (root : Z) : vcpu := {|
  kvm_vcpu := {| kvm_run.exit_reason := 0;
                 kvm_run.io := {| kvm_run.direction := 0; kvm_run.size := 0;
                                  kvm_run.port := 0; kvm_run.count := 0;
                                  kvm_run.data_offset := 0 |} |};
  regs := λ _, 0;
  rflags := 0;
  cr2 := 0;
  pio_data := replicate (Z.to_nat PAGE_SIZE) 0;
  pending_io := 0;
  cr3_shadow := 0;
  exit_qualification := 0;
  exit_instruction_len := 0;
  phys := 0;
  irq_level := replicate (Z.to_nat IRQ_MAX) 0;
  pending_irq := 0;
  cpuids := [];
  cpuid_count := 0;
  vmcs_loaded := 0;
  pml4 := root;
  paging := 0
|}.

Definition boot_machine : machine := {|
  cpu := boot_vcpu (@ept_init bump_kernel ∅).2;
  kmem := (@ept_init bump_kernel ∅).1;
  vmcs := λ _, 0;
  host_msr := λ _, Some 7;
  host_if := true;
  signal_pending := false;
  world_switches := 0;
  console := []
|}.

(** An exit for [reason] with a two-byte instruction and no error. *)
Definition exit_with (reason : Z) : vmexit := {|
  exit_regs := λ _, 0;
  exit_cr2 := 0;
  exit_vmcs := λ f,
    match f with
    | VM_EXIT_REASON => reason
    | VM_EXIT_INSTRUCTION_LEN => 2
    | _ => 0
    end;
  exit_host_msr := λ _, Some 7;
  exit_signal_pending := false
|}.

(** The guest asks for CPUID function 1 and the override table answers
    with every feature bit set. *)
Definition cpuid_machine : machine :=
  set_cpu
    (set_cpuid_count 1
       (set_cpuids
          [ {| kvm_cpuid_entry2.function := 1; kvm_cpuid_entry2.index := 0;
               kvm_cpuid_entry2.flags := 0;
               kvm_cpuid_entry2.eax := 0xFFFFFFFF;
               kvm_cpuid_entry2.ebx := 0xFFFFFFFF;
               kvm_cpuid_entry2.ecx := 0xFFFFFFFF;
               kvm_cpuid_entry2.edx := 0xFFFFFFFF |} ]
          (set_regs (<[VCPU_REGS_RAX := 1]> (regs (cpu boot_machine)))
             (cpu boot_machine))))
    boot_machine.

(** The guest reads MSR 0x174 on a host that has no such MSR. *)
Definition rdmsr_gp_machine : machine :=
  set_cpu
    (set_regs (<[VCPU_REGS_RCX := 0x174]> (regs (cpu boot_machine)))
       (cpu boot_machine))
    (set_host_msr (λ i, if decide (i = 0x174) then None else Some 7)
       boot_machine).

(** The guest writes 5 to MSR 0x174; the host holds 7 there. *)
Definition wrmsr_machine : machine :=
  set_cpu
    (set_regs (<[VCPU_REGS_RCX := 0x174]>
                 (<[VCPU_REGS_RAX := 5]> (regs (cpu boot_machine))))
       (cpu boot_machine))
    boot_machine.

(** One page of guest memory at 0x1000 backed by user memory that starts
    one byte into a page. *)
Definition unaligned_region : kvm_userspace_memory_region.t := {|
  kvm_userspace_memory_region.slot := 0;
  kvm_userspace_memory_region.flags := 0;
  kvm_userspace_memory_region.guest_phys_addr := 0x1000;
  kvm_userspace_memory_region.memory_size := 0x1000;
  kvm_userspace_memory_region.userspace_addr := 0x7001
|}.

(** The page tables of [boot_machine]. *)
Definition fresh_ept : mem * Z := @ept_init bump_kernel ∅.

(** ** The rest of the EPT functions *)

(** [IOFree(p, size)]: the block at [p] goes back to the allocator.
    Freeing [NULL], an address that is not the start of a live block, or a
    block with another size than the one it was allocated with is a
    fault. *)
Definition IOFree (m : mem) (p size : Z) : option mem :=
  if decide (p = 0) then None
  else b ← m !! p;
       if decide (length b = Z.to_nat (size / 8)) then Some (delete p m)
       else None.

(** [for (idx = ...) body]: the passes of a loop over the indices [idxs],
    each on the memory the pass before left. *)
Fixpoint ept_free_for (body : mem → Z → option mem) (idxs : list Z) (m : mem)
  : option mem :=
  match idxs with
  | [] => Some m
  | idx :: idxs => m ← body m idx; ept_free_for body idxs m
  end.

Definition ept_free (m : mem) (pml4 : Z) : option mem :=
  m ← ept_free_for (λ m pml4_idx,
         pdpt ← load m pml4 (PAGE_OFFSET + pml4_idx);
         if decide (pdpt = 0) then Some m (* continue *) else
         m ← ept_free_for (λ m pdpt_idx,
               pd ← load m pdpt (PAGE_OFFSET + pdpt_idx);
               if decide (pd = 0) then Some m (* continue *) else
               m ← ept_free_for (λ m pd_idx,
                     pt ← load m pd (PAGE_OFFSET + pd_idx);
                     if decide (pt = 0) then Some m (* continue *) else
                     IOFree m pt PAGE_SIZE)
                   (seqZ 0 PAGE_OFFSET) m;
               IOFree m pd (PAGE_SIZE * 2))
             (seqZ 0 PAGE_OFFSET) m;
         IOFree m pdpt (PAGE_SIZE * 2))
       (seqZ 0 PAGE_OFFSET) m;
  IOFree m pml4 (PAGE_SIZE * 2).

(** ** The walks of the EPT functions, level by level

    [ept_translate], [ept_add_page] and [ept_free] repeat one step at the
    pml4, the pdpt and the pd and end at the pt.  The definitions below
    write that step once, for a table [p] that is [n] levels above the page
    tables; at [n = 3] they are the three functions themselves. *)

Section EptLevels.
Context {vmx : vmx_h} {krn : kernel}.

(** The index of an address in the table [n] levels above the pt. *)
Definition ept_index (n : nat) (va : Z) : Z :=
  Z.land (Z.shiftr va (12 + 9 * Z.of_nat n)) 0x1FF.

(** The size a table is allocated with: a pt has one page, the tables
    above it a second one for the shadow pointers. *)
Definition ept_table_size (n : nat) : Z :=
  match n with O => PAGE_SIZE | S _ => PAGE_SIZE * 2 end.

Fixpoint ept_translate_from (n : nat) (m : mem) (p va : Z) : option Z :=
  match n with
  | O =>
      e ← load m p (ept_index 0 va);
      Some (Z.land e (ulong (Z.lnot (PAGE_SIZE - 1))))
  | S k =>
      c ← load m p (PAGE_OFFSET + ept_index n va);
      if decide (c = 0) then Some 0 else ept_translate_from k m c va
  end.

Fixpoint ept_add_page_from (n : nat) (m : mem) (p va pa : Z) : option mem :=
  match n with
  | O =>
      store m p (ept_index 0 va)
        (Z.lor (Z.lor pa EPT_DEFAULTS) EPT_CACHE_WRITEBACK)
  | S k =>
      c ← load m p (PAGE_OFFSET + ept_index n va);
      '(m, c) ←
        (if decide (c = 0) then
           let '(m, c) := IOCallocAligned m (ept_table_size k) PAGE_SIZE in
           m ← store m p (PAGE_OFFSET + ept_index n va) c;
           m ← store m p (ept_index n va) (Z.lor (__pa c) EPT_DEFAULTS);
           Some (m, c)
         else Some (m, c));
      ept_add_page_from k m c va pa
  end.

Fixpoint ept_free_from (n : nat) (m : mem) (p : Z) : option mem :=
  match n with
  | O => IOFree m p PAGE_SIZE
  | S k =>
      m ← ept_free_for (λ m idx,
             c ← load m p (PAGE_OFFSET + idx);
             if decide (c = 0) then Some m else ept_free_from k m c)
           (seqZ 0 PAGE_OFFSET) m;
      IOFree m p (PAGE_SIZE * 2)
  end.

(** ** Page tables as a tree

    [ept_tree n p t]: the blocks of [t] are exactly the tables of a tree
    whose root [p] is [n] levels above the page tables.  A pt is one page
    of entries.  A table above has a hardware half and a shadow half; each
    slot is either empty in both halves, or its shadow half points to a
    subtree of its own and its hardware half holds the physical address of
    that subtree's root with the default permissions. *)

Definition ept_slot (P : Z → mem → Prop) (e c : Z) (t : mem) : Prop :=
  if decide (c = 0) then e = 0 ∧ t = ∅
  else e = Z.lor (__pa c) EPT_DEFAULTS ∧ P c t.

(** The subtrees of the slots [hw], [sh] make up [t], and are disjoint. *)
Fixpoint ept_children (P : Z → mem → Prop) (hw sh : list Z) (t : mem)
  : Prop :=
  match hw, sh with
  | [], [] => t = ∅
  | e :: hw, c :: sh =>
      ∃ t1 t2, t = t1 ∪ t2 ∧ t1 ##ₘ t2
               ∧ ept_slot P e c t1 ∧ ept_children P hw sh t2
  | _, _ => False
  end.

Fixpoint ept_tree (n : nat) (p : Z) (t : mem) : Prop :=
  match n with
  | O => p ≠ 0 ∧ ∃ b, length b = 512%nat ∧ t = {[p := b]}
  | S k =>
      p ≠ 0 ∧ ∃ hw sh t',
        length hw = 512%nat ∧ length sh = 512%nat
        ∧ t' !! p = None ∧ t = <[p := hw ++ sh]> t'
        ∧ ept_children (ept_tree k) hw sh t'
  end.

(** Two addresses have the same indices in the table [n] levels above the
    pt and in all tables below it. *)
Definition ept_same_path (n : nat) (va vb : Z) : Prop :=
  ∀ l, (l ≤ n)%nat → ept_index l va = ept_index l vb.

End EptLevels.

(** The page number that the four indices of an address make up. *)
Definition ept_page (va : Z) : Z := Z.land (Z.shiftr va 12) (Z.ones 36).

(** A sequence of [ept_add_page] calls, one per pair of a guest physical
    and a host physical address. *)
Fixpoint ept_add_pages `{vmx_h, kernel} (m : mem) (pml4 : Z)
    (pages : list (Z * Z)) : option mem :=
  match pages with
  | [] => Some m
  | (gpa, hpa) :: pages =>
      m ← ept_add_page m pml4 gpa hpa; ept_add_pages m pml4 pages
  end.

(** ** Register access and the supported CPUID leaves *)

(** [struct kvm_regs] of [linux/kvm.h]. *)
Module kvm_regs.
Record t := {
  rax : Z; rbx : Z; rcx : Z; rdx : Z;
  rsi : Z; rdi : Z; rsp : Z; rbp : Z;
  r8 : Z; r9 : Z; r10 : Z; r11 : Z;
  r12 : Z; r13 : Z; r14 : Z; r15 : Z;
  rip : Z; rflags : Z
}.
End kvm_regs.

(** [E2BIG] of [errno.h]. *)
Class errno_h := {
  E2BIG : Z
}.

Section KextRegs.
Context {krn : kernel} {errno : errno_h}.

(** [kvm_get_regs] gives its return value and the structure it filled. *)
Definition kvm_get_regs : M (Z * kvm_regs.t) :=
  v ← get_vcpu;
  mret (0, {| kvm_regs.rax := regs v VCPU_REGS_RAX;
              kvm_regs.rcx := regs v VCPU_REGS_RCX;
              kvm_regs.rdx := regs v VCPU_REGS_RDX;
              kvm_regs.rbx := regs v VCPU_REGS_RBX;
              kvm_regs.rsp := regs v VCPU_REGS_RSP;
              kvm_regs.rbp := regs v VCPU_REGS_RBP;
              kvm_regs.rsi := regs v VCPU_REGS_RSI;
              kvm_regs.rdi := regs v VCPU_REGS_RDI;
              kvm_regs.r8 := regs v VCPU_REGS_R8;
              kvm_regs.r9 := regs v VCPU_REGS_R9;
              kvm_regs.r10 := regs v VCPU_REGS_R10;
              kvm_regs.r11 := regs v VCPU_REGS_R11;
              kvm_regs.r12 := regs v VCPU_REGS_R12;
              kvm_regs.r13 := regs v VCPU_REGS_R13;
              kvm_regs.r14 := regs v VCPU_REGS_R14;
              kvm_regs.r15 := regs v VCPU_REGS_R15;
              kvm_regs.rip := regs v VCPU_REGS_RIP;
              kvm_regs.rflags := rflags v |}).

(** [vcpu->regs[r] = x]. *)
Definition set_reg (r : kvm_reg) (x : Z) : M unit :=
  modify_vcpu (λ v, set_regs (<[r := x]> (regs v)) v).

Definition kvm_set_regs (kvm_regs : kvm_regs.t) : M Z :=
  set_reg VCPU_REGS_RAX (kvm_regs.rax kvm_regs);;
  set_reg VCPU_REGS_RCX (kvm_regs.rcx kvm_regs);;
  set_reg VCPU_REGS_RDX (kvm_regs.rdx kvm_regs);;
  set_reg VCPU_REGS_RBX (kvm_regs.rbx kvm_regs);;
  set_reg VCPU_REGS_RSP (kvm_regs.rsp kvm_regs);;
  set_reg VCPU_REGS_RBP (kvm_regs.rbp kvm_regs);;
  set_reg VCPU_REGS_RSI (kvm_regs.rsi kvm_regs);;
  set_reg VCPU_REGS_RDI (kvm_regs.rdi kvm_regs);;
  set_reg VCPU_REGS_R8 (kvm_regs.r8 kvm_regs);;
  set_reg VCPU_REGS_R9 (kvm_regs.r9 kvm_regs);;
  set_reg VCPU_REGS_R10 (kvm_regs.r10 kvm_regs);;
  set_reg VCPU_REGS_R11 (kvm_regs.r11 kvm_regs);;
  set_reg VCPU_REGS_R12 (kvm_regs.r12 kvm_regs);;
  set_reg VCPU_REGS_R13 (kvm_regs.r13 kvm_regs);;
  set_reg VCPU_REGS_R14 (kvm_regs.r14 kvm_regs);;
  set_reg VCPU_REGS_R15 (kvm_regs.r15 kvm_regs);;
  set_reg VCPU_REGS_RIP (kvm_regs.rip kvm_regs);;
  printf "setting rip: %llx\n" [kvm_regs.rip kvm_regs];;
  modify_vcpu (set_rflags (kvm_regs.rflags kvm_regs));;
  mret 0.

(** The leaves that [kvm_get_supported_cpuid] reports: function and
    index of the entries of its [param] array. *)
Definition kvm_get_supported_cpuid_param : list (Z * Z) :=
  [ (0x40000000, 0); (0x40000001, 0); (0, 0); (1, 0); (2, 0); (3, 0);
    (4, 0); (4, 1); (4, 2); (4, 3);
    (0x80000000, 0); (0x80000001, 0); (0x80000002, 0); (0x80000003, 0);
    (0x80000004, 0) ].

(** [kvm_get_supported_cpuid] on a request with room for [nent] entries:
    its return value and, when it gets that far, the new [nent] and the
    entries it copies out to the caller. *)
Definition kvm_get_supported_cpuid (nent : Z)
  : Z * option (Z * list kvm_cpuid_entry2.t) :=
  let ARRAY_SIZE_param := Z.of_nat (length kvm_get_supported_cpuid_param) in
  if decide (nent < ARRAY_SIZE_param) then (E2BIG, None)
  else
    (0, Some (ARRAY_SIZE_param,
              (λ '(function, index),
                 let '(a, b, c, d) := cpuid function index in
                 {| kvm_cpuid_entry2.function := function;
                    kvm_cpuid_entry2.index := index;
                    kvm_cpuid_entry2.flags := 0;
                    kvm_cpuid_entry2.eax := u32 a;
                    kvm_cpuid_entry2.ebx := u32 b;
                    kvm_cpuid_entry2.ecx := u32 c;
                    kvm_cpuid_entry2.edx := u32 d |})
              <$> kvm_get_supported_cpuid_param)).

End KextRegs.

(** The test of the lookup loop of [handle_cpuid]: the function and the
    index of the entry are the guest's EAX and ECX. *)
Definition cpuid_entry_matches (s : machine) (e : kvm_cpuid_entry2.t) : Prop :=
  kvm_cpuid_entry2.function e = u32 (regs (cpu s) VCPU_REGS_RAX)
  ∧ kvm_cpuid_entry2.index e = u32 (regs (cpu s) VCPU_REGS_RCX).

(** ** Device functions: the states of the processes *)

(** [struct state]: the members as the words of its block, and its size in
    bytes.  [open_count] is an [int] and fills its word with the padding
    before [vcpu]. *)
Module state.
Definition next : Z := 0.
Definition prev : Z := 1.
Definition process : Z := 2.
Definition open_count : Z := 3.
Definition vcpu : Z := 4.
Definition ioctl_lock : Z := 5.
Definition irq_lock : Z := 6.
Definition mp_lock_grp_attr : Z := 7.
Definition mp_lock_grp : Z := 8.
Definition sizeof : Z := 72.
End state.

(** The kernel services of the device functions.  [IOMalloc m size] is the
    pointer that the allocator returns on the memory [m]; the allocators
    of locks and lock groups give the object that the [n]th allocation of
    the kernel returns. *)
Class iokit_h := {
  IOMalloc : mem → Z → Z;
  IOLockAlloc : nat → Z;
  lck_grp_attr_alloc_init : nat → Z;
  lck_grp_alloc_init : nat → string → Z → Z
}.

(** The globals of the device functions and what they work on: the kernel
    memory, [head_of_state], whether [state_lock] is held, the number of
    locks and lock groups allocated so far, and the console. *)
Record device := {
  dev_mem : mem;
  head_of_state : Z;
  state_lock : bool;
  kernel_objects : nat;
  dev_console : list (string * list Z)
}.

Definition set_dev_mem (x : mem) (r : device) : device :=
  {| dev_mem := x; head_of_state := head_of_state r;
     state_lock := state_lock r; kernel_objects := kernel_objects r;
     dev_console := dev_console r |}.
Definition set_head_of_state (x : Z) (r : device) : device :=
  {| dev_mem := dev_mem r; head_of_state := x;
     state_lock := state_lock r; kernel_objects := kernel_objects r;
     dev_console := dev_console r |}.
Definition set_state_lock (x : bool) (r : device) : device :=
  {| dev_mem := dev_mem r; head_of_state := head_of_state r;
     state_lock := x; kernel_objects := kernel_objects r;
     dev_console := dev_console r |}.
Definition set_kernel_objects (x : nat) (r : device) : device :=
  {| dev_mem := dev_mem r; head_of_state := head_of_state r;
     state_lock := state_lock r; kernel_objects := x;
     dev_console := dev_console r |}.
Definition set_dev_console (x : list (string * list Z)) (r : device)
  : device :=
  {| dev_mem := dev_mem r; head_of_state := head_of_state r;
     state_lock := state_lock r; kernel_objects := kernel_objects r;
     dev_console := x |}.

(** A device function ends with a result and a new device state, with a
    fault (an invalid memory access, or the release of a lock that is not
    held), blocked on a lock that is never released, or because the fuel of
    a loop ran out. *)
Inductive dev_outcome (A : Type) :=
  | DevOk (x : A) (d : device)
  | DevFault
  | DevBlocked
  | DevOutOfFuel.
Arguments DevOk {A} x d.
Arguments DevFault {A}.
Arguments DevBlocked {A}.
Arguments DevOutOfFuel {A}.

Definition DevM (A : Type) : Type := device → dev_outcome A.

#[global] Instance DevM_ret : MRet DevM := λ A x d, DevOk x d.
#[global] Instance DevM_bind : MBind DevM := λ A B f c d,
  match c d with
  | DevOk x d' => f x d'
  | DevFault => DevFault
  | DevBlocked => DevBlocked
  | DevOutOfFuel => DevOutOfFuel
  end.

(** [dev_wp c Q d]: run from [d], the device function [c] returns, with a
    result and a device state that satisfy [Q]. *)
Definition dev_wp {A} (c : DevM A) (Q : A → device → Prop) (d : device)
  : Prop :=
  ∃ x d', c d = DevOk x d' ∧ Q x d'.

Definition dev_get : DevM device := λ d, DevOk d d.
Definition dev_modify (f : device → device) : DevM unit :=
  λ d, DevOk () (f d).
Definition dev_printf (fmt : string) (args : list Z) : DevM unit :=
  dev_modify (λ d, set_dev_console (dev_console d ++ [(fmt, args)]) d).

(** [p->member] as an rvalue and as the target of an assignment. *)
Definition dev_load (p member : Z) : DevM Z :=
  λ d, match load (dev_mem d) p member with
       | Some v => DevOk v d
       | None => DevFault
       end.
Definition dev_store (p member v : Z) : DevM unit :=
  λ d, match store (dev_mem d) p member v with
       | Some m => DevOk () (set_dev_mem m d)
       | None => DevFault
       end.

(** [IOLockLock(state_lock)] and [IOLockUnlock(state_lock)]. *)
Definition IOLockLock_state_lock : DevM unit :=
  λ d, if state_lock d then DevBlocked else DevOk () (set_state_lock true d).
Definition IOLockUnlock_state_lock : DevM unit :=
  λ d, if state_lock d then DevOk () (set_state_lock false d) else DevFault.

Section KextDevice.
Context {iokit : iokit_h}.

Definition IOCalloc (size : Z) : DevM Z :=
  λ d, let ret := IOMalloc (dev_mem d) size in
       if decide (ret ≠ 0)
       then DevOk ret
              (set_dev_mem
                 (<[ret := replicate (Z.to_nat (size / 8)) 0]> (dev_mem d)) d)
       else DevOk ret d.

(** The allocation of a lock or a lock group: the next object of the
    kernel. *)
Definition dev_alloc (f : nat → Z) : DevM Z :=
  λ d, DevOk (f (kernel_objects d))
             (set_kernel_objects (S (kernel_objects d)) d).

(** The [while] loop of [state_find], from the evaluation of its condition
    on; [fuel] bounds the number of times the condition is evaluated. *)
Fixpoint state_find_loop (fuel : nat) (pProcess state : Z) : DevM Z :=
  match fuel with
  | O => λ _, DevOutOfFuel
  | S fuel =>
      if decide (state ≠ 0) then
        if decide (ulong state < PAGE_SIZE) then
          dev_printf "WTF HOW DID THIS HAPPEN\n" [];;
          mret 0
        else
          process ← dev_load state state.process;
          if decide (process = pProcess) then mret state
          else
            next ← dev_load state state.next;
            state_find_loop fuel pProcess next
      else mret 0
  end.

(* must be called with state_lock held *)
Definition state_find (fuel : nat) (pProcess : Z) : DevM Z :=
  d ← dev_get;
  state_find_loop fuel pProcess (head_of_state d).

Definition kvm_dev_open (fuel : nat) (Dev fFlags fDevType pProcess : Z)
  : DevM Z :=
  IOLockLock_state_lock;;
  state ← state_find fuel pProcess;
  (* allocate a new state *)
  state ←
    (if decide (state = 0) then
       state ← IOCalloc state.sizeof;
       dev_store state state.process pProcess;;
       (* insert at the front of the list *)
       d ← dev_get;
       dev_store state state.next (head_of_state d);;
       d ← dev_get;
       (if decide (head_of_state d ≠ 0)
        then dev_store (head_of_state d) state.prev state
        else mret ());;
       dev_modify (set_head_of_state state);;
       mret state
     else mret state);
  IOLockUnlock_state_lock;;
  c ← dev_load state state.open_count;
  dev_store state state.open_count (int (c + 1));;
  dev_printf "kvm_dev_open: %p\n" [pProcess];;
  c ← dev_load state state.open_count;
  (if decide (c = 1) then
     (* just opened *)
     lock ← dev_alloc IOLockAlloc;
     dev_store state state.ioctl_lock lock;;
     lock ← dev_alloc IOLockAlloc;
     dev_store state state.irq_lock lock;;
     attr ← dev_alloc lck_grp_attr_alloc_init;
     dev_store state state.mp_lock_grp_attr attr;;
     attr ← dev_load state state.mp_lock_grp_attr;
     grp ← dev_alloc (λ n, lck_grp_alloc_init n "vmx" attr);
     dev_store state state.mp_lock_grp grp
   else mret ());;
  mret 0.

End KextDevice.

(** ** The list of states

    [state_list m prev head l]: from [head] on, the [next] pointers lead
    through the blocks at the addresses of [l], in this order, to [NULL];
    an entry of [l] is the address of a [struct state], its process and its
    open count, and the block points back with [prev] to the one before. *)
Fixpoint state_list (m : mem) (prev head : Z) (l : list (Z * Z * Z))
  : Prop :=
  match l with
  | [] => head = 0
  | (a, p, c) :: l =>
      head = a ∧ PAGE_SIZE ≤ a < 2 ^ 64
      ∧ ∃ b next, m !! a = Some b ∧ length b = 9%nat
          ∧ b !! Z.to_nat state.next = Some next
          ∧ b !! Z.to_nat state.prev = Some prev
          ∧ b !! Z.to_nat state.process = Some p
          ∧ b !! Z.to_nat state.open_count = Some c
          ∧ state_list m a next l
  end.

(** The states of a device: a list from [head_of_state] on, with no block
    twice and at most one state for a process. *)
Definition states_wf (d : device) (l : list (Z * Z * Z)) : Prop :=
  state_list (dev_mem d) 0 (head_of_state d) l
  ∧ NoDup (l.*1.*1) ∧ NoDup (l.*1.*2).

(** The state of a process in a list of states: the address of the first
    entry of the process, or [NULL]. *)
Fixpoint state_lookup (p : Z) (l : list (Z * Z * Z)) : Z :=
  match l with
  | [] => 0
  | (a, q, _) :: l => if decide (q = p) then a else state_lookup p l
  end.

(** One more open of the state of a process. *)
Fixpoint state_bump (p : Z) (l : list (Z * Z * Z)) : list (Z * Z * Z) :=
  match l with
  | [] => []
  | (a, q, c) :: l =>
      if decide (q = p) then (a, q, int (c + 1)) :: l
      else (a, q, c) :: state_bump p l
  end.

(** The list of states after process [p] opened the device, when [a] is
    the block that the allocator has for a new state. *)
Definition state_opened (a p : Z) (l : list (Z * Z * Z))
  : list (Z * Z * Z) :=
  if decide (state_lookup p l = 0) then (a, p, 1) :: l else state_bump p l.

(** ** More concrete kernels and machines *)

Definition posix_errno : errno_h := {| E2BIG := 7 |}.

(** [bump_kernel] with an allocator that has no memory left. *)
Definition oom_kernel : kernel := {|
  IOMallocAligned := λ _ _ _, 0;
  __pa := @__pa bump_kernel;
  cpuid := @cpuid bump_kernel;
  kvm_reg_index := @kvm_reg_index bump_kernel;
  init_host_values := @init_host_values bump_kernel;
  prepare := @prepare bump_kernel;
  getPhysicalSegment := @getPhysicalSegment bump_kernel;
  cpu_number := @cpu_number bump_kernel
|}.

(** [bump_kernel] with a memory descriptor that cannot wire any range. *)
Definition unwired_kernel : kernel := {|
  IOMallocAligned := @IOMallocAligned bump_kernel;
  __pa := @__pa bump_kernel;
  cpuid := @cpuid bump_kernel;
  kvm_reg_index := @kvm_reg_index bump_kernel;
  init_host_values := @init_host_values bump_kernel;
  prepare := λ _ _, 1;
  getPhysicalSegment := @getPhysicalSegment bump_kernel;
  cpu_number := @cpu_number bump_kernel
|}.

(** [bump_kernel] with a memory descriptor that has no physical page for
    the second page of a range. *)
Definition sparse_kernel : kernel := {|
  IOMallocAligned := @IOMallocAligned bump_kernel;
  __pa := @__pa bump_kernel;
  cpuid := @cpuid bump_kernel;
  kvm_reg_index := @kvm_reg_index bump_kernel;
  init_host_values := @init_host_values bump_kernel;
  prepare := @prepare bump_kernel;
  getPhysicalSegment := λ addr _ off,
    if decide (off = PAGE_SIZE) then 0 else addr + off;
  cpu_number := @cpu_number bump_kernel
|}.

(** Two pages of guest memory at 0x1000 backed by user memory at 0x7000. *)
Definition two_page_region : kvm_userspace_memory_region.t := {|
  kvm_userspace_memory_region.slot := 0;
  kvm_userspace_memory_region.flags := 0;
  kvm_userspace_memory_region.guest_phys_addr := 0x1000;
  kvm_userspace_memory_region.memory_size := 0x2000;
  kvm_userspace_memory_region.userspace_addr := 0x7000
|}.

(** The guest writes the two low bytes of RAX = 0x1234 to port 0x3f8. *)
Definition out_machine : machine :=
  set_cpu
    (set_exit_qualification 0x03f80001
       (set_regs (<[VCPU_REGS_RAX := 0x1234]> (regs (cpu boot_machine)))
          (cpu boot_machine)))
    boot_machine.

(** The guest reads one byte from port 0x60. *)
Definition in_machine : machine :=
  set_cpu (set_exit_qualification 0x00600008 (cpu boot_machine)) boot_machine.

(** The guest asks for CPUID function 7; the override table has an entry
    for function 0 and two for function 7. *)
Definition cpuid7_machine : machine :=
  set_cpu
    (set_cpuid_count 3
       (set_cpuids
          [ {| kvm_cpuid_entry2.function := 0; kvm_cpuid_entry2.index := 0;
               kvm_cpuid_entry2.flags := 0;
               kvm_cpuid_entry2.eax := 1; kvm_cpuid_entry2.ebx := 2;
               kvm_cpuid_entry2.ecx := 3; kvm_cpuid_entry2.edx := 4 |};
            {| kvm_cpuid_entry2.function := 7; kvm_cpuid_entry2.index := 0;
               kvm_cpuid_entry2.flags := 0;
               kvm_cpuid_entry2.eax := 5; kvm_cpuid_entry2.ebx := 6;
               kvm_cpuid_entry2.ecx := 7; kvm_cpuid_entry2.edx := 8 |};
            {| kvm_cpuid_entry2.function := 7; kvm_cpuid_entry2.index := 0;
               kvm_cpuid_entry2.flags := 0;
               kvm_cpuid_entry2.eax := 9; kvm_cpuid_entry2.ebx := 9;
               kvm_cpuid_entry2.ecx := 9; kvm_cpuid_entry2.edx := 9 |} ]
          (set_regs (<[VCPU_REGS_RAX := 7]> (regs (cpu boot_machine)))
             (cpu boot_machine))))
    boot_machine.

(** The guest moves RBX = 0x80000011 to CR0. *)
Definition cr0_machine : machine :=
  set_cpu
    (set_exit_qualification 0x300
       (set_regs (<[VCPU_REGS_RBX := 0x80000011]> (regs (cpu boot_machine)))
          (cpu boot_machine)))
    boot_machine.

(** The guest moves RBX = 0x2000 to CR3. *)
Definition cr3_machine : machine :=
  set_cpu
    (set_exit_qualification 0x303
       (set_regs (<[VCPU_REGS_RBX := 0x2000]> (regs (cpu boot_machine)))
          (cpu boot_machine)))
    boot_machine.

(** The lines 3 and 5 are pending. *)
Definition irq_machine : machine :=
  set_cpu (set_pending_irq 0x28 (cpu boot_machine)) boot_machine.


(** The guest moves RBX to CR4. *)
Definition cr4_machine : machine :=
  set_cpu (set_exit_qualification 0x304 (cpu boot_machine)) boot_machine.

(** Kernel services for the device functions: an allocator with one block
    to give, at 0x10000, and locks and lock groups numbered from 0x20000
    on. *)
Definition one_block_iokit : iokit_h := {|
  IOMalloc := λ m _, if decide (m !! 0x10000 = None) then 0x10000 else 0;
  IOLockAlloc := λ n, 0x20000 + Z.of_nat n;
  lck_grp_attr_alloc_init := λ n, 0x20000 + Z.of_nat n;
  lck_grp_alloc_init := λ n _ _, 0x20000 + Z.of_nat n
|}.

(** The device before the first open. *)
Definition closed_device : device := {|
  dev_mem := ∅;
  head_of_state := 0;
  state_lock := false;
  kernel_objects := 0;
  dev_console := []
|}.

(** The device that process 7 has opened once: its state is the block at
    0x10000. *)
Definition opened_device : device := {|
  dev_mem := {[ 0x10000 := [0; 0; 7; 1; 0; 0x20000; 0x20001; 0x20002; 0x20003] ]};
  head_of_state := 0x10000;
  state_lock := false;
  kernel_objects := 4;
  dev_console := [("kvm_dev_open: %p\n"%string, [7])]
|}.

(** * Properties *)

(** ** Memory *)

Lemma load_Some_inv (m : mem) p i v :
  load m p i = Some v →
  p ≠ 0 ∧ 0 ≤ i ∧ ∃ b, m !! p = Some b ∧ b !! Z.to_nat i = Some v.
Proof.
  unfold load. case_decide as Hd; [done|]. intros Hl.
  destruct (m !! p) as [b|] eqn:Hb; simpl in Hl; [|done].
  split; [tauto|]. split; [lia|]. by exists b.
Qed.

Lemma load_intro (m : mem) p i b v :
  p ≠ 0 → 0 ≤ i → m !! p = Some b → b !! Z.to_nat i = Some v →
  load m p i = Some v.
Proof.
  intros Hp Hi Hb Hv. unfold load.
  case_decide as Hd; [lia|]. by rewrite Hb.
Qed.

Lemma store_Some_inv (m : mem) p i v m' :
  store m p i v = Some m' →
  p ≠ 0 ∧ 0 ≤ i ∧ ∃ b, m !! p = Some b ∧ (Z.to_nat i < length b)%nat
                       ∧ m' = <[p := <[Z.to_nat i := v]> b]> m.
Proof.
  unfold store. case_decide as Hd; [done|]. intros Hs.
  destruct (m !! p) as [b|] eqn:Hb; simpl in Hs; [|done].
  case_decide; [|done]. simplify_eq.
  split; [tauto|]. split; [lia|]. by exists b.
Qed.

Lemma store_intro (m : mem) p i v b :
  p ≠ 0 → 0 ≤ i → m !! p = Some b → (Z.to_nat i < length b)%nat →
  store m p i v = Some (<[p := <[Z.to_nat i := v]> b]> m).
Proof.
  intros Hp Hi Hb Hlen. unfold store.
  case_decide as Hd; [lia|]. rewrite Hb. simpl. by case_decide.
Qed.

Lemma load_store_eq (m : mem) p i v m' :
  store m p i v = Some m' → load m' p i = Some v.
Proof.
  intros (Hp & Hi & b & Hb & Hlen & ->)%store_Some_inv.
  eapply load_intro; [done|done|apply lookup_insert_eq|].
  by apply list_lookup_insert_eq.
Qed.

Lemma load_store_ne (m : mem) p i v m' q j :
  store m p i v = Some m' → q ≠ p ∨ j ≠ i → load m' q j = load m q j.
Proof.
  intros (Hp & Hi & b & Hb & Hlen & ->)%store_Some_inv Hne.
  unfold load. case_decide as Hd; [done|].
  destruct (decide (q = p)) as [->|Hqp].
  - rewrite lookup_insert_eq, Hb. simpl.
    apply list_lookup_insert_ne. lia.
  - by rewrite lookup_insert_ne.
Qed.

Lemma store_dom (m : mem) p i v m' :
  store m p i v = Some m' → dom m' = dom m.
Proof.
  intros (Hp & Hi & b & Hb & Hlen & ->)%store_Some_inv.
  by apply dom_insert_lookup_L.
Qed.

(** ** Page arithmetic *)

Lemma ulong_page_mask : ulong (Z.lnot (PAGE_SIZE - 1)) = 2 ^ 64 - 4096.
Proof. reflexivity. Qed.

Lemma Z_lor_lt_pow2 (a b n : Z) :
  0 ≤ n → 0 ≤ a < 2 ^ n → 0 ≤ b < 2 ^ n → 0 ≤ Z.lor a b < 2 ^ n.
Proof.
  intros Hn Ha Hb. split; [apply Z.lor_nonneg; lia|].
  destruct (decide (a = 0)) as [->|Hna]; [rewrite Z.lor_0_l; lia|].
  destruct (decide (b = 0)) as [->|Hnb]; [rewrite Z.lor_0_r; lia|].
  apply Z.log2_lt_pow2.
  { pose proof (Z.lor_nonneg a b). pose proof (Z.lor_eq_0_iff a b). lia. }
  rewrite Z.log2_lor by lia.
  apply Z.max_lub_lt; apply Z.log2_lt_pow2; lia.
Qed.

Lemma page_mask_lor (h d : Z) :
  0 ≤ h < 2 ^ 64 → 0 ≤ d < PAGE_SIZE →
  Z.land (Z.lor h d) (2 ^ 64 - 4096) = h - h mod PAGE_SIZE.
Proof.
  intros Hh Hd. unfold PAGE_SIZE in *.
  assert (Hm : 2 ^ 64 - 4096 = Z.land (Z.ones 64) (Z.lnot (Z.ones 12)))
    by reflexivity.
  rewrite Hm, Z.land_assoc, Z.land_ones by lia.
  rewrite Z.mod_small by (apply Z_lor_lt_pow2; lia).
  change (Z.land (Z.lor h d) (Z.lnot (Z.ones 12)))
    with (Z.ldiff (Z.lor h d) (Z.ones 12)).
  rewrite Z.ldiff_ones_r by lia.
  rewrite Z.shiftr_lor.
  rewrite (Z.shiftr_div_pow2 d), (Z.div_small d) by lia.
  rewrite Z.lor_0_r, Z.shiftr_div_pow2, Z.shiftl_mul_pow2 by lia.
  change (2 ^ 12) with 4096. pose proof (Z.div_mod h 4096). lia.
Qed.

Lemma ept_index_range (a n : Z) : 0 ≤ Z.land (Z.shiftr a n) 0x1FF < 512.
Proof.
  change 0x1FF with (Z.ones 9). rewrite Z.land_ones by lia.
  apply Z.mod_pos_bound. lia.
Qed.

(** ** The extended page table *)

Section Ept.
Context {vmx : vmx_h} {kvm : kvm_h} {krn : kernel}.

(** The allocator hands out blocks that are not live. *)
Hypothesis IOMallocAligned_fresh : ∀ (m : mem) size alignment,
  IOMallocAligned m size alignment ≠ 0 →
  m !! IOMallocAligned m size alignment = None.

Lemma IOCallocAligned_load_old (m : mem) size alignment q j v :
  load m q j = Some v →
  load (IOCallocAligned m size alignment).1 q j = Some v.
Proof using IOMallocAligned_fresh.
  intros Hl. unfold IOCallocAligned. case_decide as Hret; [|done]. simpl.
  apply load_Some_inv in Hl as (Hq & Hj & b & Hb & Hv).
  eapply load_intro; [done..| |done].
  rewrite lookup_insert_ne; [done|].
  intros <-. rewrite IOMallocAligned_fresh in Hb; done.
Qed.

(** One level of [ept_add_page]: the child table of slot [idx] of [parent]
    is looked up in the shadow half and allocated when it is missing. *)
Lemma ept_add_page_level (m : mem) parent idx size c0 m1 child :
  0 ≤ idx < 512 →
  load m parent (PAGE_OFFSET + idx) = Some c0 →
  (if decide (c0 = 0) then
     let '(m, c) := IOCallocAligned m size PAGE_SIZE in
     m ← store m parent (PAGE_OFFSET + idx) c;
     m ← store m parent idx (Z.lor (__pa c) EPT_DEFAULTS);
     Some (m, c)
   else Some (m, c0)) = Some (m1, child) →
  load m1 parent (PAGE_OFFSET + idx) = Some child
  ∧ (∀ q j v, load m q j = Some v → PAGE_OFFSET ≤ j → v ≠ 0 →
              load m1 q j = Some v).
Proof using IOMallocAligned_fresh.
  intros Hidx Hl Hstep. unfold PAGE_OFFSET in *.
  case_decide as Hc0; [|by simplify_eq].
  subst c0.
  destruct (IOCallocAligned m size PAGE_SIZE) as [ma c] eqn:Hca.
  destruct (store ma parent (512 + idx) c) as [mb|] eqn:Hs1; [|done].
  simpl in Hstep.
  destruct (store mb parent idx (Z.lor (__pa c) EPT_DEFAULTS)) as [mc|] eqn:Hs2;
    [|done].
  simpl in Hstep. simplify_eq. split.
  - rewrite (load_store_ne _ _ _ _ _ _ _ Hs2) by lia.
    by eapply load_store_eq.
  - intros q j v Hq Hj Hv.
    rewrite (load_store_ne _ _ _ _ _ _ _ Hs2) by lia.
    rewrite (load_store_ne _ _ _ _ _ _ _ Hs1).
    + replace ma with (IOCallocAligned m size PAGE_SIZE).1 by by rewrite Hca.
      by apply IOCallocAligned_load_old.
    + destruct (decide (q = parent)) as [->|]; [|by left].
      right. intros ->. congruence.
Qed.

(** After [ept_add_page] the whole path of the address is present and its
    leaf holds the new entry. *)
Lemma ept_add_page_path (m : mem) pml4 va pa m' :
  ept_add_page m pml4 va pa = Some m' →
  ∃ pdpt pd pt,
    pdpt ≠ 0 ∧ pd ≠ 0 ∧ pt ≠ 0
    ∧ load m' pml4 (PAGE_OFFSET + Z.land (Z.shiftr va 39) 0x1FF) = Some pdpt
    ∧ load m' pdpt (PAGE_OFFSET + Z.land (Z.shiftr va 30) 0x1FF) = Some pd
    ∧ load m' pd (PAGE_OFFSET + Z.land (Z.shiftr va 21) 0x1FF) = Some pt
    ∧ load m' pt (Z.land (Z.shiftr va 12) 0x1FF)
      = Some (Z.lor (Z.lor pa EPT_DEFAULTS) EPT_CACHE_WRITEBACK).
Proof using IOMallocAligned_fresh.
  unfold ept_add_page. intros Hadd.
  pose proof (ept_index_range va 39) as Hi4.
  pose proof (ept_index_range va 30) as Hi3.
  pose proof (ept_index_range va 21) as Hi2.
  pose proof (ept_index_range va 12) as Hi1.
  set (i4 := Z.land (Z.shiftr va 39) 0x1FF) in *.
  set (i3 := Z.land (Z.shiftr va 30) 0x1FF) in *.
  set (i2 := Z.land (Z.shiftr va 21) 0x1FF) in *.
  set (i1 := Z.land (Z.shiftr va 12) 0x1FF) in *.
  destruct (load m pml4 (PAGE_OFFSET + i4)) as [c4|] eqn:Hl4; [|done].
  simpl in Hadd.
  match type of Hadd with
  | mbind _ ?e = _ => destruct e as [[m1 pdpt]|] eqn:Hs4; [|done]
  end.
  simpl in Hadd.
  destruct (ept_add_page_level _ _ _ _ _ _ _ Hi4 Hl4 Hs4) as [Hp4 Hk4].
  destruct (load m1 pdpt (PAGE_OFFSET + i3)) as [c3|] eqn:Hl3; [|done].
  simpl in Hadd.
  match type of Hadd with
  | mbind _ ?e = _ => destruct e as [[m2 pd]|] eqn:Hs3; [|done]
  end.
  simpl in Hadd.
  destruct (ept_add_page_level _ _ _ _ _ _ _ Hi3 Hl3 Hs3) as [Hp3 Hk3].
  destruct (load m2 pd (PAGE_OFFSET + i2)) as [c2|] eqn:Hl2; [|done].
  simpl in Hadd.
  match type of Hadd with
  | mbind _ ?e = _ => destruct e as [[m3 pt]|] eqn:Hs2; [|done]
  end.
  simpl in Hadd.
  destruct (ept_add_page_level _ _ _ _ _ _ _ Hi2 Hl2 Hs2) as [Hp2 Hk2].
  assert (Hpdpt : pdpt ≠ 0) by (apply load_Some_inv in Hl3; tauto).
  assert (Hpd : pd ≠ 0) by (apply load_Some_inv in Hl2; tauto).
  assert (Hpt : pt ≠ 0) by (apply store_Some_inv in Hadd; tauto).
  exists pdpt, pd, pt. unfold PAGE_OFFSET in *.
  repeat split; try done.
  - rewrite (load_store_ne _ _ _ _ _ _ _ Hadd) by lia.
    apply Hk2; [|lia|done]. apply Hk3; [|lia|done]. done.
  - rewrite (load_store_ne _ _ _ _ _ _ _ Hadd) by lia.
    apply Hk2; [|lia|done]. done.
  - rewrite (load_store_ne _ _ _ _ _ _ _ Hadd) by lia. done.
  - by eapply load_store_eq.
Qed.

Lemma ept_translate_path (m : mem) pml4 va pdpt pd pt e :
  pdpt ≠ 0 → pd ≠ 0 → pt ≠ 0 →
  load m pml4 (PAGE_OFFSET + Z.land (Z.shiftr va 39) 0x1FF) = Some pdpt →
  load m pdpt (PAGE_OFFSET + Z.land (Z.shiftr va 30) 0x1FF) = Some pd →
  load m pd (PAGE_OFFSET + Z.land (Z.shiftr va 21) 0x1FF) = Some pt →
  load m pt (Z.land (Z.shiftr va 12) 0x1FF) = Some e →
  ept_translate m pml4 va = Some (Z.land e (ulong (Z.lnot (PAGE_SIZE - 1)))).
Proof using Type.
  intros H4 H3 H2 Hl4 Hl3 Hl2 Hl1. unfold ept_translate.
  rewrite Hl4. simpl. rewrite decide_False by done.
  rewrite Hl3. simpl. rewrite decide_False by done.
  rewrite Hl2. simpl. rewrite decide_False by done.
  by rewrite Hl1.
Qed.

(** *** The invariant of the page tables *)

Lemma ept_typed_store_low L (m : mem) p i v m' :
  ept_typed L m → store m p i v = Some m' → i < PAGE_OFFSET ∨ L p = 1%nat →
  ept_typed L m'.
Proof using Type.
  intros Hty (Hp & Hi & b & Hb & Hlen & ->)%store_Some_inv Hlow q bq Hq.
  assert (Hlive : ∀ c, is_Some (m !! c) → is_Some (<[p:=<[Z.to_nat i:=v]> b]> m !! c)).
  { intros c Hc. destruct (decide (c = p)) as [->|].
    - rewrite lookup_insert_eq. eauto.
    - by rewrite lookup_insert_ne. }
  destruct (decide (q = p)) as [->|Hne].
  - rewrite lookup_insert_eq in Hq. simplify_eq.
    specialize (Hty _ _ Hb). unfold ept_table_ok in *.
    destruct (L p) as [|[|n]]; [done| |].
    + by rewrite length_insert.
    + destruct Hty as [Hl Hch]. rewrite length_insert. split; [done|].
      intros j c Hj Hc Hc0. destruct Hlow as [Hlow|]; [|done].
      rewrite list_lookup_insert_ne in Hc by (unfold PAGE_OFFSET in *; lia).
      destruct (Hch j c Hj Hc Hc0). eauto.
  - rewrite lookup_insert_ne in Hq by done.
    specialize (Hty _ _ Hq). unfold ept_table_ok in *.
    destruct (L q) as [|[|n]]; [done..|].
    destruct Hty as [Hl Hch]. split; [done|].
    intros j c Hj Hc Hc0. destruct (Hch j c Hj Hc Hc0). eauto.
Qed.

Lemma ept_typed_store_child L (m : mem) p idx c n m' :
  ept_typed L m → 0 ≤ idx < 512 →
  store m p (PAGE_OFFSET + idx) c = Some m' →
  L p = S (S n) → L c = S n → is_Some (m !! c) →
  ept_typed L m'.
Proof using Type.
  intros Hty Hidx (Hp & Hi & b & Hb & Hlen & ->)%store_Some_inv HLp HLc Hc q bq Hq.
  assert (Hlive : ∀ c', is_Some (m !! c') →
            is_Some (<[p:=<[Z.to_nat (PAGE_OFFSET + idx):=c]> b]> m !! c')).
  { intros c' Hc'. destruct (decide (c' = p)) as [->|].
    - rewrite lookup_insert_eq. eauto.
    - by rewrite lookup_insert_ne. }
  destruct (decide (q = p)) as [->|Hne].
  - rewrite lookup_insert_eq in Hq. simplify_eq.
    specialize (Hty _ _ Hb). unfold ept_table_ok in *. rewrite HLp in *.
    destruct Hty as [Hl Hch]. rewrite length_insert. split; [done|].
    intros j c' Hj Hc' Hc0.
    destruct (decide (j = idx)) as [->|Hji].
    + rewrite list_lookup_insert_eq in Hc' by done. simplify_eq. eauto.
    + rewrite list_lookup_insert_ne in Hc' by (unfold PAGE_OFFSET; lia).
      destruct (Hch j c' Hj Hc' Hc0). eauto.
  - rewrite lookup_insert_ne in Hq by done.
    specialize (Hty _ _ Hq). unfold ept_table_ok in *.
    destruct (L q) as [|[|k]]; [done..|].
    destruct Hty as [Hl Hch]. split; [done|].
    intros j c' Hj Hc' Hc0. destruct (Hch j c' Hj Hc' Hc0). eauto.
Qed.

Lemma ept_typed_calloc L (m : mem) size alignment n :
  ept_typed L m →
  (IOCallocAligned m size alignment).2 ≠ 0 →
  Z.to_nat (size / 8) = (if decide (n = O) then 512%nat else 1024%nat) →
  ept_typed (<[(IOCallocAligned m size alignment).2 := S n]> L)
            (IOCallocAligned m size alignment).1.
Proof using IOMallocAligned_fresh.
  unfold IOCallocAligned. case_decide as Hret; simpl; [|done].
  intros Hty _ Hsize. set (c := IOMallocAligned m size alignment) in *.
  pose proof (IOMallocAligned_fresh m size alignment Hret) as Hfresh.
  fold c in Hfresh.
  intros q bq Hq. unfold ept_table_ok.
  destruct (decide (q = c)) as [->|Hne].
  - rewrite lookup_insert_eq in Hq. simplify_eq.
    rewrite fn_lookup_insert, length_replicate.
    destruct n as [|n]; [by rewrite Hsize|]. split; [by rewrite Hsize|].
    intros j c' Hj Hc' Hc0. apply lookup_replicate in Hc' as [-> _]. done.
  - rewrite lookup_insert_ne in Hq by done.
    rewrite fn_lookup_insert_ne by done.
    specialize (Hty _ _ Hq). unfold ept_table_ok in Hty.
    destruct (L q) as [|[|k]]; [done..|].
    destruct Hty as [Hl Hch]. split; [done|].
    intros j c' Hj Hc' Hc0. destruct (Hch j c' Hj Hc' Hc0) as [HL Hlive].
    assert (c' ≠ c) by (intros ->; rewrite Hfresh in Hlive; by destruct Hlive).
    rewrite fn_lookup_insert_ne by done.
    by rewrite lookup_insert_ne.
Qed.

Lemma ept_typed_load_shadow L (m : mem) p n idx :
  ept_typed L m → p ≠ 0 → is_Some (m !! p) → L p = S (S n) → 0 ≤ idx < 512 →
  ∃ c, load m p (PAGE_OFFSET + idx) = Some c.
Proof using Type.
  intros Hty Hp [b Hb] HL Hidx.
  pose proof (Hty _ _ Hb) as Hok. unfold ept_table_ok in Hok.
  rewrite HL in Hok. destruct Hok as [Hlen _].
  destruct (lookup_lt_is_Some_2 b (Z.to_nat (PAGE_OFFSET + idx))) as [c Hc].
  { unfold PAGE_OFFSET. lia. }
  exists c. eapply load_intro; [done|unfold PAGE_OFFSET; lia|done..].
Qed.

Lemma ept_add_page_level_typed L (m : mem) parent idx n size c0 :
  ept_typed L m → 0 ≤ idx < 512 → L parent = S (S n) →
  Z.to_nat (size / 8) = (if decide (n = O) then 512%nat else 1024%nat) →
  IOMallocAligned m size PAGE_SIZE ≠ 0 →
  load m parent (PAGE_OFFSET + idx) = Some c0 →
  ∃ m1 child L1,
    (if decide (c0 = 0) then
       let '(m, c) := IOCallocAligned m size PAGE_SIZE in
       m ← store m parent (PAGE_OFFSET + idx) c;
       m ← store m parent idx (Z.lor (__pa c) EPT_DEFAULTS);
       Some (m, c)
     else Some (m, c0)) = Some (m1, child)
    ∧ ept_typed L1 m1 ∧ L1 child = S n ∧ child ≠ 0 ∧ is_Some (m1 !! child)
    ∧ (∀ p, is_Some (m !! p) → L1 p = L p ∧ is_Some (m1 !! p)).
Proof using IOMallocAligned_fresh.
  intros Hty Hidx HL Hsize Halloc Hl.
  pose proof Hl as (Hp & _ & b & Hb & Hc0)%load_Some_inv.
  pose proof (Hty _ _ Hb) as Hok. unfold ept_table_ok in Hok.
  rewrite HL in Hok. destruct Hok as [Hlen Hch].
  destruct (decide (c0 = 0)) as [Hz|Hz].
  - subst c0.
    pose proof (ept_typed_calloc L m size PAGE_SIZE n Hty) as Hty1.
    pose proof (IOMallocAligned_fresh m size PAGE_SIZE Halloc) as Hfresh.
    assert (Hca : IOCallocAligned m size PAGE_SIZE
                  = (<[IOMallocAligned m size PAGE_SIZE :=
                         replicate (Z.to_nat (size / 8)) 0]> m,
                     IOMallocAligned m size PAGE_SIZE)).
    { unfold IOCallocAligned. by rewrite decide_True. }
    rewrite Hca in *. simpl in Hty1.
    set (c := IOMallocAligned m size PAGE_SIZE) in *.
    set (ma := <[c := replicate (Z.to_nat (size / 8)) 0]> m) in *.
    specialize (Hty1 Halloc Hsize).
    assert (Hpc : parent ≠ c) by (intros ->; congruence).
    assert (Hbma : ma !! parent = Some b)
      by (unfold ma; by rewrite lookup_insert_ne).
    pose proof (store_intro ma parent (PAGE_OFFSET + idx) c b Hp) as Hs1.
    rewrite Hs1; [|unfold PAGE_OFFSET; lia|done|unfold PAGE_OFFSET; lia].
    simpl.
    set (b1 := <[Z.to_nat (PAGE_OFFSET + idx) := c]> b) in *.
    set (mb := <[parent := b1]> ma) in *.
    pose proof (store_intro mb parent idx (Z.lor (__pa c) EPT_DEFAULTS) b1 Hp)
      as Hs2.
    rewrite Hs2;
      [|lia|unfold mb; apply lookup_insert_eq
       |unfold b1; rewrite length_insert; lia].
    simpl. eexists _, c, (<[c := S n]> L). split; [done|].
    assert (Hty2 : ept_typed (<[c := S n]> L) mb).
    { eapply ept_typed_store_child; [exact Hty1|exact Hidx| | | |].
      - apply Hs1; [unfold PAGE_OFFSET; lia|done|unfold PAGE_OFFSET; lia].
      - rewrite fn_lookup_insert_ne by done. exact HL.
      - apply fn_lookup_insert.
      - unfold ma. rewrite lookup_insert_eq. eauto. }
    split.
    { eapply ept_typed_store_low; [exact Hty2| |].
      - apply Hs2; [lia|unfold mb; apply lookup_insert_eq
                   |unfold b1; rewrite length_insert; lia].
      - left. unfold PAGE_OFFSET. lia. }
    split; [apply fn_lookup_insert|]. split; [done|].
    assert (Hlive : ∀ p, is_Some (ma !! p) →
              is_Some (<[parent := <[Z.to_nat idx := Z.lor (__pa c) EPT_DEFAULTS]> b1]> mb !! p)).
    { intros p Hpl. destruct (decide (p = parent)) as [->|].
      - rewrite lookup_insert_eq. eauto.
      - rewrite lookup_insert_ne by done. unfold mb.
        by rewrite lookup_insert_ne. }
    split.
    { apply Hlive. unfold ma. rewrite lookup_insert_eq. eauto. }
    intros p Hpl. split.
    + rewrite fn_lookup_insert_ne; [done|].
      intros <-. rewrite Hfresh in Hpl. by destruct Hpl.
    + apply Hlive. unfold ma. destruct (decide (p = c)) as [->|].
      * rewrite lookup_insert_eq. eauto.
      * by rewrite lookup_insert_ne.
  - exists m, c0, L. split; [done|].
    destruct (Hch idx c0 Hidx Hc0 Hz) as [HLc Hlc].
    repeat split; eauto.
Qed.

(** [ept_add_page] on well-formed tables completes when the allocator
    does not fail, and leaves well-formed tables. *)
Lemma ept_add_page_wf (m : mem) pml4 va pa :
  wf_ept m pml4 →
  (∀ (m : mem) size alignment, IOMallocAligned m size alignment ≠ 0) →
  ∃ m', ept_add_page m pml4 va pa = Some m' ∧ wf_ept m' pml4.
Proof using IOMallocAligned_fresh.
  intros (Hnz & Hlive & L & HL & Hty) Halloc. unfold ept_add_page.
  pose proof (ept_index_range va 39) as Hi4.
  pose proof (ept_index_range va 30) as Hi3.
  pose proof (ept_index_range va 21) as Hi2.
  pose proof (ept_index_range va 12) as Hi1.
  set (i4 := Z.land (Z.shiftr va 39) 0x1FF) in *.
  set (i3 := Z.land (Z.shiftr va 30) 0x1FF) in *.
  set (i2 := Z.land (Z.shiftr va 21) 0x1FF) in *.
  set (i1 := Z.land (Z.shiftr va 12) 0x1FF) in *.
  destruct (ept_typed_load_shadow L m pml4 2 i4 Hty Hnz Hlive HL Hi4)
    as [c4 Hl4].
  rewrite Hl4. simpl.
  destruct (ept_add_page_level_typed L m pml4 i4 2 (PAGE_SIZE * 2) c4
              Hty Hi4 HL eq_refl (Halloc _ _ _) Hl4)
    as (m1 & pdpt & L1 & -> & Hty1 & HL1 & Hnz1 & Hlive1 & Hk1).
  simpl.
  destruct (ept_typed_load_shadow L1 m1 pdpt 1 i3 Hty1 Hnz1 Hlive1 HL1 Hi3)
    as [c3 Hl3].
  rewrite Hl3. simpl.
  destruct (ept_add_page_level_typed L1 m1 pdpt i3 1 (PAGE_SIZE * 2) c3
              Hty1 Hi3 HL1 eq_refl (Halloc _ _ _) Hl3)
    as (m2 & pd & L2 & -> & Hty2 & HL2 & Hnz2 & Hlive2 & Hk2).
  simpl.
  destruct (ept_typed_load_shadow L2 m2 pd 0 i2 Hty2 Hnz2 Hlive2 HL2 Hi2)
    as [c2 Hl2].
  rewrite Hl2. simpl.
  destruct (ept_add_page_level_typed L2 m2 pd i2 0 PAGE_SIZE c2
              Hty2 Hi2 HL2 eq_refl (Halloc _ _ _) Hl2)
    as (m3 & pt & L3 & -> & Hty3 & HL3 & Hnz3 & Hlive3 & Hk3).
  simpl.
  destruct Hlive3 as [b Hb].
  pose proof (Hty3 _ _ Hb) as Hok. unfold ept_table_ok in Hok.
  rewrite HL3 in Hok.
  pose proof (store_intro m3 pt i1
                (Z.lor (Z.lor pa EPT_DEFAULTS) EPT_CACHE_WRITEBACK) b Hnz3)
    as Hs.
  rewrite Hs; [|lia|done|lia].
  eexists; split; [done|].
  destruct (Hk1 pml4 Hlive) as [E1 V1].
  destruct (Hk2 pml4 V1) as [E2 V2].
  destruct (Hk3 pml4 V2) as [E3 V3].
  split; [done|]. split.
  - destruct (decide (pml4 = pt)) as [->|].
    + rewrite lookup_insert_eq. eauto.
    + by rewrite lookup_insert_ne.
  - exists L3. split; [congruence|].
    eapply ept_typed_store_low; [exact Hty3| |].
    + apply Hs; [lia|done|lia].
    + by right.
Qed.

(** On well-formed tables the walk of [ept_translate] stays inside live
    tables. *)
Lemma ept_translate_total (m : mem) pml4 va :
  wf_ept m pml4 → is_Some (ept_translate m pml4 va).
Proof using Type.
  intros (Hnz & Hlive & L & HL & Hty). unfold ept_translate.
  pose proof (ept_index_range va 39) as Hi4.
  pose proof (ept_index_range va 30) as Hi3.
  pose proof (ept_index_range va 21) as Hi2.
  pose proof (ept_index_range va 12) as Hi1.
  set (i4 := Z.land (Z.shiftr va 39) 0x1FF) in *.
  set (i3 := Z.land (Z.shiftr va 30) 0x1FF) in *.
  set (i2 := Z.land (Z.shiftr va 21) 0x1FF) in *.
  set (i1 := Z.land (Z.shiftr va 12) 0x1FF) in *.
  assert (Hchild : ∀ p n idx c, p ≠ 0 → is_Some (m !! p) → L p = S (S n) →
            0 ≤ idx < 512 → load m p (PAGE_OFFSET + idx) = Some c → c ≠ 0 →
            L c = S n ∧ is_Some (m !! c)).
  { intros p n idx c Hp [b Hb] HLp Hidx Hl Hc.
    apply load_Some_inv in Hl as (_ & _ & b' & Hb' & Hv). simplify_eq.
    pose proof (Hty _ _ Hb) as Hok. unfold ept_table_ok in Hok.
    rewrite HLp in Hok. destruct Hok as [_ Hch]. eauto. }
  destruct (ept_typed_load_shadow L m pml4 2 i4 Hty Hnz Hlive HL Hi4)
    as [pdpt Hl4].
  rewrite Hl4. simpl. case_decide as Hz4; [eauto|].
  destruct (Hchild _ _ _ _ Hnz Hlive HL Hi4 Hl4 Hz4) as [HL3 Hlive3].
  destruct (ept_typed_load_shadow L m pdpt 1 i3 Hty Hz4 Hlive3 HL3 Hi3)
    as [pd Hl3].
  rewrite Hl3. simpl. case_decide as Hz3; [eauto|].
  destruct (Hchild _ _ _ _ Hz4 Hlive3 HL3 Hi3 Hl3 Hz3) as [HL2 Hlive2].
  destruct (ept_typed_load_shadow L m pd 0 i2 Hty Hz3 Hlive2 HL2 Hi2)
    as [pt Hl2].
  rewrite Hl2. simpl. case_decide as Hz2; [eauto|].
  destruct (Hchild _ _ _ _ Hz3 Hlive2 HL2 Hi2 Hl2 Hz2) as [HL1 [b Hb]].
  pose proof (Hty _ _ Hb) as Hok. unfold ept_table_ok in Hok.
  rewrite HL1 in Hok.
  destruct (lookup_lt_is_Some_2 b (Z.to_nat i1)) as [e He]; [lia|].
  rewrite (load_intro m pt i1 b e); [|done|lia|done..]. simpl. eauto.
Qed.

(** [ept_init] on a memory without page tables gives well-formed ones. *)
Lemma ept_init_wf (m : mem) :
  (ept_init m).2 ≠ 0 → wf_ept (ept_init m).1 (ept_init m).2.
Proof using IOMallocAligned_fresh.
  intros Hnz. unfold ept_init in *.
  assert (Hret : IOMallocAligned m (PAGE_SIZE * 2) PAGE_SIZE ≠ 0).
  { intros Hz. apply Hnz. unfold IOCallocAligned.
    rewrite decide_False by (intros Hc; by apply Hc). exact Hz. }
  split; [done|]. split.
  - unfold IOCallocAligned. rewrite decide_True by done. cbn [fst snd].
    rewrite lookup_insert_eq. eauto.
  - exists (<[(IOCallocAligned m (PAGE_SIZE * 2) PAGE_SIZE).2 := 4%nat]>
              (λ _, O)).
    split; [apply fn_lookup_insert|].
    apply (ept_typed_calloc (λ _, O) m (PAGE_SIZE * 2) PAGE_SIZE 3);
      [intros p b _; exact I|done|reflexivity].
Qed.

(** *** Translation after mapping *)

(** The permission bits lie inside the page offset. *)
Hypothesis EPT_DEFAULTS_low : 0 ≤ EPT_DEFAULTS < PAGE_SIZE.

Lemma ept_entry_page (hpa : Z) :
  0 ≤ hpa < 2 ^ 64 →
  Z.land (Z.lor (Z.lor hpa EPT_DEFAULTS) EPT_CACHE_WRITEBACK)
         (ulong (Z.lnot (PAGE_SIZE - 1)))
  = hpa - hpa mod PAGE_SIZE.
Proof using EPT_DEFAULTS_low.
  intros Hh. rewrite ulong_page_mask, <- Z.lor_assoc.
  apply page_mask_lor; [done|].
  apply (Z_lor_lt_pow2 _ _ 12); [lia|done|by compute].
Qed.

Lemma ept_add_page_then_translate (m : mem) pml4 gpa hpa m' :
  0 ≤ hpa < 2 ^ 64 →
  ept_add_page m pml4 gpa hpa = Some m' →
  ept_translate m' pml4 gpa = Some (hpa - hpa mod PAGE_SIZE).
Proof using IOMallocAligned_fresh EPT_DEFAULTS_low.
  intros Hh Hadd.
  destruct (ept_add_page_path _ _ _ _ _ Hadd)
    as (pdpt & pd & pt & H4 & H3 & H2 & Hl4 & Hl3 & Hl2 & Hl1).
  rewrite (ept_translate_path _ _ _ _ _ _ _ H4 H3 H2 Hl4 Hl3 Hl2 Hl1).
  f_equal. by apply ept_entry_page.
Qed.

(** C1. Mapping a guest physical address with [ept_add_page] and then
    translating it gives the host physical address with its low 12 bits
    cleared, whatever tables were there before the call; and on well-formed
    tables the call completes whenever the allocator does not fail. *)
Theorem ept_translate_add_page (m : mem) pml4 gpa hpa :
  0 ≤ hpa < 2 ^ 64 →
  (∀ m', ept_add_page m pml4 gpa hpa = Some m' →
         ept_translate m' pml4 gpa = Some (hpa - hpa mod PAGE_SIZE))
  ∧ (wf_ept m pml4 →
     (∀ (m : mem) size alignment, IOMallocAligned m size alignment ≠ 0) →
     is_Some (ept_add_page m pml4 gpa hpa)).
Proof using IOMallocAligned_fresh EPT_DEFAULTS_low.
  intros Hh. split.
  - intros m' Hadd. by apply (ept_add_page_then_translate m).
  - intros Hwf Halloc.
    destruct (ept_add_page_wf m pml4 gpa hpa Hwf Halloc)
      as (m' & -> & _).
    eauto.
Qed.

(** C2. When the walk of an address reaches a table that was never
    allocated, [ept_translate] returns 0, the absent result, without a
    fault and without reading through the null pointer. *)
Theorem ept_translate_absent (m : mem) pml4 gpa :
  ept_walk_missing m pml4 gpa → ept_translate m pml4 gpa = Some 0.
Proof using Type.
  unfold ept_walk_missing, ept_translate.
  intros [Hl4|[(pdpt & Hl4 & H4 & Hl3)|(pdpt & pd & Hl4 & H4 & Hl3 & H3 & Hl2)]].
  - by rewrite Hl4.
  - rewrite Hl4. simpl. rewrite decide_False by done. by rewrite Hl3.
  - rewrite Hl4. simpl. rewrite decide_False by done.
    rewrite Hl3. simpl. rewrite decide_False by done. by rewrite Hl2.
Qed.

(** C3. A second [ept_add_page] of the same guest physical address
    completes without allocating, overwrites the leaf whatever it held, and
    the translation then gives the page of the second host address. *)
Theorem ept_add_page_last_write_wins (m : mem) pml4 gpa hpa1 hpa2 m1 :
  0 ≤ hpa2 < 2 ^ 64 →
  ept_add_page m pml4 gpa hpa1 = Some m1 →
  ∃ m2, ept_add_page m1 pml4 gpa hpa2 = Some m2
        ∧ dom m2 = dom m1
        ∧ ept_translate m2 pml4 gpa = Some (hpa2 - hpa2 mod PAGE_SIZE).
Proof using IOMallocAligned_fresh EPT_DEFAULTS_low.
  intros Hh Hadd1.
  destruct (ept_add_page_path _ _ _ _ _ Hadd1)
    as (pdpt & pd & pt & H4 & H3 & H2 & Hl4 & Hl3 & Hl2 & Hl1).
  assert (Hadd2 : ept_add_page m1 pml4 gpa hpa2
            = store m1 pt (Z.land (Z.shiftr gpa 12) 0x1FF)
                (Z.lor (Z.lor hpa2 EPT_DEFAULTS) EPT_CACHE_WRITEBACK)).
  { unfold ept_add_page.
    rewrite Hl4. simpl. rewrite decide_False by done. simpl.
    rewrite Hl3. simpl. rewrite decide_False by done. simpl.
    rewrite Hl2. simpl. rewrite decide_False by done. done. }
  apply load_Some_inv in Hl1 as (_ & Hi1 & b & Hb & He).
  pose proof (store_intro m1 pt (Z.land (Z.shiftr gpa 12) 0x1FF)
                (Z.lor (Z.lor hpa2 EPT_DEFAULTS) EPT_CACHE_WRITEBACK) b
                H2 Hi1 Hb (lookup_lt_Some _ _ _ He)) as Hs.
  rewrite Hs in Hadd2. eexists. split; [exact Hadd2|]. split.
  - by eapply store_dom.
  - by apply (ept_add_page_then_translate m1).
Qed.

End Ept.

(** ** Rules of the monad *)

Section Wp.
Context {A B : Type}.
Implicit Types (Q : A → machine → Prop) (s : machine).

Lemma wp_ret (x : A) Q s : Q x s → wp (mret x) Q s.
Proof. intros HQ. by exists x, s. Qed.

Lemma wp_bind (c : M A) (f : A → M B) (R : B → machine → Prop) s :
  wp c (λ x s', wp (f x) R s') s → wp (c ≫= f) R s.
Proof.
  intros (x & s' & Hc & y & s'' & Hf & HR). exists y, s''.
  split; [|done]. unfold mbind, M_bind. by rewrite Hc.
Qed.

Lemma wp_mono (c : M A) Q (Q' : A → machine → Prop) s :
  wp c Q s → (∀ x s', Q x s' → Q' x s') → wp c Q' s.
Proof. intros (x & s' & Hc & HQ) Himp. exists x, s'. eauto. Qed.

Lemma wp_lift_option (o : option A) Q s x :
  o = Some x → Q x s → wp (lift_option o) Q s.
Proof. intros -> HQ. by exists x, s. Qed.

End Wp.

Lemma wp_get (Q : machine → machine → Prop) s : Q s s → wp get Q s.
Proof. intros HQ. by exists s, s. Qed.

Lemma wp_modify f (Q : unit → machine → Prop) s :
  Q () (f s) → wp (modify f) Q s.
Proof. intros HQ. by exists (), (f s). Qed.

Lemma wp_get_vcpu (Q : vcpu → machine → Prop) s :
  Q (cpu s) s → wp get_vcpu Q s.
Proof. intros HQ. by exists (cpu s), s. Qed.

Lemma wp_modify_vcpu f (Q : unit → machine → Prop) s :
  Q () (set_cpu (f (cpu s)) s) → wp (modify_vcpu f) Q s.
Proof. intros HQ. by eexists (), _. Qed.

Lemma wp_printf fmt args (Q : unit → machine → Prop) s :
  Q () (set_console (console s ++ [(fmt, args)]) s) → wp (printf fmt args) Q s.
Proof. intros HQ. by eexists (), _. Qed.

Lemma wp_vmcs_readl f (Q : Z → machine → Prop) s :
  Q (vmcs s f) s → wp (vmcs_readl f) Q s.
Proof. intros HQ. by eexists _, _. Qed.

Lemma wp_vmcs_read32 f (Q : Z → machine → Prop) s :
  Q (u32 (vmcs s f)) s → wp (vmcs_read32 f) Q s.
Proof. intros HQ. by eexists _, _. Qed.

Lemma wp_vmcs_writel f v (Q : unit → machine → Prop) s :
  Q () (set_vmcs (<[f := ulong v]> (vmcs s)) s) → wp (vmcs_writel f v) Q s.
Proof. intros HQ. by eexists (), _. Qed.

Lemma wp_vmcs_write64 f v (Q : unit → machine → Prop) s :
  Q () (set_vmcs (<[f := ulong v]> (vmcs s)) s) → wp (vmcs_write64 f v) Q s.
Proof. intros HQ. by eexists (), _. Qed.

Lemma wp_vmcs_write32 f v (Q : unit → machine → Prop) s :
  Q () (set_vmcs (<[f := u32 v]> (vmcs s)) s) → wp (vmcs_write32 f v) Q s.
Proof. intros HQ. by eexists (), _. Qed.

(** Normal form of a machine state: setters unfolded, projections of
    records reduced. *)
Ltac state_simpl :=
  unfold set_kvm_vcpu, set_regs, set_rflags, set_cr2, set_pio_data,
         set_pending_io, set_cr3_shadow, set_exit_qualification,
         set_exit_instruction_len, set_phys, set_irq_level, set_pending_irq,
         set_cpuids, set_cpuid_count, set_vmcs_loaded, set_pml4, set_paging,
         set_cpu, set_kmem, set_vmcs, set_host_msr, set_host_if,
         set_signal_pending, set_world_switches, set_console,
         kvm_run.set_exit_reason, kvm_run.set_io;
  cbn [kvm_vcpu regs rflags cr2 pio_data pending_io cr3_shadow
       exit_qualification exit_instruction_len phys irq_level pending_irq
       cpuids cpuid_count vmcs_loaded pml4 paging cpu kmem vmcs host_msr
       host_if signal_pending world_switches console kvm_run.exit_reason
       kvm_run.io kvm_run.direction kvm_run.size kvm_run.port kvm_run.count
       kvm_run.data_offset].

(** One step of symbolic execution. *)
Ltac wp_step :=
  lazymatch goal with
  | |- wp (mbind _ _) _ _ => apply wp_bind
  | |- wp (mret _) _ _ => apply wp_ret
  | |- wp get _ _ => apply wp_get
  | |- wp get_vcpu _ _ => apply wp_get_vcpu
  | |- wp (modify_vcpu _) _ _ => apply wp_modify_vcpu
  | |- wp (modify _) _ _ => apply wp_modify
  | |- wp (printf _ _) _ _ => apply wp_printf
  | |- wp (vmcs_readl _) _ _ => apply wp_vmcs_readl
  | |- wp (vmcs_read32 _) _ _ => apply wp_vmcs_read32
  | |- wp (vmcs_writel _ _) _ _ => apply wp_vmcs_writel
  | |- wp (vmcs_write64 _ _) _ _ => apply wp_vmcs_write64
  | |- wp (vmcs_write32 _ _) _ _ => apply wp_vmcs_write32
  | |- wp LOAD_VMCS _ _ => apply wp_modify_vcpu
  | |- wp RELEASE_VMCS _ _ => apply wp_modify_vcpu
  | |- wp (lift_option (Some _)) _ _ => eapply wp_lift_option; [reflexivity|]
  | |- wp (match ?o with Some _ => _ | None => _ end) _ _ => destruct o eqn:?
  | |- wp (if decide ?P then _ else _) _ _ => destruct (decide P)
  | |- wp (if negb ?b then _ else _) _ _ => destruct b; cbn [negb]
  | |- wp (if ?b then _ else _) _ _ => destruct b eqn:?
  | |- wp (let '(_, _) := ?p in _) _ _ => destruct p
  end.

Ltac wp_run := repeat (wp_step; cbv beta iota; state_simpl).

(** The frame is insensitive to the updates of the vcpu members other
    than [pml4], of the VMCS, of the console and of the interrupt flag. *)
Ltac frame_solve :=
  lazymatch goal with
  | Hf : frame _ _ _ _ _ |- _ =>
      destruct Hf as (? & ? & ? & ?); unfold frame; state_simpl;
      repeat split; try done
  end.

(** ** The exit handlers *)

Section Handlers.
Context {vmx : vmx_h} {kvm : kvm_h} {krn : kernel}.
Implicit Types (s : machine) (m : mem).

Lemma wp_skip_emulated_instruction (Q : unit → machine → Prop) s :
  Q () (set_cpu (set_regs (<[VCPU_REGS_RIP :=
          ulong (regs (cpu s) VCPU_REGS_RIP + exit_instruction_len (cpu s))]>
          (regs (cpu s))) (cpu s)) s) →
  wp skip_emulated_instruction Q s.
Proof. intros HQ. by eexists (), _. Qed.

(** Symbolic execution of a handler down to its result. *)
Ltac handler_run :=
  wp_run; repeat (apply wp_skip_emulated_instruction; state_simpl; wp_run).

Tactic Notation "handler_frame" reference(h) :=
  intros Hf; unfold h; handler_run; (split; [frame_solve|done]).

(** [handle_io] skips the instruction, leaves [KVM_EXIT_IO] in the shared
    page and returns 0. *)
Lemma handle_io_wp m p n b s :
  frame m p n b s →
  wp handle_io
     (λ c s', frame m p n b s' ∧ c = 0
        ∧ regs (cpu s') VCPU_REGS_RIP
          = ulong (regs (cpu s) VCPU_REGS_RIP + exit_instruction_len (cpu s))
        ∧ kvm_run.exit_reason (kvm_vcpu (cpu s')) = KVM_EXIT_IO) s.
Proof.
  intros Hf. unfold handle_io. handler_run.
  all: split; [frame_solve|]; split; [done|]; state_simpl.
  all: split; [apply fn_lookup_insert|done].
Qed.

Lemma handle_io_frame m p n b s :
  frame m p n b s → wp handle_io (λ c s', frame m p n b s' ∧ c = 0) s.
Proof.
  intros Hf. eapply wp_mono; [by apply handle_io_wp|].
  by intros c s' (? & ? & _).
Qed.

Lemma handle_cpuid_frame m p n b s :
  frame m p n b s → wp handle_cpuid (λ c s', frame m p n b s' ∧ c = 1) s.
Proof.
  intros Hf. unfold handle_cpuid. wp_step. wp_step. cbv beta zeta.
  lazymatch goal with
  | |- context [find ?f ?l] => destruct (find f l) as [e|]
  end;
    [|destruct (cpuid _ _) as [[[a' b'] c'] d']];
    cbv beta iota;
    (destruct (decide (u32 (regs (cpu s) VCPU_REGS_RAX) = 1));
     handler_run; (split; [frame_solve|done])).
Qed.

(** [handle_rdmsr] completes when the host has the MSR that the guest's
    RCX names. *)
Lemma handle_rdmsr_frame m p n b s :
  is_Some (host_msr s (u32 (regs (cpu s) VCPU_REGS_RCX))) →
  frame m p n b s → wp handle_rdmsr (λ c s', frame m p n b s' ∧ c = 1) s.
Proof.
  intros [x Hx] Hf. unfold handle_rdmsr.
  wp_step. wp_step. cbv beta. wp_step. wp_step. state_simpl. cbv beta.
  wp_step. wp_step. state_simpl. wp_step.
  eapply wp_lift_option; [unfold rdmsr; rewrite Hx; reflexivity|].
  cbv beta iota. handler_run. split; [frame_solve|done].
Qed.

Lemma handle_rdmsr_returns s c s' : handle_rdmsr s = Ok c s' → c = 1.
Proof.
  unfold handle_rdmsr, mbind, M_bind, get_vcpu, printf, modify, get,
    lift_option.
  cbv beta iota.
  destruct (rdmsr _ _) as [[a d]|]; [|done].
  unfold skip_emulated_instruction, modify_vcpu, modify, mret, M_ret.
  by intros [= <- _].
Qed.

Lemma handle_wrmsr_frame m p n b s :
  frame m p n b s → wp handle_wrmsr (λ c s', frame m p n b s' ∧ c = 1) s.
Proof. handler_frame handle_wrmsr. Qed.

Lemma handle_ept_violation_frame m p n b s :
  frame m p n b s →
  wp handle_ept_violation (λ c s', frame m p n b s' ∧ c = 1) s.
Proof. handler_frame handle_ept_violation. Qed.

Lemma handle_preemption_timer_frame m p n b s :
  frame m p n b s →
  wp handle_preemption_timer (λ c s', frame m p n b s' ∧ c = 1) s.
Proof. handler_frame handle_preemption_timer. Qed.

Lemma handle_external_interrupt_frame m p n b s :
  frame m p n b s →
  wp handle_external_interrupt
     (λ c s', frame m p n b s' ∧ c = if b then 0 else 1) s.
Proof.
  intros (<- & <- & <- & <-). unfold handle_external_interrupt.
  wp_run; (split; [by unfold frame; state_simpl|done]).
Qed.

Lemma handle_apic_access_frame m p n b s :
  frame m p n b s → wp handle_apic_access (λ c s', frame m p n b s' ∧ c = 1) s.
Proof. handler_frame handle_apic_access. Qed.

Lemma handle_interrupt_window_frame m p n b s :
  frame m p n b s →
  wp handle_interrupt_window (λ c s', frame m p n b s' ∧ c = 1) s.
Proof. handler_frame handle_interrupt_window. Qed.

Lemma handle_dr_frame m p n b s :
  frame m p n b s → wp handle_dr (λ c s', frame m p n b s' ∧ c = 1) s.
Proof. handler_frame handle_dr. Qed.

Lemma handle_task_switch_frame m p n b s :
  frame m p n b s → wp handle_task_switch (λ c s', frame m p n b s' ∧ c = 1) s.
Proof. handler_frame handle_task_switch. Qed.

(** [handle_cr] walks the page tables when the guest loads CR3; on
    well-formed tables the walk does not fault. *)
Lemma handle_cr_frame m p n b s :
  wf_ept m p → frame m p n b s →
  wp handle_cr (λ c s', frame m p n b s' ∧ c = 1) s.
Proof.
  intros Hwf Hf. unfold handle_cr. wp_run.
  all: try lazymatch goal with
       | |- wp (lift_option (ept_translate ?m' ?p' ?va)) _ _ =>
           let Hpa := fresh "Hpa" in
           assert (Hpa : is_Some (ept_translate m' p' va))
             by (destruct Hf as (-> & -> & _); apply ept_translate_total, Hwf);
           destruct Hpa as [pa Hpa];
           eapply wp_lift_option; [exact Hpa|]
       end.
  all: handler_run; (split; [frame_solve|done]).
Qed.

(** C6. On a CPUID exit for function 1 the handler completes, returns 1,
    and the values it leaves in RDX and RCX have the SSE bits (EDX 25, 26),
    the SSE3 bits (ECX 0, 9), the SSE4 bits (ECX 19, 20) and the XSAVE bits
    (ECX 26, 27) clear, whatever the override table holds and whatever the
    processor answers. *)
Theorem handle_cpuid_masks_features s :
  u32 (regs (cpu s) VCPU_REGS_RAX) = 1 →
  ∃ s', handle_cpuid s = Ok 1 s'
    ∧ Z.testbit (regs (cpu s') VCPU_REGS_RDX) 25 = false
    ∧ Z.testbit (regs (cpu s') VCPU_REGS_RDX) 26 = false
    ∧ Z.testbit (regs (cpu s') VCPU_REGS_RCX) 0 = false
    ∧ Z.testbit (regs (cpu s') VCPU_REGS_RCX) 9 = false
    ∧ Z.testbit (regs (cpu s') VCPU_REGS_RCX) 19 = false
    ∧ Z.testbit (regs (cpu s') VCPU_REGS_RCX) 20 = false
    ∧ Z.testbit (regs (cpu s') VCPU_REGS_RCX) 26 = false
    ∧ Z.testbit (regs (cpu s') VCPU_REGS_RCX) 27 = false.
Proof.
  intros Hfn.
  assert (Hwp : wp handle_cpuid
            (λ c s', c = 1
               ∧ Z.testbit (regs (cpu s') VCPU_REGS_RDX) 25 = false
               ∧ Z.testbit (regs (cpu s') VCPU_REGS_RDX) 26 = false
               ∧ Z.testbit (regs (cpu s') VCPU_REGS_RCX) 0 = false
               ∧ Z.testbit (regs (cpu s') VCPU_REGS_RCX) 9 = false
               ∧ Z.testbit (regs (cpu s') VCPU_REGS_RCX) 19 = false
               ∧ Z.testbit (regs (cpu s') VCPU_REGS_RCX) 20 = false
               ∧ Z.testbit (regs (cpu s') VCPU_REGS_RCX) 26 = false
               ∧ Z.testbit (regs (cpu s') VCPU_REGS_RCX) 27 = false) s).
  { unfold handle_cpuid. wp_step. wp_step. cbv beta zeta.
    lazymatch goal with
    | |- context [find ?f ?l] => destruct (find f l) as [e|]
    end;
      [|destruct (cpuid _ _) as [[[a' b'] c'] d']];
      cbv beta iota;
      (destruct (decide (u32 (regs (cpu s) VCPU_REGS_RAX) = 1)); [|done]);
      handler_run; (split; [done|]).
    all: repeat split.
    all: repeat (rewrite fn_lookup_insert_ne by done);
         rewrite fn_lookup_insert, !Z.land_spec.
    all: repeat (first [apply andb_false_r | rewrite andb_false_r]);
         try done. }
  destruct Hwp as (c & s' & Hrun & -> & Hbits). by exists s'.
Qed.

Lemma handle_rdmsr_wp s x :
  host_msr s (u32 (regs (cpu s) VCPU_REGS_RCX)) = Some x →
  wp handle_rdmsr
     (λ c s', c = 1
        ∧ regs (cpu s') VCPU_REGS_RAX = Z.land x 0xFFFFFFFF
        ∧ regs (cpu s') VCPU_REGS_RDX = Z.land (Z.shiftr x 32) 0xFFFFFFFF
        ∧ regs (cpu s') VCPU_REGS_RIP
          = ulong (regs (cpu s) VCPU_REGS_RIP + exit_instruction_len (cpu s))
        ∧ host_msr s' = host_msr s) s.
Proof.
  intros Hx. unfold handle_rdmsr. wp_step. wp_step. cbv beta. wp_step. wp_step.
  state_simpl. cbv beta. wp_step. wp_step. state_simpl. wp_step.
  eapply wp_lift_option; [unfold rdmsr; rewrite Hx; reflexivity|].
  cbv beta iota. handler_run. split; [done|].
  repeat (rewrite fn_lookup_insert_ne by done).
  by rewrite !fn_lookup_insert, fn_lookup_insert_ne, fn_lookup_insert.
Qed.

(** Without the MSR that the guest's RCX names, [handle_rdmsr] faults at
    the instruction. *)
Lemma handle_rdmsr_fault s :
  host_msr s (u32 (regs (cpu s) VCPU_REGS_RCX)) = None →
  handle_rdmsr s = Fault.
Proof.
  intros Hx. unfold handle_rdmsr, mbind, M_bind, get_vcpu, printf, modify,
    get, lift_option, rdmsr.
  cbv beta iota. state_simpl. by rewrite Hx.
Qed.

Lemma handle_wrmsr_wp s :
  wp handle_wrmsr
     (λ c s', c = 1
        ∧ host_msr s' = host_msr s
        ∧ regs (cpu s')
          = <[VCPU_REGS_RIP :=
                ulong (regs (cpu s) VCPU_REGS_RIP + exit_instruction_len (cpu s))]>
              (regs (cpu s))) s.
Proof. unfold handle_wrmsr. handler_run. done. Qed.

(** C9, as amended. On an MSR-read exit the handler executes [rdmsr] on the
    host's MSR file with the guest's RCX.  When the host has that MSR, the
    handler leaves its two halves in the guest's RAX and RDX, advances RIP
    by the instruction length of the exit and returns 1; when the host has
    no such MSR, the instruction faults and the handler does not return.
    On an MSR-write exit the handler writes no MSR: the host's MSR file is
    as before and of the guest's registers only RIP changes; it advances
    RIP by the instruction length of the exit and returns 1. *)
Theorem handle_msr_exits s :
  (∀ x, host_msr s (u32 (regs (cpu s) VCPU_REGS_RCX)) = Some x →
     ∃ s', handle_rdmsr s = Ok 1 s'
       ∧ regs (cpu s') VCPU_REGS_RAX = Z.land x 0xFFFFFFFF
       ∧ regs (cpu s') VCPU_REGS_RDX = Z.land (Z.shiftr x 32) 0xFFFFFFFF
       ∧ regs (cpu s') VCPU_REGS_RIP
         = ulong (regs (cpu s) VCPU_REGS_RIP + exit_instruction_len (cpu s))
       ∧ host_msr s' = host_msr s)
  ∧ (host_msr s (u32 (regs (cpu s) VCPU_REGS_RCX)) = None →
     handle_rdmsr s = Fault)
  ∧ (∃ s', handle_wrmsr s = Ok 1 s'
       ∧ host_msr s' = host_msr s
       ∧ regs (cpu s')
         = <[VCPU_REGS_RIP :=
               ulong (regs (cpu s) VCPU_REGS_RIP + exit_instruction_len (cpu s))]>
             (regs (cpu s))).
Proof.
  split; [|split].
  - intros x Hx.
    destruct (handle_rdmsr_wp s x Hx) as (c & s' & Hrun & -> & Hres).
    by exists s'.
  - apply handle_rdmsr_fault.
  - destruct (handle_wrmsr_wp s) as (c & s' & Hrun & -> & Hres). by exists s'.
Qed.

End Handlers.

(** ** The run loop *)

Section RunLoop.
Context {vmx : vmx_h} {kvm : kvm_h} {krn : kernel}.
Implicit Types (s : machine) (m : mem) (e : vmexit).

Lemma designated_elem_of tbl r h :
  designated tbl r = Some h → (r, h) ∈ tbl.
Proof.
  induction tbl as [|[k h'] tbl IH]; simpl; [done|].
  destruct (designated tbl r) as [h''|].
  - intros [= ->]. right. by apply IH.
  - case_decide; [|done]. intros [= ->]. subst. by left.
Qed.

(** Every handler of the array completes on well-formed page tables and
    keeps the frame; the handler of an MSR read needs the MSR that the
    guest's RCX names. *)
Lemma kvm_vmx_exit_handlers_frame m p n b r h s :
  wf_ept m p → (r, h) ∈ kvm_vmx_exit_handlers →
  (r = EXIT_REASON_MSR_READ →
   is_Some (host_msr s (u32 (regs (cpu s) VCPU_REGS_RCX)))) →
  frame m p n b s →
  wp h (λ _ s', frame m p n b s') s.
Proof.
  intros Hwf Hin Hmsr Hf. unfold kvm_vmx_exit_handlers in Hin.
  repeat (apply elem_of_cons in Hin as [[= -> ->]|Hin]);
    [..|by apply elem_of_nil in Hin].
  - eapply wp_mono; [by apply handle_external_interrupt_frame|by intros ? ? [? _]].
  - eapply wp_mono; [by apply handle_cpuid_frame|by intros ? ? [? _]].
  - eapply wp_mono; [by apply handle_io_frame|by intros ? ? [? _]].
  - eapply wp_mono; [by apply handle_rdmsr_frame; [apply Hmsr|]
                    |by intros ? ? [? _]].
  - eapply wp_mono; [by apply handle_wrmsr_frame|by intros ? ? [? _]].
  - eapply wp_mono; [by apply handle_ept_violation_frame|by intros ? ? [? _]].
  - eapply wp_mono; [by apply handle_preemption_timer_frame|by intros ? ? [? _]].
  - eapply wp_mono; [by apply handle_apic_access_frame|by intros ? ? [? _]].
  - eapply wp_mono; [by apply handle_interrupt_window_frame|by intros ? ? [? _]].
  - eapply wp_mono; [by apply handle_cr_frame|by intros ? ? [? _]].
  - eapply wp_mono; [by apply handle_dr_frame|by intros ? ? [? _]].
  - eapply wp_mono; [by apply handle_task_switch_frame|by intros ? ? [? _]].
Qed.

Lemma kvm_run_wrapper_dispatch_frame m p n b r s :
  wf_ept m p →
  (r = EXIT_REASON_MSR_READ →
   is_Some (host_msr s (u32 (regs (cpu s) VCPU_REGS_RCX)))) →
  frame m p n b s →
  wp (kvm_run_wrapper_dispatch r) (λ _ s', frame m p n b s') s.
Proof.
  intros Hwf Hmsr Hf. unfold kvm_run_wrapper_dispatch.
  case_decide; [|by apply wp_ret].
  destruct (designated kvm_vmx_exit_handlers r) as [h|] eqn:Hd;
    [|by apply wp_ret].
  eapply kvm_vmx_exit_handlers_frame; [done| |done|done].
  by apply designated_elem_of.
Qed.

(** One pass through the loop body performs one world switch, keeps the
    page tables, and hands back the exit reason and the error of that
    exit together with what the dispatch gave; after the dispatch only
    [vmcs_loaded] changes in the vcpu. *)
Lemma kvm_run_wrapper_body_wp m p n b exits cpun maxcont er
    (R : Z → vcpu → Prop) s :
  frame m p n b s →
  (∀ s1, frame m p (S n) (exit_signal_pending (exits n)) s1 →
     host_msr s1 = exit_host_msr (exits n) →
     regs (cpu s1) VCPU_REGS_RCX = exit_regs (exits n) VCPU_REGS_RCX →
     wp (kvm_run_wrapper_dispatch (u32 (exit_vmcs (exits n) VM_EXIT_REASON)))
        (λ c s2, frame m p (S n) (exit_signal_pending (exits n)) s2
                 ∧ R c (cpu s2))
        s1) →
  wp (kvm_run_wrapper_body exits cpun maxcont er)
     (λ '(c, er', err) s',
        frame m p (S n) (exit_signal_pending (exits n)) s'
        ∧ (∃ v, R c v ∧ cpu s' = set_vmcs_loaded 0 v)
        ∧ er' = u32 (exit_vmcs (exits n) VM_EXIT_REASON)
        ∧ err = u32 (exit_vmcs (exits n) VM_INSTRUCTION_ERROR)) s.
Proof.
  intros (<- & <- & <- & <-) Hdisp. unfold kvm_run_wrapper_body.
  repeat (first [wp_step
                |progress unfold kvm_run_wrapper_inject, kvm_run, world_switch];
          cbv beta iota; state_simpl).
  all: (eapply wp_mono;
        [apply Hdisp;
         [by unfold frame; state_simpl|by state_simpl
         |state_simpl;
          first [done|by rewrite decide_False by (by intros [?|?])]]|]).
  all: intros c s2 [Hf HR]; cbv beta.
  all: wp_run.
  all: split; [frame_solve|]; split; [by exists (cpu s2)|done].
Qed.

(** While the handlers keep returning 1 the loop goes on, one world switch
    per pass, until [maxcont] reaches the bound or an exit reports a VM
    instruction error; it ends with [cont = 1]. *)
Lemma kvm_run_wrapper_loop_continue m p exits cpun n0 :
  wf_ept m p →
  (∀ i, (n0 ≤ i)%nat → handler_continues (exits i)) →
  (∀ i, (n0 ≤ i)%nat → rdmsr_exit_readable (exits i)) →
  ∀ fuel maxcont er n b s,
    0 ≤ maxcont ≤ 1000 → (Z.to_nat (1000 - maxcont) < fuel)%nat →
    (n0 ≤ n)%nat → frame m p n b s →
    wp (kvm_run_wrapper_loop fuel exits cpun 1 maxcont er)
       (λ '(c, mc, er') s',
          c = 1 ∧ ∃ k b',
            frame m p (n + k) b' s'
            ∧ (k ≤ Z.to_nat (1000 - maxcont))%nat
            ∧ (maxcont < 1000 → (1 ≤ k)%nat)
            ∧ ((∀ i, (n0 ≤ i)%nat →
                  u32 (exit_vmcs (exits i) VM_INSTRUCTION_ERROR) = 0) →
               k = Z.to_nat (1000 - maxcont))) s.
Proof.
  intros Hwf Hcont Hmsr fuel.
  induction fuel as [|fuel IH]; intros maxcont er n b s Hmc Hfuel Hn Hf;
    [lia|].
  cbn [kvm_run_wrapper_loop]. rewrite decide_True by done.
  destruct (decide (maxcont < 1000)) as [Hlt|Hge].
  - cbv zeta. apply wp_bind.
    eapply wp_mono;
      [apply (kvm_run_wrapper_body_wp m p n b exits cpun (maxcont + 1) er
                (λ c _, c = 1) s Hf)|].
    + intros s1 Hf1 Hm1 Hc1.
      destruct (kvm_run_wrapper_dispatch_frame m p (S n)
                  (exit_signal_pending (exits n))
                  (u32 (exit_vmcs (exits n) VM_EXIT_REASON)) s1 Hwf)
        as (c & s2 & Hd & Hf2); [|done|].
      { rewrite Hm1, Hc1. by apply Hmsr. }
      exists c, s2. split; [done|]. split; [done|].
      eapply (Hcont n Hn); [|exact Hd]. by destruct Hf1 as (_ & _ & _ & ?).
    + intros [[c er'] err] s' (Hf' & (_ & -> & _) & -> & ->). cbv beta iota.
      destruct (decide (u32 (exit_vmcs (exits n) VM_INSTRUCTION_ERROR) ≠ 0))
        as [Herr|Hok].
      * apply wp_ret. split; [done|].
        exists 1%nat, (exit_signal_pending (exits n)).
        rewrite Nat.add_1_r. split; [done|]. split; [lia|].
        split; [done|]. intros Hnoerr. by destruct (Herr (Hnoerr n Hn)).
      * eapply wp_mono;
          [eapply (IH (maxcont + 1) _ (S n)); [lia|lia|lia|exact Hf']|].
        intros [[c mc] er2] s'' (-> & k & b' & Hf'' & Hk & Hk1 & Hke).
        split; [done|]. exists (S k), b'.
        rewrite Nat.add_succ_r, <- Nat.add_succ_l. split; [done|].
        split; [lia|]. split; [lia|]. intros Hnoerr.
        rewrite (Hke Hnoerr). lia.
  - apply wp_ret. split; [done|]. exists 0%nat, b.
    rewrite Nat.add_0_r. split; [done|]. split; [lia|]. split; [lia|].
    intros _. lia.
Qed.

(** C4. When the handler of every exit of a run returns "continue", which
    for an MSR read takes an MSR that the host has, the run loop ends after
    at least one and at most 1000 world switches (exactly 1000 when no exit
    reports a VM instruction error), and the wrapper prints the timeout
    message and returns 0; the fuel of the model is never used up. *)
Theorem kvm_run_wrapper_timeout (fuel : nat) exits s :
  (1000 < fuel)%nat →
  wf_ept (kmem s) (pml4 (cpu s)) →
  (∀ i, (world_switches s ≤ i)%nat → handler_continues (exits i)) →
  (∀ i, (world_switches s ≤ i)%nat → rdmsr_exit_readable (exits i)) →
  ∃ s' k maxcont exit_reason,
    kvm_run_wrapper fuel exits s = Ok 0 s'
    ∧ world_switches s' = (world_switches s + k)%nat
    ∧ (1 ≤ k ≤ 1000)%nat
    ∧ list.last (console s')
      = Some ("%d EXIT FROM TIMEOUT %lx\n"%string, [maxcont; exit_reason])
    ∧ ((∀ i, (world_switches s ≤ i)%nat →
          u32 (exit_vmcs (exits i) VM_INSTRUCTION_ERROR) = 0) →
       k = 1000%nat).
Proof.
  intros Hfuel Hwf Hcont Hmsr.
  assert (Hwp : wp (kvm_run_wrapper fuel exits)
            (λ r s', r = 0 ∧ ∃ k maxcont exit_reason,
               world_switches s' = (world_switches s + k)%nat
               ∧ (1 ≤ k ≤ 1000)%nat
               ∧ list.last (console s')
                 = Some ("%d EXIT FROM TIMEOUT %lx\n"%string,
                         [maxcont; exit_reason])
               ∧ ((∀ i, (world_switches s ≤ i)%nat →
                     u32 (exit_vmcs (exits i) VM_INSTRUCTION_ERROR) = 0) →
                  k = 1000%nat)) s).
  { unfold kvm_run_wrapper. wp_run.
    all: (eapply wp_mono;
          [apply (kvm_run_wrapper_loop_continue _ _ exits cpu_number
                    (world_switches s) Hwf Hcont Hmsr fuel 0 0
                    (world_switches s) (signal_pending s));
           [lia|simpl; lia|lia|by unfold frame; state_simpl]|]).
    all: intros [[c mc] er] s' (-> & k & b' & Hf & Hk & Hk1 & Hke);
         cbv beta iota.
    all: rewrite decide_True by done; wp_run.
    all: split; [done|]; exists k, mc, er; state_simpl.
    all: destruct Hf as (_ & _ & -> & _).
    all: split; [done|]; split; [simpl in Hk; lia|].
    all: split; [apply last_snoc|].
    all: intros Hnoerr; by rewrite (Hke Hnoerr). }
  destruct Hwp as (r & s' & Hrun & -> & k & mc & er & H1 & H2 & H3 & H4).
  by exists s', k, mc, er.
Qed.

Lemma designated_None tbl r : r ∉ tbl.*1 → designated tbl r = None.
Proof.
  induction tbl as [|[k h] tbl IH]; simpl; [done|].
  intros [Hne Hnin]%not_elem_of_cons.
  rewrite (IH Hnin). by rewrite decide_False.
Qed.

Lemma designated_NoDup tbl r h :
  NoDup (tbl.*1) → (r, h) ∈ tbl → designated tbl r = Some h.
Proof.
  induction tbl as [|[k h'] tbl IH]; simpl.
  - intros _ Hin. by apply elem_of_nil in Hin.
  - intros [Hk Hnd]%list.NoDup_cons [[= -> ->]|Hin]%elem_of_cons.
    + rewrite (designated_None _ _ Hk). by rewrite decide_True.
    + by rewrite (IH Hnd Hin).
Qed.

Lemma kvm_vmx_max_exit_handlers_gt r h :
  (r, h) ∈ kvm_vmx_exit_handlers → r < kvm_vmx_max_exit_handlers.
Proof.
  unfold kvm_vmx_max_exit_handlers.
  induction kvm_vmx_exit_handlers as [|[k h'] tbl IH]; simpl.
  - intros Hin. by apply elem_of_nil in Hin.
  - intros [[= -> ->]|Hin]%elem_of_cons; [lia|]. specialize (IH Hin). lia.
Qed.

Lemma kvm_run_wrapper_dispatch_designated r h :
  exit_reasons_distinct → (r, h) ∈ kvm_vmx_exit_handlers →
  kvm_run_wrapper_dispatch r = h.
Proof.
  intros Hnd Hin. unfold kvm_run_wrapper_dispatch.
  rewrite decide_True by (by eapply kvm_vmx_max_exit_handlers_gt).
  by rewrite (designated_NoDup _ _ _ Hnd Hin).
Qed.


Lemma wp_result {A} (c : M A) (Q : A → machine → Prop) s x s' :
  wp c Q s → c s = Ok x s' → Q x s'.
Proof. intros (y & s'' & Hc & HQ) Hc'. rewrite Hc in Hc'. by simplify_eq. Qed.

Lemma handle_cr_returns s c s' : handle_cr s = Ok c s' → c = 1.
Proof.
  unfold handle_cr, mbind, M_bind, get_vcpu. cbv beta zeta.
  lazymatch goal with
  | |- match ?X with _ => _ end = _ → _ => destruct X as [[] s0| |]
  end; [|done..].
  unfold skip_emulated_instruction, modify_vcpu, modify, mret, M_ret.
  by intros [= <- _].
Qed.

(** The handlers that return "continue": all but the I/O handler, the
    external-interrupt handler only while no signal is pending. *)
Lemma handler_continues_reason e :
  exit_reasons_distinct →
  u32 (exit_vmcs e VM_EXIT_REASON) ∈ continuing_reasons
  ∨ (u32 (exit_vmcs e VM_EXIT_REASON) = EXIT_REASON_EXTERNAL_INTERRUPT
     ∧ exit_signal_pending e = false) →
  handler_continues e.
Proof.
  intros Hnd Hr s c s' Hsig.
  assert (Hf : frame (kmem s) (pml4 (cpu s)) (world_switches s)
                 (exit_signal_pending e) s) by done.
  assert (Hin : ∀ r h, (r, h) ∈ kvm_vmx_exit_handlers →
            kvm_run_wrapper_dispatch r = h)
    by (intros r h; by apply kvm_run_wrapper_dispatch_designated).
  destruct Hr as [Hr|[Hr Hns]].
  - unfold continuing_reasons in Hr.
    repeat (apply elem_of_cons in Hr as [Hr|Hr]);
      [..|by apply elem_of_nil in Hr]; rewrite Hr.
    + rewrite (Hin _ handle_cpuid) by (by repeat constructor). intros Hrun.
      by destruct (wp_result _ _ _ _ _ (handle_cpuid_frame _ _ _ _ _ Hf) Hrun).
    + rewrite (Hin _ handle_rdmsr) by (by repeat constructor).
      apply handle_rdmsr_returns.
    + rewrite (Hin _ handle_wrmsr) by (by repeat constructor). intros Hrun.
      by destruct (wp_result _ _ _ _ _ (handle_wrmsr_frame _ _ _ _ _ Hf) Hrun).
    + rewrite (Hin _ handle_ept_violation) by (by repeat constructor). intros Hrun.
      by destruct (wp_result _ _ _ _ _ (handle_ept_violation_frame _ _ _ _ _ Hf) Hrun).
    + rewrite (Hin _ handle_preemption_timer) by (by repeat constructor). intros Hrun.
      by destruct (wp_result _ _ _ _ _ (handle_preemption_timer_frame _ _ _ _ _ Hf) Hrun).
    + rewrite (Hin _ handle_apic_access) by (by repeat constructor). intros Hrun.
      by destruct (wp_result _ _ _ _ _ (handle_apic_access_frame _ _ _ _ _ Hf) Hrun).
    + rewrite (Hin _ handle_interrupt_window) by (by repeat constructor). intros Hrun.
      by destruct (wp_result _ _ _ _ _ (handle_interrupt_window_frame _ _ _ _ _ Hf) Hrun).
    + rewrite (Hin _ handle_cr) by (by repeat constructor).
      apply handle_cr_returns.
    + rewrite (Hin _ handle_dr) by (by repeat constructor). intros Hrun.
      by destruct (wp_result _ _ _ _ _ (handle_dr_frame _ _ _ _ _ Hf) Hrun).
    + rewrite (Hin _ handle_task_switch) by (by repeat constructor). intros Hrun.
      by destruct (wp_result _ _ _ _ _ (handle_task_switch_frame _ _ _ _ _ Hf) Hrun).
  - rewrite Hr, (Hin _ handle_external_interrupt) by (by repeat constructor).
    intros Hrun.
    destruct (wp_result _ _ _ _ _
                (handle_external_interrupt_frame _ _ _ _ _ Hf) Hrun)
      as [_ ->].
    by rewrite Hns.
Qed.




End RunLoop.

(** ** The interrupt line *)

Section IrqLine.
Context {vmx : vmx_h} {kvm : kvm_h} {krn : kernel}.
Implicit Types (s : machine) (irq : kvm_irq_level.t).

(** The state after [kvm_irq_line] on a line inside the array whose stored
    level is [l]. *)
Lemma kvm_irq_line_in_range s irq l :
  0 ≤ kvm_irq_level.irq irq < IRQ_MAX →
  irq_level (cpu s) !! Z.to_nat (kvm_irq_level.irq irq) = Some l →
  kvm_irq_line irq s
  = Ok 0
      (set_host_if true
         (set_cpu
            (set_irq_level
               (<[Z.to_nat (kvm_irq_level.irq irq) :=
                    int (kvm_irq_level.level irq)]> (irq_level (cpu s)))
               (if decide (l = 0 ∧ kvm_irq_level.level irq = 1)
                then set_pending_irq
                       (Z.lor (pending_irq (cpu s))
                              (Z.shiftl 1 (kvm_irq_level.irq irq))) (cpu s)
                else cpu s))
            s)).
Proof.
  intros Hirq Hl. unfold kvm_irq_line.
  unfold mbind, M_bind, modify, modify_vcpu, get_vcpu, lift_option, mret, M_ret.
  rewrite decide_True by lia. cbn beta iota. state_simpl. rewrite Hl.
  by destruct (decide (l = 0 ∧ kvm_irq_level.level irq = 1)).
Qed.

(** C7. Asserting a line below [IRQ_MAX] a second time, with no deassert in
    between, changes nothing: the second call returns 0 and leaves the
    state of the first.  In the first call the stored level decides: the
    pending bit of the line is set when the stored level was 0, and the
    bitmap is left alone otherwise. *)
Theorem kvm_irq_line_assert_twice s irq :
  0 ≤ kvm_irq_level.irq irq < IRQ_MAX →
  kvm_irq_level.level irq = 1 →
  length (irq_level (cpu s)) = Z.to_nat IRQ_MAX →
  ∃ s1,
    kvm_irq_line irq s = Ok 0 s1
    ∧ kvm_irq_line irq s1 = Ok 0 s1
    ∧ irq_level (cpu s1) !! Z.to_nat (kvm_irq_level.irq irq) = Some 1
    ∧ pending_irq (cpu s1)
      = if decide (irq_level (cpu s) !! Z.to_nat (kvm_irq_level.irq irq)
                   = Some 0)
        then Z.lor (pending_irq (cpu s)) (Z.shiftl 1 (kvm_irq_level.irq irq))
        else pending_irq (cpu s).
Proof.
  intros Hirq Hlevel Hlen.
  assert (Hlt : (Z.to_nat (kvm_irq_level.irq irq) < length (irq_level (cpu s)))%nat)
    by (rewrite Hlen; unfold IRQ_MAX in *; lia).
  destruct (lookup_lt_is_Some_2 _ _ Hlt) as [l Hl].
  rewrite (kvm_irq_line_in_range s irq l Hirq Hl).
  eexists. split; [reflexivity|].
  assert (Hl1 : <[Z.to_nat (kvm_irq_level.irq irq) :=
                    int (kvm_irq_level.level irq)]> (irq_level (cpu s))
                !! Z.to_nat (kvm_irq_level.irq irq) = Some 1).
  { rewrite list_lookup_insert_eq by done. by rewrite Hlevel. }
  split; [|split].
  - erewrite kvm_irq_line_in_range; [|done|].
    2:{ destruct (decide (l = 0 ∧ kvm_irq_level.level irq = 1)); exact Hl1. }
    destruct (decide (1 = 0 ∧ kvm_irq_level.level irq = 1)) as [[? _]|_];
      [done|].
    destruct (decide (l = 0 ∧ kvm_irq_level.level irq = 1));
      state_simpl; by rewrite list_insert_insert_eq.
  - destruct (decide (l = 0 ∧ kvm_irq_level.level irq = 1)); exact Hl1.
  - rewrite Hl.
    destruct (decide (l = 0 ∧ kvm_irq_level.level irq = 1)) as [[-> _]|Hn].
    + by rewrite decide_True.
    + rewrite decide_False; [done|]. intros [= ->]. by apply Hn.
Qed.

(** C10. A request for a line at or above [IRQ_MAX] returns 0 and leaves
    the vcpu, and with it the pending bitmap and the level array, as it
    was. *)
Theorem kvm_irq_line_out_of_range s irq :
  IRQ_MAX ≤ kvm_irq_level.irq irq →
  ∃ s', kvm_irq_line irq s = Ok 0 s'
        ∧ cpu s' = cpu s
        ∧ pending_irq (cpu s') = pending_irq (cpu s)
        ∧ irq_level (cpu s') = irq_level (cpu s).
Proof.
  intros Hirq. unfold kvm_irq_line.
  unfold mbind, M_bind, modify, modify_vcpu, get_vcpu, lift_option, mret, M_ret.
  rewrite decide_False by lia. by eexists.
Qed.

End IrqLine.

(** ** Examples on the concrete kernel *)

Lemma bump_kernel_fresh (m : mem) size alignment :
  @IOMallocAligned bump_kernel m size alignment ≠ 0 →
  m !! @IOMallocAligned bump_kernel m size alignment = None.
Proof.
  intros _. simpl. apply not_elem_of_dom.
  pose proof (is_fresh ({[0]} ∪ dom m)) as Hf. set_solver.
Qed.

Lemma bump_kernel_no_oom (m : mem) size alignment :
  @IOMallocAligned bump_kernel m size alignment ≠ 0.
Proof.
  simpl. pose proof (is_fresh ({[0]} ∪ dom m)) as Hf. set_solver.
Qed.

Section Examples.
#[local] Existing Instances intel_vmx linux_kvm bump_kernel.

Lemma intel_EPT_DEFAULTS_low : 0 ≤ EPT_DEFAULTS < PAGE_SIZE.
Proof. by compute. Qed.

Lemma fresh_ept_wf : wf_ept fresh_ept.1 fresh_ept.2.
Proof. apply (ept_init_wf bump_kernel_fresh). apply bump_kernel_no_oom. Qed.

Lemma ept_translate_add_page_witness :
  ∃ m', ept_add_page fresh_ept.1 fresh_ept.2 0x1000 0x5123 = Some m'
        ∧ ept_translate m' fresh_ept.2 0x1000 = Some 0x5000.
Proof.
  destruct (ept_translate_add_page bump_kernel_fresh intel_EPT_DEFAULTS_low
              fresh_ept.1 fresh_ept.2 0x1000 0x5123 ltac:(lia))
    as [Hres Htot].
  destruct (Htot fresh_ept_wf bump_kernel_no_oom) as [m' Hm'].
  exists m'. split; [exact Hm'|]. exact (Hres m' Hm').
Defined.

Lemma ept_translate_absent_witness :
  ept_walk_missing fresh_ept.1 fresh_ept.2 0x4000
  ∧ ept_translate fresh_ept.1 fresh_ept.2 0x4000 = Some 0.
Proof.
  assert (Hmiss : ept_walk_missing fresh_ept.1 fresh_ept.2 0x4000)
    by (left; reflexivity).
  split; [exact Hmiss|]. exact (ept_translate_absent _ _ _ Hmiss).
Defined.

Lemma ept_add_page_last_write_wins_witness :
  ∃ m1 m2,
    ept_add_page fresh_ept.1 fresh_ept.2 0x1000 0x5000 = Some m1
    ∧ ept_add_page m1 fresh_ept.2 0x1000 0x7000 = Some m2
    ∧ dom m2 = dom m1
    ∧ ept_translate m2 fresh_ept.2 0x1000 = Some 0x7000.
Proof.
  destruct (ept_add_page fresh_ept.1 fresh_ept.2 0x1000 0x5000)
    as [m1|] eqn:Hadd1; [|vm_compute in Hadd1; discriminate].
  destruct (ept_add_page_last_write_wins bump_kernel_fresh
              intel_EPT_DEFAULTS_low fresh_ept.1 fresh_ept.2 0x1000 0x5000
              0x7000 m1 ltac:(lia) Hadd1) as (m2 & Hadd2 & Hdom & Htr).
  exists m1, m2. exact (conj eq_refl (conj Hadd2 (conj Hdom Htr))).
Defined.

Lemma intel_exit_reasons_distinct : exit_reasons_distinct.
Proof. apply (bool_decide_unpack _). by vm_compute. Qed.

Lemma boot_machine_wf : wf_ept (kmem boot_machine) (pml4 (cpu boot_machine)).
Proof. exact fresh_ept_wf. Qed.

Lemma kvm_run_wrapper_timeout_witness :
  ∃ s' maxcont exit_reason,
    kvm_run_wrapper 1001 (λ _, exit_with 10) boot_machine = Ok 0 s'
    ∧ world_switches s' = 1000%nat
    ∧ list.last (console s')
      = Some ("%d EXIT FROM TIMEOUT %lx\n"%string, [maxcont; exit_reason]).
Proof.
  assert (Hcont : ∀ i, (world_switches boot_machine ≤ i)%nat →
            handler_continues (exit_with 10)).
  { intros i _. apply handler_continues_reason;
      [exact intel_exit_reasons_distinct|].
    left. apply (bool_decide_unpack _). vm_compute. exact I. }
  assert (Hmsr : ∀ i, (world_switches boot_machine ≤ i)%nat →
            rdmsr_exit_readable (exit_with 10)).
  { intros i _ _. exists 7. reflexivity. }
  destruct (kvm_run_wrapper_timeout 1001 (λ _, exit_with 10) boot_machine
              ltac:(lia) boot_machine_wf Hcont Hmsr)
    as (s' & k & maxcont & exit_reason & Hrun & Hws & Hk & Hlast & Hnoerr).
  pose proof (Hnoerr (λ _ _, eq_refl)) as ->.
  exists s', maxcont, exit_reason.
  split; [exact Hrun|]. split; [exact Hws|exact Hlast].
Defined.



Lemma handle_cpuid_masks_features_witness :
  ∃ s', handle_cpuid cpuid_machine = Ok 1 s'
    ∧ Z.testbit (regs (cpu s') VCPU_REGS_RDX) 25 = false
    ∧ Z.testbit (regs (cpu s') VCPU_REGS_RDX) 26 = false
    ∧ Z.testbit (regs (cpu s') VCPU_REGS_RCX) 0 = false
    ∧ Z.testbit (regs (cpu s') VCPU_REGS_RCX) 9 = false
    ∧ Z.testbit (regs (cpu s') VCPU_REGS_RCX) 19 = false
    ∧ Z.testbit (regs (cpu s') VCPU_REGS_RCX) 20 = false
    ∧ Z.testbit (regs (cpu s') VCPU_REGS_RCX) 26 = false
    ∧ Z.testbit (regs (cpu s') VCPU_REGS_RCX) 27 = false.
Proof. exact (handle_cpuid_masks_features cpuid_machine eq_refl). Defined.

Lemma handle_msr_exits_witness :
  (∃ s', handle_rdmsr wrmsr_machine = Ok 1 s'
     ∧ regs (cpu s') VCPU_REGS_RAX = 7
     ∧ regs (cpu s') VCPU_REGS_RDX = 0)
  ∧ handle_rdmsr rdmsr_gp_machine = Fault.
Proof.
  destruct (handle_msr_exits wrmsr_machine) as (Hrd & _ & _).
  destruct (handle_msr_exits rdmsr_gp_machine) as (_ & Hgp & _).
  split.
  - destruct (Hrd 7 eq_refl) as (s' & Hrun & Ha & Hd & _).
    exists s'. split; [exact Hrun|]. split; [exact Ha|exact Hd].
  - exact (Hgp eq_refl).
Defined.

(** C9 as stated fails: the guest writes 5 to MSR 0x174 and after the
    handler the host's MSR is not what [wrmsr] would have left there. *)
Lemma handle_wrmsr_counterexample :
  ¬ (∃ s', handle_wrmsr wrmsr_machine = Ok 1 s'
       ∧ host_msr s' 0x174
         = wrmsr (host_msr wrmsr_machine)
             (regs (cpu wrmsr_machine) VCPU_REGS_RCX)
             (regs (cpu wrmsr_machine) VCPU_REGS_RAX)
             (regs (cpu wrmsr_machine) VCPU_REGS_RDX) 0x174).
Proof.
  intros (s' & Hrun & Hmsr).
  destruct (handle_wrmsr_wp wrmsr_machine) as (c & s'' & Hrun' & -> & Hsame & _).
  rewrite Hrun' in Hrun. injection Hrun as <-.
  rewrite Hsame in Hmsr. vm_compute in Hmsr. discriminate.
Qed.

Lemma kvm_irq_line_assert_twice_witness :
  ∃ s1,
    kvm_irq_line {| kvm_irq_level.irq := 3; kvm_irq_level.level := 1 |}
      boot_machine = Ok 0 s1
    ∧ kvm_irq_line {| kvm_irq_level.irq := 3; kvm_irq_level.level := 1 |} s1
      = Ok 0 s1
    ∧ irq_level (cpu s1) !! 3%nat = Some 1
    ∧ pending_irq (cpu s1) = 8.
Proof.
  exact (kvm_irq_line_assert_twice boot_machine
           {| kvm_irq_level.irq := 3; kvm_irq_level.level := 1 |}
           ltac:(by compute) eq_refl eq_refl).
Defined.

Lemma kvm_irq_line_out_of_range_witness :
  ∃ s', kvm_irq_line {| kvm_irq_level.irq := 16; kvm_irq_level.level := 1 |}
          boot_machine = Ok 0 s'
        ∧ cpu s' = cpu boot_machine
        ∧ pending_irq (cpu s') = pending_irq (cpu boot_machine)
        ∧ irq_level (cpu s') = irq_level (cpu boot_machine).
Proof.
  exact (kvm_irq_line_out_of_range boot_machine
           {| kvm_irq_level.irq := 16; kvm_irq_level.level := 1 |}
           ltac:(by compute)).
Defined.

(** C8 fails on the code: the user range starts one byte into a page, the
    call returns 0 instead of [EINVAL], and the page is installed. *)
Lemma kvm_set_user_memory_region_unaligned :
  ∃ s', kvm_set_user_memory_region unaligned_region boot_machine = Ok 0 s'
    ∧ kvm_userspace_memory_region.userspace_addr unaligned_region
        mod PAGE_SIZE ≠ 0
    ∧ ept_translate (kmem boot_machine) (pml4 (cpu boot_machine)) 0x1000
      = Some 0
    ∧ ept_translate (kmem s') (pml4 (cpu s')) 0x1000 = Some 0x7000.
Proof.
  destruct (kvm_set_user_memory_region unaligned_region boot_machine)
    as [r s'| |] eqn:Hrun; [|vm_compute in Hrun; discriminate..].
  assert (Hr : r = 0) by (vm_compute in Hrun; congruence).
  subst r. exists s'. split; [done|]. split; [by compute|].
  split; [by vm_compute|].
  assert (Hs : Ok 0 s' = kvm_set_user_memory_region unaligned_region
                           boot_machine) by done.
  vm_compute in Hs. injection Hs as ->. by vm_compute.
Qed.

End Examples.

(** ** The walks level by level *)

Section EptLevelsFacts.
Context {vmx : vmx_h} {krn : kernel}.

Lemma ept_translate_from_3 (m : mem) pml4 va :
  ept_translate m pml4 va = ept_translate_from 3 m pml4 va.
Proof. reflexivity. Qed.

Lemma ept_add_page_from_3 (m : mem) pml4 va pa :
  ept_add_page m pml4 va pa = ept_add_page_from 3 m pml4 va pa.
Proof. reflexivity. Qed.

Lemma ept_free_from_3 (m : mem) pml4 :
  ept_free m pml4 = ept_free_from 3 m pml4.
Proof. reflexivity. Qed.

Lemma ept_index_bounds n va : 0 ≤ ept_index n va < 512.
Proof. apply ept_index_range. Qed.

(** *** Slots and their subtrees *)

Lemma ept_children_length P hw sh t :
  ept_children P hw sh t → length hw = length sh.
Proof.
  revert sh t. induction hw as [|e hw IH]; intros [|c sh] t; simpl; try done.
  intros (t1 & t2 & _ & _ & _ & Hch). f_equal. eauto.
Qed.

Lemma ept_children_null P n :
  ept_children P (replicate n 0) (replicate n 0) ∅.
Proof.
  induction n as [|n IH]; simpl; [done|].
  exists ∅, ∅. split; [by rewrite map_empty_union|]. split; [apply map_disjoint_empty_l|].
  split; [|done]. unfold ept_slot. by rewrite decide_True.
Qed.

Lemma ept_children_lookup P hw sh t j cj :
  ept_children P hw sh t → sh !! j = Some cj → cj ≠ 0 →
  ∃ tj, tj ⊆ t ∧ P cj tj.
Proof.
  revert sh t j. induction hw as [|e hw IH]; intros [|c sh] t j; simpl; try done.
  intros (t1 & t2 & -> & Hdisj & Hslot & Hch) Hj Hcj.
  destruct j as [|j]; simpl in Hj.
  - simplify_eq. unfold ept_slot in Hslot. rewrite decide_False in Hslot by done.
    exists t1. split; [apply map_union_subseteq_l|tauto].
  - destruct (IH _ _ _ Hch Hj Hcj) as (tj & Hsub & HP).
    exists tj. split; [|done].
    etrans; [exact Hsub|]. by apply map_union_subseteq_r.
Qed.

Lemma ept_children_split P hw sh t i c :
  ept_children P hw sh t → sh !! i = Some c →
  ∃ e t1 t2,
    hw !! i = Some e ∧ t = t1 ∪ t2 ∧ t1 ##ₘ t2 ∧ ept_slot P e c t1
    ∧ (∀ e' c' t1', ept_slot P e' c' t1' → t1' ##ₘ t2 →
         ept_children P (<[i:=e']> hw) (<[i:=c']> sh) (t1' ∪ t2))
    ∧ (∀ j cj, j ≠ i → sh !! j = Some cj → cj ≠ 0 →
         ∃ tj, tj ⊆ t2 ∧ P cj tj).
Proof.
  revert sh t i. induction hw as [|e0 hw IH]; intros [|c0 sh] t i; simpl; try done.
  intros (ta & tb & -> & Hdisj & Hslot & Hch) Hi.
  destruct i as [|i]; simpl in Hi.
  - simplify_eq. exists e0, ta, tb. repeat split; try done.
    + intros e' c' t1' Hslot' Hd'. simpl. by exists t1', tb.
    + intros [|j] cj Hj Hcj Hnz; [done|]. simpl in Hcj.
      by eapply ept_children_lookup.
  - destruct (IH _ _ _ Hch Hi) as (e & t1 & t2 & He & -> & Hd12 & Hsl & Hupd & Hsib).
    apply map_disjoint_union_r in Hdisj as [Hda1 Hda2].
    exists e, t1, (ta ∪ t2). split; [done|]. split.
    { rewrite !map_union_assoc. f_equal. by apply map_union_comm. }
    split; [by apply map_disjoint_union_r|]. split; [done|]. split.
    + intros e' c' t1' Hslot' Hd'. simpl.
      apply map_disjoint_union_r in Hd' as [Hd'a Hd'2].
      exists ta, (t1' ∪ t2). split.
      { rewrite !map_union_assoc. f_equal. by apply map_union_comm. }
      split; [by apply map_disjoint_union_r|]. split; [done|]. by apply Hupd.
    + intros [|j] cj Hj Hcj Hnz; simpl in Hcj.
      * simplify_eq. unfold ept_slot in Hslot.
        rewrite decide_False in Hslot by done.
        exists ta. split; [apply map_union_subseteq_l|tauto].
      * destruct (Hsib j cj) as (tj & Hsub & HP); [congruence|done..|].
        exists tj. split; [|done].
        etrans; [exact Hsub|]. by apply map_union_subseteq_r.
Qed.

End EptLevelsFacts.

(** ** Loads from a table *)

Lemma load_lookup (m : mem) p i b :
  p ≠ 0 → 0 ≤ i → m !! p = Some b → load m p i = b !! Z.to_nat i.
Proof.
  intros Hp Hi Hb. unfold load. rewrite decide_False by lia. by rewrite Hb.
Qed.

Lemma load_subseteq (t m : mem) p i :
  t ⊆ m → is_Some (t !! p) → load m p i = load t p i.
Proof.
  intros Hsub [b Hb]. unfold load. case_decide; [done|].
  by rewrite Hb, (lookup_weaken _ _ _ _ Hb Hsub).
Qed.

Section EptTreeFacts.
Context {vmx : vmx_h} {krn : kernel}.

Lemma ept_tree_root n p t : ept_tree n p t → p ≠ 0 ∧ is_Some (t !! p).
Proof.
  destruct n as [|k]; simpl.
  - intros (Hp & b & _ & ->). split; [done|]. rewrite lookup_singleton_eq. eauto.
  - intros (Hp & hw & sh & t' & _ & _ & _ & -> & _). split; [done|].
    rewrite lookup_insert_eq. eauto.
Qed.

Lemma ept_tree_load_shadow p hw sh (t' : mem) idx :
  p ≠ 0 → length hw = 512%nat → 0 ≤ idx →
  load (<[p := hw ++ sh]> t') p (PAGE_OFFSET + idx) = sh !! Z.to_nat idx.
Proof.
  intros Hp Hhw Hidx.
  rewrite (load_lookup _ _ _ (hw ++ sh)); [|done|unfold PAGE_OFFSET; lia|apply lookup_insert_eq].
  rewrite lookup_app_r by (unfold PAGE_OFFSET; lia).
  f_equal. unfold PAGE_OFFSET. lia.
Qed.

(** The walk of [ept_translate] below a table stays inside its tree. *)
Lemma ept_translate_from_local n p t (m : mem) va :
  ept_tree n p t → t ⊆ m →
  ept_translate_from n m p va = ept_translate_from n t p va.
Proof.
  revert p t m. induction n as [|k IH]; intros p t m Htree Hsub.
  - destruct (ept_tree_root _ _ _ Htree) as [Hp Hlive]. simpl.
    by rewrite (load_subseteq t m).
  - destruct (ept_tree_root _ _ _ Htree) as [Hp Hlive].
    cbn [ept_translate_from]. rewrite (load_subseteq t m) by done.
    destruct Htree as (_ & hw & sh & t' & Hhw & Hsh & Hnone & -> & Hch).
    pose proof (ept_index_bounds (S k) va) as Hi.
    rewrite ept_tree_load_shadow by (done || lia).
    destruct (sh !! Z.to_nat (ept_index (S k) va)) as [c|] eqn:Hc; [|done].
    simpl. case_decide as Hz; [done|].
    destruct (ept_children_lookup _ _ _ _ _ _ Hch Hc Hz) as (tj & Hj & Htj).
    assert (Hj' : tj ⊆ <[p:=hw ++ sh]> t')
      by (etrans; [exact Hj|by apply insert_subseteq]).
    rewrite (IH c tj m Htj) by (by etrans).
    symmetry. by apply IH.
Qed.

Lemma ept_translate_from_total n p t va :
  ept_tree n p t → is_Some (ept_translate_from n t p va).
Proof.
  revert p t. induction n as [|k IH]; intros p t Htree.
  - destruct Htree as (Hp & b & Hb & ->). simpl.
    pose proof (ept_index_bounds 0 va) as Hi.
    rewrite (load_lookup _ _ _ b); [|done|lia|apply lookup_singleton_eq].
    destruct (lookup_lt_is_Some_2 b (Z.to_nat (ept_index 0 va))) as [e ->]; [lia|].
    simpl. eauto.
  - destruct Htree as (Hp & hw & sh & t' & Hhw & Hsh & Hnone & -> & Hch).
    pose proof (ept_index_bounds (S k) va) as Hi.
    cbn [ept_translate_from]. rewrite ept_tree_load_shadow by (done || lia).
    destruct (lookup_lt_is_Some_2 sh (Z.to_nat (ept_index (S k) va))) as [c Hc];
      [lia|].
    rewrite Hc. simpl. case_decide as Hz; [eauto|].
    destruct (ept_children_lookup _ _ _ _ _ _ Hch Hc Hz) as (tj & Hj & Htj).
    rewrite (ept_translate_from_local k c tj); [by apply IH|done|].
    etrans; [exact Hj|by apply insert_subseteq].
Qed.

(** A table that was just allocated is an empty tree. *)
Lemma ept_tree_calloc n c :
  c ≠ 0 →
  ept_tree n c {[c := replicate (Z.to_nat (ept_table_size n / 8)) 0]}.
Proof.
  intros Hc. destruct n as [|k]; cbn [ept_tree].
  - split; [done|]. eexists. split; [|done]. by rewrite length_replicate.
  - split; [done|]. exists (replicate 512 0), (replicate 512 0), ∅.
    rewrite !length_replicate. split; [done|]. split; [done|].
    split; [done|]. split.
    + rewrite insert_empty. f_equal.
    + apply ept_children_null.
Qed.

Lemma ept_translate_from_calloc n c va :
  c ≠ 0 →
  ept_translate_from n {[c := replicate (Z.to_nat (ept_table_size n / 8)) 0]}
    c va = Some 0.
Proof.
  intros Hc. pose proof (ept_index_bounds n va) as Hi.
  destruct n as [|k]; cbn [ept_translate_from].
  - rewrite (load_lookup _ _ _ _ Hc (proj1 Hi) (lookup_singleton_eq _ _)).
    rewrite lookup_replicate_2 by (change (Z.to_nat (ept_table_size 0 / 8)) with 512%nat; lia).
    done.
  - rewrite (load_lookup _ _ _ (replicate (Z.to_nat (ept_table_size (S k) / 8)) 0) Hc);
      [|unfold PAGE_OFFSET; lia|apply lookup_singleton_eq].
    rewrite lookup_replicate_2
      by (change (Z.to_nat (ept_table_size (S k) / 8)) with 1024%nat;
          unfold PAGE_OFFSET; lia).
    done.
Qed.

End EptTreeFacts.

Section EptTreeAdd.
Context {vmx : vmx_h} {krn : kernel}.

Hypothesis IOMallocAligned_fresh : ∀ (m : mem) size alignment,
  IOMallocAligned m size alignment ≠ 0 →
  m !! IOMallocAligned m size alignment = None.
Hypothesis IOMallocAligned_ok : ∀ (m : mem) size alignment,
  IOMallocAligned m size alignment ≠ 0.

Lemma ept_same_path_S n va vb :
  ept_index (S n) va = ept_index (S n) vb → ept_same_path n va vb →
  ept_same_path (S n) va vb.
Proof.
  intros Htop Hlow l Hl. destruct (decide (l = S n)) as [->|]; [done|].
  apply Hlow. lia.
Qed.

(** One level of [ept_add_page] on a tree: the slot [i] of the table [p]
    leads to a subtree afterwards, a new and empty one when the slot was
    empty. *)
Lemma ept_add_page_level_tree k p hw sh (t1 t2 f : mem) i c0 e0 :
  p ≠ 0 → length hw = 512%nat → length sh = 512%nat → 0 ≤ i < 512 →
  sh !! Z.to_nat i = Some c0 → hw !! Z.to_nat i = Some e0 →
  ept_slot (ept_tree k) e0 c0 t1 →
  t1 ##ₘ t2 → (t1 ∪ t2) !! p = None → <[p := hw ++ sh]> (t1 ∪ t2) ##ₘ f →
  ∃ c tc,
    (if decide (c0 = 0) then
       let '(m, c) := IOCallocAligned (<[p := hw ++ sh]> (t1 ∪ t2) ∪ f)
                        (ept_table_size k) PAGE_SIZE in
       m ← store m p (PAGE_OFFSET + i) c;
       m ← store m p i (Z.lor (__pa c) EPT_DEFAULTS);
       Some (m, c)
     else Some (<[p := hw ++ sh]> (t1 ∪ t2) ∪ f, c0))
    = Some (tc ∪ (<[p := <[Z.to_nat i := Z.lor (__pa c) EPT_DEFAULTS]> hw
                        ++ <[Z.to_nat i := c]> sh]> t2 ∪ f), c)
    ∧ c ≠ 0 ∧ ept_tree k c tc
    ∧ tc ##ₘ <[p := <[Z.to_nat i := Z.lor (__pa c) EPT_DEFAULTS]> hw
                    ++ <[Z.to_nat i := c]> sh]> t2 ∪ f
    ∧ (∀ vb, ept_translate_from k tc c vb
             = if decide (c0 = 0) then Some 0
               else ept_translate_from k t1 c0 vb).
Proof using IOMallocAligned_fresh IOMallocAligned_ok.
  intros Hp Hhw Hsh Hi Hc0 He0 Hslot Hd12 Hnone Hdf.
  apply lookup_union_None in Hnone as [Hn1 Hn2].
  apply map_disjoint_insert_l in Hdf as [Hfp Hdf].
  apply map_disjoint_union_l in Hdf as [Hd1f Hd2f].
  unfold ept_slot in Hslot. destruct (decide (c0 = 0)) as [Hz|Hz].
  - destruct Hslot as [-> ->]. subst c0.
    set (m := <[p:=hw ++ sh]> (∅ ∪ t2) ∪ f).
    set (c := IOMallocAligned m (ept_table_size k) PAGE_SIZE).
    pose proof (IOMallocAligned_ok m (ept_table_size k) PAGE_SIZE) as Hc.
    pose proof (IOMallocAligned_fresh m (ept_table_size k) PAGE_SIZE Hc) as Hfresh.
    fold c in Hc, Hfresh.
    set (z := replicate (Z.to_nat (ept_table_size k / 8)) 0).
    assert (Hca : IOCallocAligned m (ept_table_size k) PAGE_SIZE
                  = (<[c := z]> m, c)).
    { unfold IOCallocAligned. fold c. by rewrite decide_True. }
    rewrite Hca.
    assert (Hmp : m !! p = Some (hw ++ sh)).
    { unfold m. apply lookup_union_Some_l, lookup_insert_eq. }
    assert (Hpc : p ≠ c) by (intros Heq; rewrite Heq in Hmp; congruence).
    assert (f !! c = None ∧ t2 !! c = None) as [Hfc H2c].
    { unfold m in Hfresh. apply lookup_union_None in Hfresh as [Hf1 Hf2].
      rewrite lookup_insert_ne in Hf1 by done.
      apply lookup_union_None in Hf1 as [_ Hf1]. done. }
    rewrite (store_intro (<[c:=z]> m) p (PAGE_OFFSET + i) c (hw ++ sh));
      [|done|unfold PAGE_OFFSET; lia|by rewrite lookup_insert_ne
       |rewrite length_app; unfold PAGE_OFFSET; lia].
    cbn [mbind option_bind].
    rewrite (store_intro _ p i (Z.lor (__pa c) EPT_DEFAULTS)
               (<[Z.to_nat (PAGE_OFFSET + i) := c]> (hw ++ sh)));
      [|done|lia|apply lookup_insert_eq
       |rewrite length_insert, length_app; lia].
    cbn [mbind option_bind].
    exists c, {[c := z]}. split.
    { f_equal. f_equal. rewrite insert_insert_eq.
      replace (Z.to_nat (PAGE_OFFSET + i)) with (length hw + Z.to_nat i)%nat
        by (unfold PAGE_OFFSET; lia).
      rewrite insert_app_r.
      rewrite insert_app_l by lia.
      unfold m. rewrite map_empty_union.
      rewrite (insert_union_l _ f c), (insert_union_l _ f p).
      rewrite map_union_assoc. f_equal.
      rewrite (insert_insert_ne _ p c) by done. rewrite insert_insert_eq.
      by rewrite insert_union_singleton_l. }
    split; [done|]. split; [by apply ept_tree_calloc|]. split.
    { apply map_disjoint_singleton_l, lookup_union_None. split; [|done].
      by rewrite lookup_insert_ne. }
    intros vb. by apply ept_translate_from_calloc.
  - destruct Hslot as [-> Htree].
    exists c0, t1. rewrite !list_insert_id by done. split.
    { f_equal. f_equal. rewrite map_union_assoc. f_equal.
      by rewrite insert_union_r. }
    split; [done|]. split; [done|]. split; [|done].
    apply map_disjoint_union_r. split; [|done].
    apply map_disjoint_insert_r. done.
Qed.

(** [ept_add_page] on a tree, from any level: it completes, the result is
    a tree with the same root, the memory outside the tree is untouched,
    and only the translation of addresses on the path of [va] changes. *)
Lemma ept_add_page_from_tree n : ∀ p (t f : mem) va pa,
  ept_tree n p t → t ##ₘ f →
  ∃ t', ept_add_page_from n (t ∪ f) p va pa = Some (t' ∪ f)
        ∧ ept_tree n p t' ∧ t' ##ₘ f
        ∧ (∀ vb, ¬ ept_same_path n va vb →
             ept_translate_from n t' p vb = ept_translate_from n t p vb).
Proof using IOMallocAligned_fresh IOMallocAligned_ok.
  induction n as [|k IH]; intros p t f va pa Htree Hdisj.
  - destruct Htree as (Hp & b & Hb & ->).
    pose proof (ept_index_bounds 0 va) as Hi.
    cbn [ept_add_page_from].
    rewrite (store_intro _ p (ept_index 0 va) _ b);
      [|done|lia|apply lookup_union_Some_l, lookup_singleton_eq|lia].
    eexists {[p := _]}. split.
    { f_equal. by rewrite insert_union_l, insert_singleton_eq. }
    split.
    { split; [done|]. eexists. split; [|done]. by rewrite length_insert. }
    split.
    { apply map_disjoint_singleton_l.
      by apply map_disjoint_singleton_l in Hdisj. }
    intros vb Hpath. cbn [ept_translate_from].
    pose proof (ept_index_bounds 0 vb) as Hj.
    rewrite !(load_lookup _ p _ _ Hp (proj1 Hj) (lookup_singleton_eq _ _)).
    rewrite list_lookup_insert_ne; [done|].
    intros Heq. apply Hpath. intros l Hl. assert (l = O) as -> by lia. lia.
  - destruct Htree as (Hp & hw & sh & t0 & Hhw & Hsh & Hnone & -> & Hch).
    pose proof (ept_index_bounds (S k) va) as Hi.
    destruct (lookup_lt_is_Some_2 sh (Z.to_nat (ept_index (S k) va)))
      as [c0 Hc0]; [lia|].
    destruct (ept_children_split _ _ _ _ _ _ Hch Hc0)
      as (e0 & t1 & t2 & He0 & -> & Hd12 & Hslot & Hupd & Hsib).
    cbn [ept_add_page_from].
    assert (Hload : load (<[p:=hw ++ sh]> (t1 ∪ t2) ∪ f) p
                      (PAGE_OFFSET + ept_index (S k) va) = Some c0).
    { rewrite (load_subseteq (<[p:=hw ++ sh]> (t1 ∪ t2)));
        [|apply map_union_subseteq_l|rewrite lookup_insert_eq; eauto].
      rewrite ept_tree_load_shadow by (done || lia). done. }
    rewrite Hload. cbn [mbind option_bind].
    destruct (ept_add_page_level_tree k p hw sh t1 t2 f (ept_index (S k) va)
                c0 e0 Hp Hhw Hsh Hi Hc0 He0 Hslot Hd12 Hnone Hdisj)
      as (c & tc & -> & Hc & Htc & Hdtc & Htr).
    cbn [mbind option_bind].
    set (hw' := <[Z.to_nat (ept_index (S k) va) := Z.lor (__pa c) EPT_DEFAULTS]> hw) in *.
    set (sh' := <[Z.to_nat (ept_index (S k) va) := c]> sh) in *.
    destruct (IH c tc (<[p := hw' ++ sh']> t2 ∪ f) va pa Htc Hdtc)
      as (tc' & -> & Htc' & Hdtc' & Hfr).
    apply map_disjoint_union_r in Hdtc' as [Hdt2 Hdf].
    apply map_disjoint_insert_r in Hdt2 as [Hcp Hdt2].
    apply lookup_union_None in Hnone as [Hn1 Hn2].
    apply map_disjoint_insert_l in Hdisj as [Hfp Hdisj].
    apply map_disjoint_union_l in Hdisj as [Hd1f Hd2f].
    assert (Hch' : ept_children (ept_tree k) hw' sh' (tc' ∪ t2)).
    { apply Hupd; [|done]. unfold ept_slot. by rewrite decide_False. }
    exists (<[p := hw' ++ sh']> (tc' ∪ t2)). split.
    { f_equal. rewrite map_union_assoc. f_equal. by rewrite insert_union_r. }
    split.
    { split; [done|]. exists hw', sh', (tc' ∪ t2).
      unfold hw', sh'. rewrite !length_insert.
      split; [done|]. split; [done|]. split; [|done].
      by apply lookup_union_None. }
    split.
    { apply map_disjoint_insert_l. split; [done|].
      by apply map_disjoint_union_l. }
    intros vb Hpath. cbn [ept_translate_from].
    pose proof (ept_index_bounds (S k) vb) as Hj.
    rewrite !ept_tree_load_shadow by (done || lia || by unfold hw'; rewrite length_insert).
    destruct (decide (ept_index (S k) vb = ept_index (S k) va)) as [Heq|Hne].
    + rewrite Heq, Hc0. unfold sh'.
      rewrite list_lookup_insert_eq by lia. cbn [mbind option_bind].
      rewrite decide_False by done.
      rewrite (ept_translate_from_local k c tc');
        [|done|etrans; [apply map_union_subseteq_l|by apply insert_subseteq, lookup_union_None]].
      rewrite Hfr.
      2:{ intros Hsame. apply Hpath. by apply ept_same_path_S. }
      rewrite Htr. case_decide as Hz; [done|].
      unfold ept_slot in Hslot. rewrite decide_False in Hslot by done.
      symmetry. apply ept_translate_from_local; [tauto|].
      etrans; [apply map_union_subseteq_l|by apply insert_subseteq, lookup_union_None].
    + unfold sh'. rewrite list_lookup_insert_ne by lia.
      destruct (sh !! Z.to_nat (ept_index (S k) vb)) as [cj|] eqn:Hcj; [|done].
      cbn [mbind option_bind]. destruct (decide (cj = 0)) as [Hz|Hz]; [done|].
      destruct (Hsib (Z.to_nat (ept_index (S k) vb)) cj) as (tj & Hsub & Htj);
        [lia|done..|].
      rewrite (ept_translate_from_local k cj tj (<[p:=hw' ++ sh']> (tc' ∪ t2)));
        [|done|].
      2:{ etrans; [exact Hsub|].
          etrans; [apply (map_union_subseteq_r tc' t2 Hdt2)|].
          by apply insert_subseteq, lookup_union_None. }
      symmetry. apply ept_translate_from_local; [done|].
      etrans; [exact Hsub|]. etrans; [apply (map_union_subseteq_r t1 t2 Hd12)|].
      by apply insert_subseteq, lookup_union_None.
Qed.

End EptTreeAdd.

(** ** Freeing a tree *)

Lemma IOFree_insert (t : mem) p b size :
  p ≠ 0 → t !! p = None → length b = Z.to_nat (size / 8) →
  IOFree (<[p := b]> t) p size = Some t.
Proof.
  intros Hp Hnone Hlen. unfold IOFree. rewrite decide_False by done.
  rewrite lookup_insert_eq. cbn [mbind option_bind].
  rewrite decide_True by done. by rewrite delete_insert_id.
Qed.

Section EptTreeFree.
Context {vmx : vmx_h} {krn : kernel}.

(** The loop over the slots of a table frees the subtrees of the slots it
    visits and leaves the table itself and the rest of the memory. *)
Lemma ept_free_for_children k p (b : list Z) (f : mem) :
  p ≠ 0 →
  (∀ c t (f : mem), ept_tree k c t → t ##ₘ f →
     ept_free_from k (t ∪ f) c = Some f) →
  ∀ hw sh (t : mem) j,
    ept_children (ept_tree k) hw sh t →
    0 ≤ j → (∀ i c, sh !! i = Some c → b !! (Z.to_nat (PAGE_OFFSET + j) + i)%nat = Some c) →
    t !! p = None → t ##ₘ f → f !! p = None →
    ept_free_for (λ m idx,
        c ← load m p (PAGE_OFFSET + idx);
        if decide (c = 0) then Some m else ept_free_from k m c)
      (seqZ j (Z.of_nat (length sh))) (<[p := b]> t ∪ f)
    = Some (<[p := b]> ∅ ∪ f).
Proof.
  intros Hp IH hw. induction hw as [|e hw IHhw]; intros [|c sh] t j; try done.
  - simpl. intros -> _ _ _ _ _. done.
  - cbn [ept_children]. intros (t1 & t2 & -> & Hd12 & Hslot & Hch) Hj Hb Hnone Hdf Hfp.
    apply lookup_union_None in Hnone as [Hn1 Hn2].
    apply map_disjoint_union_l in Hdf as [Hd1f Hd2f].
    rewrite seqZ_cons by (cbn [length]; lia). cbn [ept_free_for].
    rewrite (load_lookup _ p _ b); [|done|unfold PAGE_OFFSET; lia
      |apply lookup_union_Some_l, lookup_insert_eq].
    pose proof (Hb O c eq_refl) as Hc. rewrite Nat.add_0_r in Hc.
    rewrite Hc. cbn [mbind option_bind].
    replace (Z.pred (Z.of_nat (length (c :: sh)))) with (Z.of_nat (length sh))
      by (cbn [length]; lia).
    assert (Hb' : ∀ i c', sh !! i = Some c' →
              b !! (Z.to_nat (PAGE_OFFSET + Z.succ j) + i)%nat = Some c').
    { intros i c' Hi. specialize (Hb (S i) c' Hi).
      replace (Z.to_nat (PAGE_OFFSET + Z.succ j) + i)%nat
        with (Z.to_nat (PAGE_OFFSET + j) + S i)%nat
        by (unfold PAGE_OFFSET; lia). done. }
    unfold ept_slot in Hslot. destruct (decide (c = 0)) as [Hz|Hz].
    + destruct Hslot as [_ ->]. rewrite map_empty_union.
      by apply (IHhw sh t2 (Z.succ j)); try lia.
    + destruct Hslot as [_ Htree].
      replace (<[p:=b]> (t1 ∪ t2) ∪ f) with (t1 ∪ (<[p:=b]> t2 ∪ f)).
      2:{ rewrite map_union_assoc. f_equal. by rewrite insert_union_r. }
      rewrite (IH c t1 (<[p:=b]> t2 ∪ f) Htree).
      2:{ apply map_disjoint_union_r. split; [|done].
          by apply map_disjoint_insert_r. }
      cbn [mbind option_bind].
      by apply (IHhw sh t2 (Z.succ j)); try lia.
Qed.

(** [ept_free] from any level gives back exactly the blocks of the tree. *)
Lemma ept_free_from_tree n : ∀ p (t f : mem),
  ept_tree n p t → t ##ₘ f → ept_free_from n (t ∪ f) p = Some f.
Proof.
  induction n as [|k IH]; intros p t f Htree Hdisj.
  - destruct Htree as (Hp & b & Hb & ->). cbn [ept_free_from].
    apply map_disjoint_singleton_l in Hdisj.
    rewrite <- insert_union_singleton_l.
    by apply IOFree_insert.
  - destruct Htree as (Hp & hw & sh & t0 & Hhw & Hsh & Hnone & -> & Hch).
    apply map_disjoint_insert_l in Hdisj as [Hfp Hdisj].
    cbn [ept_free_from].
    replace (seqZ 0 PAGE_OFFSET) with (seqZ 0 (Z.of_nat (length sh)))
      by (by rewrite Hsh).
    rewrite (ept_free_for_children k p (hw ++ sh) f Hp IH hw sh t0 0);
      try done.
    + cbn [mbind option_bind]. rewrite insert_empty.
      rewrite <- insert_union_singleton_l. apply IOFree_insert; [done..|].
      rewrite length_app, Hhw, Hsh. done.
    + intros i c Hc. rewrite lookup_app_r by (unfold PAGE_OFFSET; lia).
      rewrite <- Hc. f_equal. unfold PAGE_OFFSET. lia.
Qed.

End EptTreeFree.

(** ** Page numbers and indices *)

Lemma ept_index_testbit l va r :
  0 ≤ r →
  Z.testbit (ept_index l va) r
  = if decide (r < 9) then Z.testbit va (12 + 9 * Z.of_nat l + r) else false.
Proof.
  intros Hr. unfold ept_index. rewrite Z.land_spec, Z.shiftr_spec by lia.
  change 0x1FF with (Z.ones 9).
  case_decide.
  - rewrite Z.ones_spec_low by lia. rewrite andb_true_r. f_equal. lia.
  - rewrite Z.ones_spec_high by lia. apply andb_false_r.
Qed.

Lemma ept_page_testbit va r :
  0 ≤ r →
  Z.testbit (ept_page va) r
  = if decide (r < 36) then Z.testbit va (12 + r) else false.
Proof.
  intros Hr. unfold ept_page. rewrite Z.land_spec, Z.shiftr_spec by lia.
  case_decide.
  - rewrite Z.ones_spec_low by lia. rewrite andb_true_r. f_equal. lia.
  - rewrite Z.ones_spec_high by lia. apply andb_false_r.
Qed.

(** Two addresses have the same four indices exactly when they have the
    same page number. *)
Lemma ept_same_path_page va vb :
  ept_same_path 3 va vb ↔ ept_page va = ept_page vb.
Proof.
  split.
  - intros Hsame. apply Z.bits_inj'. intros r Hr.
    rewrite !ept_page_testbit by done. case_decide as Hlt; [|done].
    assert (Hl : (Z.to_nat (r / 9) ≤ 3)%nat).
    { assert (r / 9 < 4) by (apply Z.div_lt_upper_bound; lia).
      assert (0 ≤ r / 9) by (apply Z.div_pos; lia). lia. }
    pose proof (Hsame _ Hl) as Heq.
    apply (f_equal (λ x, Z.testbit x (r mod 9))) in Heq.
    pose proof (Z.mod_pos_bound r 9 ltac:(lia)) as Hm.
    rewrite !ept_index_testbit in Heq by lia.
    rewrite !decide_True in Heq by lia.
    assert (Hpos : 12 + 9 * Z.of_nat (Z.to_nat (r / 9)) + r mod 9 = 12 + r).
    { rewrite Z2Nat.id by (apply Z.div_pos; lia).
      pose proof (Z.div_mod r 9 ltac:(lia)). lia. }
    by rewrite Hpos in Heq.
  - intros Hpage l Hl. apply Z.bits_inj'. intros r Hr.
    rewrite !ept_index_testbit by done. case_decide as Hlt; [|done].
    apply (f_equal (λ x, Z.testbit x (9 * Z.of_nat l + r))) in Hpage.
    rewrite !ept_page_testbit in Hpage by lia.
    rewrite !decide_True in Hpage by lia.
    by rewrite !Z.add_assoc in Hpage.
Qed.

(** ** The page tables of a vcpu *)

Lemma ept_translate_same_path (m : mem) pml4 va vb :
  ept_same_path 3 va vb → ept_translate m pml4 va = ept_translate m pml4 vb.
Proof.
  intros Hsame. unfold ept_translate.
  pose proof (Hsame 3%nat ltac:(lia)) as E3.
  pose proof (Hsame 2%nat ltac:(lia)) as E2.
  pose proof (Hsame 1%nat ltac:(lia)) as E1.
  pose proof (Hsame 0%nat ltac:(lia)) as E0.
  change (Z.land (Z.shiftr va 39) 0x1FF = Z.land (Z.shiftr vb 39) 0x1FF) in E3.
  change (Z.land (Z.shiftr va 30) 0x1FF = Z.land (Z.shiftr vb 30) 0x1FF) in E2.
  change (Z.land (Z.shiftr va 21) 0x1FF = Z.land (Z.shiftr vb 21) 0x1FF) in E1.
  change (Z.land (Z.shiftr va 12) 0x1FF = Z.land (Z.shiftr vb 12) 0x1FF) in E0.
  by rewrite E3, E2, E1, E0.
Qed.

Section EptTables.
Context {vmx : vmx_h} {krn : kernel}.

Hypothesis IOMallocAligned_fresh : ∀ (m : mem) size alignment,
  IOMallocAligned m size alignment ≠ 0 →
  m !! IOMallocAligned m size alignment = None.

(** [ept_init] adds one block to the memory, the empty pml4. *)
Lemma ept_init_tree (m : mem) :
  (ept_init m).2 ≠ 0 →
  (ept_init m).1 = {[(ept_init m).2 := replicate 1024 0]} ∪ m
  ∧ {[(ept_init m).2 := replicate 1024 0]} ##ₘ m
  ∧ ept_tree 3 (ept_init m).2 {[(ept_init m).2 := replicate 1024 0]}.
Proof using vmx IOMallocAligned_fresh.
  unfold ept_init, IOCallocAligned. case_decide as Hret; [|done].
  cbn [fst snd]. intros _. split; [|split].
  - by rewrite insert_union_singleton_l.
  - apply map_disjoint_singleton_l. by apply IOMallocAligned_fresh.
  - by apply (ept_tree_calloc 3).
Qed.

(** X1. An address has no translation in the table that [ept_init] made. *)
Theorem ept_init_translate (m : mem) gpa :
  (ept_init m).2 ≠ 0 →
  ept_translate (ept_init m).1 (ept_init m).2 gpa = Some 0.
Proof using vmx IOMallocAligned_fresh.
  intros Hnz. destruct (ept_init_tree m Hnz) as (Hm & Hd & Htree).
  rewrite ept_translate_from_3.
  rewrite (ept_translate_from_local 3 _ _ _ _ Htree)
    by (rewrite Hm; apply map_union_subseteq_l).
  by apply (ept_translate_from_calloc 3).
Qed.

(** X2. [ept_free] gives back the blocks of the page tables, each one once
    and with the size it was allocated with, and nothing else. *)
Theorem ept_free_tree (t f : mem) pml4 :
  ept_tree 3 pml4 t → t ##ₘ f → ept_free (t ∪ f) pml4 = Some f.
Proof using vmx krn.
  intros Htree Hd. rewrite ept_free_from_3. by apply ept_free_from_tree.
Qed.

(** One level of [ept_tree_hardware_path]. *)
Lemma ept_tree_hardware n p t (m : mem) idx :
  ept_tree (S n) p t → t ⊆ m → 0 ≤ idx < 512 →
  ∃ c, load m p (PAGE_OFFSET + idx) = Some c
       ∧ load m p idx
         = Some (if decide (c = 0) then 0 else Z.lor (__pa c) EPT_DEFAULTS)
       ∧ (c ≠ 0 → ∃ tc, tc ⊆ m ∧ ept_tree n c tc).
Proof using vmx krn.
  intros Htree Hsub Hidx.
  destruct (ept_tree_root _ _ _ Htree) as [Hp Hlive].
  rewrite !(load_subseteq t m) by done.
  destruct Htree as (_ & hw & sh & t' & Hhw & Hsh & Hnone & -> & Hch).
  destruct (lookup_lt_is_Some_2 sh (Z.to_nat idx)) as [c Hc]; [lia|].
  destruct (ept_children_split _ _ _ _ _ _ Hch Hc)
    as (e & t1 & t2 & He & -> & Hd12 & Hslot & _ & _).
  exists c. rewrite ept_tree_load_shadow by (done || lia).
  split; [done|]. split.
  - rewrite (load_lookup _ _ _ (hw ++ sh)); [|done|lia|apply lookup_insert_eq].
    rewrite lookup_app_l by lia. rewrite He. f_equal.
    unfold ept_slot in Hslot. case_decide; tauto.
  - intros Hz. unfold ept_slot in Hslot. rewrite decide_False in Hslot by done.
    exists t1. split; [|tauto].
    etrans; [apply map_union_subseteq_l|].
    etrans; [by apply insert_subseteq|done].
Qed.

(** What the hardware half of a tree of tables holds on the path of an
    address. *)
Lemma ept_tree_hardware_path (t m : mem) pml4 va :
  ept_tree 3 pml4 t → t ⊆ m →
  ∃ pdpt, load m pml4 (PAGE_OFFSET + ept_index 3 va) = Some pdpt
    ∧ load m pml4 (ept_index 3 va)
      = Some (if decide (pdpt = 0) then 0 else Z.lor (__pa pdpt) EPT_DEFAULTS)
    ∧ (pdpt ≠ 0 →
       ∃ pd, load m pdpt (PAGE_OFFSET + ept_index 2 va) = Some pd
         ∧ load m pdpt (ept_index 2 va)
           = Some (if decide (pd = 0) then 0 else Z.lor (__pa pd) EPT_DEFAULTS)
         ∧ (pd ≠ 0 →
            ∃ pt, load m pd (PAGE_OFFSET + ept_index 1 va) = Some pt
              ∧ load m pd (ept_index 1 va)
                = Some (if decide (pt = 0) then 0
                        else Z.lor (__pa pt) EPT_DEFAULTS))).
Proof using vmx krn.
  intros Htree Hsub.
  destruct (ept_tree_hardware 2 pml4 t m _ Htree Hsub (ept_index_bounds 3 va))
    as (pdpt & Hl4 & Hh4 & Hc4).
  exists pdpt. split; [done|]. split; [done|]. intros Hz4.
  destruct (Hc4 Hz4) as (t3 & Hsub3 & Htree3).
  destruct (ept_tree_hardware 1 pdpt t3 m _ Htree3 Hsub3 (ept_index_bounds 2 va))
    as (pd & Hl3 & Hh3 & Hc3).
  exists pd. split; [done|]. split; [done|]. intros Hz3.
  destruct (Hc3 Hz3) as (t2 & Hsub2 & Htree2).
  destruct (ept_tree_hardware 0 pd t2 m _ Htree2 Hsub2 (ept_index_bounds 1 va))
    as (pt & Hl2 & Hh2 & _).
  exists pt. by split.
Qed.

(** X4. When the walk of an address misses a table and the allocator has no
    memory left, [ept_add_page] goes on with the null pointer that
    [IOCallocAligned] returned and reads through it. *)
Theorem ept_add_page_alloc_fails (m : mem) pml4 va pa :
  ept_walk_missing m pml4 va →
  (∀ (m : mem) size alignment, IOMallocAligned m size alignment = 0) →
  ept_add_page m pml4 va pa = None.
Proof using vmx krn.
  intros Hmiss Hoom.
  assert (Hca : ∀ (m : mem) size, IOCallocAligned m size PAGE_SIZE = (m, 0)).
  { intros m0 size. unfold IOCallocAligned. rewrite Hoom.
    by rewrite decide_False by (intros Hc; by apply Hc). }
  assert (Hnull : ∀ (m : mem) i, load m 0 i = None).
  { intros m0 i. unfold load. by rewrite decide_True by (by left). }
  unfold ept_add_page.
  destruct Hmiss as [Hl4|[(pdpt & Hl4 & H4 & Hl3)|(pdpt & pd & Hl4 & H4 & Hl3 & H3 & Hl2)]].
  - rewrite Hl4. cbn [mbind option_bind]. rewrite decide_True by done.
    rewrite Hca.
    destruct (store m pml4 _ 0) as [m1|]; [|done]. cbn [mbind option_bind].
    destruct (store m1 pml4 _ _) as [m2|]; [|done]. cbn [mbind option_bind].
    by rewrite Hnull.
  - rewrite Hl4. cbn [mbind option_bind]. rewrite decide_False by done.
    cbn [mbind option_bind]. rewrite Hl3. cbn [mbind option_bind].
    rewrite decide_True by done. rewrite Hca.
    destruct (store m pdpt _ 0) as [m1|]; [|done]. cbn [mbind option_bind].
    destruct (store m1 pdpt _ _) as [m2|]; [|done]. cbn [mbind option_bind].
    by rewrite Hnull.
  - rewrite Hl4. cbn [mbind option_bind]. rewrite decide_False by done.
    cbn [mbind option_bind]. rewrite Hl3. cbn [mbind option_bind].
    rewrite decide_False by done.
    cbn [mbind option_bind]. rewrite Hl2. cbn [mbind option_bind].
    rewrite decide_True by done. rewrite Hca.
    destruct (store m pd _ 0) as [m1|]; [|done]. cbn [mbind option_bind].
    destruct (store m1 pd _ _) as [m2|]; [|done]. cbn [mbind option_bind].
    unfold store. by rewrite decide_True by (by left).
Qed.

Hypothesis IOMallocAligned_ok : ∀ (m : mem) size alignment,
  IOMallocAligned m size alignment ≠ 0.

(** X5. [ept_add_page] on the page tables of a vcpu completes, leaves page
    tables, and leaves the memory outside the tables as it was. *)
Theorem ept_add_page_tree (t f : mem) pml4 gpa hpa :
  ept_tree 3 pml4 t → t ##ₘ f →
  ∃ t', ept_add_page (t ∪ f) pml4 gpa hpa = Some (t' ∪ f)
        ∧ ept_tree 3 pml4 t' ∧ t' ##ₘ f.
Proof using vmx IOMallocAligned_fresh IOMallocAligned_ok.
  intros Htree Hd. rewrite ept_add_page_from_3.
  destruct (ept_add_page_from_tree IOMallocAligned_fresh IOMallocAligned_ok
              3 pml4 t f gpa hpa Htree Hd) as (t' & Hadd & Htree' & Hd' & _).
  by exists t'.
Qed.

Hypothesis EPT_DEFAULTS_low : 0 ≤ EPT_DEFAULTS < PAGE_SIZE.

Lemma ept_add_page_update (t f : mem) pml4 gpa hpa :
  ept_tree 3 pml4 t → t ##ₘ f → 0 ≤ hpa < 2 ^ 64 →
  ∃ t', ept_add_page (t ∪ f) pml4 gpa hpa = Some (t' ∪ f)
        ∧ ept_tree 3 pml4 t' ∧ t' ##ₘ f
        ∧ ∀ gpb, ept_translate (t' ∪ f) pml4 gpb
                 = if decide (ept_page gpb = ept_page gpa)
                   then Some (hpa - hpa mod PAGE_SIZE)
                   else ept_translate (t ∪ f) pml4 gpb.
Proof using vmx IOMallocAligned_fresh IOMallocAligned_ok EPT_DEFAULTS_low.
  intros Htree Hd Hh.
  destruct (ept_add_page_from_tree IOMallocAligned_fresh IOMallocAligned_ok
              3 pml4 t f gpa hpa Htree Hd) as (t' & Hadd & Htree' & Hd' & Hfr).
  rewrite <- ept_add_page_from_3 in Hadd.
  exists t'. split; [done|]. split; [done|]. split; [done|].
  intros gpb. case_decide as Hpage.
  - rewrite (ept_translate_same_path _ _ gpb gpa)
      by (by apply ept_same_path_page).
    by apply (ept_add_page_then_translate IOMallocAligned_fresh
                EPT_DEFAULTS_low (t ∪ f)).
  - rewrite !ept_translate_from_3.
    rewrite (ept_translate_from_local 3 pml4 t' (t' ∪ f))
      by (done || apply map_union_subseteq_l).
    rewrite (ept_translate_from_local 3 pml4 t (t ∪ f))
      by (done || apply map_union_subseteq_l).
    apply Hfr. intros Hsame. apply Hpage. symmetry.
    by apply ept_same_path_page.
Qed.

(** X6. [ept_add_page] updates the translation like a map from page numbers:
    afterwards the addresses of the page of [gpa] translate to the page of
    [hpa], and every other address translates as before. *)
Theorem ept_add_page_translate (t f : mem) pml4 gpa hpa :
  ept_tree 3 pml4 t → t ##ₘ f → 0 ≤ hpa < 2 ^ 64 →
  ∃ m', ept_add_page (t ∪ f) pml4 gpa hpa = Some m'
        ∧ ∀ gpb, ept_translate m' pml4 gpb
                 = if decide (ept_page gpb = ept_page gpa)
                   then Some (hpa - hpa mod PAGE_SIZE)
                   else ept_translate (t ∪ f) pml4 gpb.
Proof using vmx IOMallocAligned_fresh IOMallocAligned_ok EPT_DEFAULTS_low.
  intros Htree Hd Hh.
  destruct (ept_add_page_update t f pml4 gpa hpa Htree Hd Hh)
    as (t' & Hadd & _ & _ & Htr).
  by exists (t' ∪ f).
Qed.

Lemma ept_add_pages_tree pages : ∀ (t f : mem) pml4,
  ept_tree 3 pml4 t → t ##ₘ f →
  ∃ t', ept_add_pages (t ∪ f) pml4 pages = Some (t' ∪ f)
        ∧ ept_tree 3 pml4 t' ∧ t' ##ₘ f.
Proof using vmx IOMallocAligned_fresh IOMallocAligned_ok.
  induction pages as [|[gpa hpa] pages IH]; intros t f pml4 Htree Hd.
  - by exists t.
  - cbn [ept_add_pages]. rewrite ept_add_page_from_3.
    destruct (ept_add_page_from_tree IOMallocAligned_fresh IOMallocAligned_ok
                3 pml4 t f gpa hpa Htree Hd) as (t1 & -> & Htree1 & Hd1 & _).
    cbn [mbind option_bind]. by apply IH.
Qed.

(** X3. The tables that [ept_init] made and [ept_add_page] filled are the ones
    the processor walks: on the path of any address the hardware half of
    the pml4, of the pdpt and of the pd holds the physical address of the
    next table with the default permissions where the shadow half has the
    pointer to it, and 0 where the shadow half has none. *)
Theorem ept_hardware_entries (m : mem) pages va :
  ∃ m' pdpt,
    ept_add_pages (ept_init m).1 (ept_init m).2 pages = Some m'
    ∧ load m' (ept_init m).2 (PAGE_OFFSET + ept_index 3 va) = Some pdpt
    ∧ load m' (ept_init m).2 (ept_index 3 va)
      = Some (if decide (pdpt = 0) then 0 else Z.lor (__pa pdpt) EPT_DEFAULTS)
    ∧ (pdpt ≠ 0 →
       ∃ pd, load m' pdpt (PAGE_OFFSET + ept_index 2 va) = Some pd
         ∧ load m' pdpt (ept_index 2 va)
           = Some (if decide (pd = 0) then 0 else Z.lor (__pa pd) EPT_DEFAULTS)
         ∧ (pd ≠ 0 →
            ∃ pt, load m' pd (PAGE_OFFSET + ept_index 1 va) = Some pt
              ∧ load m' pd (ept_index 1 va)
                = Some (if decide (pt = 0) then 0
                        else Z.lor (__pa pt) EPT_DEFAULTS))).
Proof using vmx IOMallocAligned_fresh IOMallocAligned_ok.
  assert (Hnz : (ept_init m).2 ≠ 0).
  { unfold ept_init, IOCallocAligned.
    pose proof (IOMallocAligned_ok m (PAGE_SIZE * 2) PAGE_SIZE).
    by case_decide. }
  destruct (ept_init_tree m Hnz) as (Hm & Hd & Htree). rewrite Hm.
  destruct (ept_add_pages_tree pages _ _ _ Htree Hd)
    as (t' & -> & Htree' & Hd').
  destruct (ept_tree_hardware_path t' (t' ∪ m) (ept_init m).2 va Htree'
              (map_union_subseteq_l _ _))
    as (pdpt & Hres).
  by exists (t' ∪ m), pdpt.
Qed.

(** X7. Page tables that [ept_init] made and [ept_add_page] filled are given
    back in full by [ept_free]: the kernel memory is the one from before
    [ept_init]. *)
Theorem ept_free_round_trip (m : mem) pages :
  ∃ m', ept_add_pages (ept_init m).1 (ept_init m).2 pages = Some m'
        ∧ ept_free m' (ept_init m).2 = Some m.
Proof using vmx IOMallocAligned_fresh IOMallocAligned_ok.
  assert (Hnz : (ept_init m).2 ≠ 0).
  { unfold ept_init, IOCallocAligned.
    pose proof (IOMallocAligned_ok m (PAGE_SIZE * 2) PAGE_SIZE).
    by case_decide. }
  destruct (ept_init_tree m Hnz) as (Hm & Hd & Htree). rewrite Hm.
  destruct (ept_add_pages_tree pages _ _ _ Htree Hd)
    as (t' & -> & Htree' & Hd').
  eexists. split; [done|]. rewrite ept_free_from_3.
  by apply ept_free_from_tree.
Qed.

End EptTables.

(** ** More on the exit handlers *)

Lemma Z_land_7_range (q : Z) : 0 ≤ Z.land q 7 < 8.
Proof.
  change 7 with (Z.ones 3). rewrite Z.land_ones by lia.
  apply Z.mod_pos_bound. lia.
Qed.

(** The bytes that [memcpy(dst, &val, n)] leaves in [dst]. *)
Lemma memcpy_from_ulong_lookup (dst : list Z) val n k :
  0 ≤ n → (Z.to_nat n ≤ length dst)%nat →
  memcpy_from_ulong dst val n !! k
  = if decide (Z.of_nat k < n) then Some (Z.land (Z.shiftr val (8 * Z.of_nat k)) 0xFF)
    else dst !! k.
Proof.
  intros Hn Hlen. unfold memcpy_from_ulong. case_decide as Hk.
  - rewrite list_lookup_inserts by (rewrite ?length_fmap, ?length_seqZ; lia).
    rewrite list_lookup_fmap, Nat.sub_0_r, lookup_seqZ_lt by lia. done.
  - apply list_lookup_inserts_ge. rewrite length_fmap, length_seqZ. lia.
Qed.

Section HandlersMore.
Context {vmx : vmx_h} {kvm : kvm_h} {krn : kernel}.
Implicit Types (s : machine) (m : mem).

Ltac handler_exec :=
  wp_run; repeat (apply wp_skip_emulated_instruction; state_simpl; wp_run).

(** X8. On an OUT exit [handle_io] copies the low bytes of RAX, as many as the
    access is wide, to the start of the data page, describes the access in
    the shared page and leaves [pending_io] alone. *)
Theorem handle_io_out s :
  Z.land (exit_qualification (cpu s)) 8 = 0 →
  (8 ≤ length (pio_data (cpu s)))%nat →
  ∃ s', handle_io s = Ok 0 s'
    ∧ kvm_run.io (kvm_vcpu (cpu s'))
      = {| kvm_run.direction := u8 KVM_EXIT_IO_OUT;
           kvm_run.size := Z.land (exit_qualification (cpu s)) 7 + 1;
           kvm_run.port := u16 (Z.shiftr (exit_qualification (cpu s)) 16);
           kvm_run.count := 1;
           kvm_run.data_offset := 4096 |}
    ∧ (∀ k : nat,
         pio_data (cpu s') !! k
         = if decide (Z.of_nat k < Z.land (exit_qualification (cpu s)) 7 + 1)
           then Some (Z.land (Z.shiftr (regs (cpu s) VCPU_REGS_RAX)
                                       (8 * Z.of_nat k)) 0xFF)
           else pio_data (cpu s) !! k)
    ∧ pending_io (cpu s') = pending_io (cpu s).
Proof.
  intros Hout Hlen. pose proof (Z_land_7_range (exit_qualification (cpu s))) as Hsz.
  assert (Hwp : wp handle_io (λ c s', c = 0
    ∧ kvm_run.io (kvm_vcpu (cpu s'))
      = {| kvm_run.direction := u8 KVM_EXIT_IO_OUT;
           kvm_run.size := Z.land (exit_qualification (cpu s)) 7 + 1;
           kvm_run.port := u16 (Z.shiftr (exit_qualification (cpu s)) 16);
           kvm_run.count := 1;
           kvm_run.data_offset := 4096 |}
    ∧ (∀ k : nat,
         pio_data (cpu s') !! k
         = if decide (Z.of_nat k < Z.land (exit_qualification (cpu s)) 7 + 1)
           then Some (Z.land (Z.shiftr (regs (cpu s) VCPU_REGS_RAX)
                                       (8 * Z.of_nat k)) 0xFF)
           else pio_data (cpu s) !! k)
    ∧ pending_io (cpu s') = pending_io (cpu s)) s).
  { unfold handle_io. wp_step. wp_step. cbv beta zeta.
    rewrite bool_decide_eq_false_2 by (by intros H; apply H).
    cbn [negb]. handler_exec.
    assert (Hu8 : u8 (Z.land (exit_qualification (cpu s)) 7 + 1)
                  = Z.land (exit_qualification (cpu s)) 7 + 1)
      by (unfold u8; apply Z.mod_small; lia).
    rewrite Hu8.
    assert (Hu32 : u32 ((Z.land (exit_qualification (cpu s)) 7 + 1) * 1)
                   = Z.land (exit_qualification (cpu s)) 7 + 1)
      by (unfold u32; rewrite Z.mul_1_r; apply Z.mod_small; lia).
    rewrite Hu32, Z.min_l by lia.
    split; [done|]. split; [done|]. split; [|done].
    intros k. apply memcpy_from_ulong_lookup; lia. }
  destruct Hwp as (c & s' & Hrun & -> & Hres). by exists s'.
Qed.

(** On an IN exit [handle_io] leaves the data page alone and sets
    [pending_io] for the next [KVM_RUN]. *)
Lemma handle_io_in s :
  Z.land (exit_qualification (cpu s)) 8 ≠ 0 →
  ∃ s', handle_io s = Ok 0 s'
    ∧ kvm_run.io (kvm_vcpu (cpu s'))
      = {| kvm_run.direction := u8 KVM_EXIT_IO_IN;
           kvm_run.size := Z.land (exit_qualification (cpu s)) 7 + 1;
           kvm_run.port := u16 (Z.shiftr (exit_qualification (cpu s)) 16);
           kvm_run.count := 1;
           kvm_run.data_offset := 4096 |}
    ∧ pio_data (cpu s') = pio_data (cpu s)
    ∧ pending_io (cpu s') = 1.
Proof.
  intros Hin. pose proof (Z_land_7_range (exit_qualification (cpu s))) as Hsz.
  assert (Hwp : wp handle_io (λ c s', c = 0
    ∧ kvm_run.io (kvm_vcpu (cpu s'))
      = {| kvm_run.direction := u8 KVM_EXIT_IO_IN;
           kvm_run.size := Z.land (exit_qualification (cpu s)) 7 + 1;
           kvm_run.port := u16 (Z.shiftr (exit_qualification (cpu s)) 16);
           kvm_run.count := 1;
           kvm_run.data_offset := 4096 |}
    ∧ pio_data (cpu s') = pio_data (cpu s)
    ∧ pending_io (cpu s') = 1) s).
  { unfold handle_io. wp_step. wp_step. cbv beta zeta.
    rewrite bool_decide_eq_true_2 by done.
    cbn [negb]. handler_exec.
    assert (Hu8 : u8 (Z.land (exit_qualification (cpu s)) 7 + 1)
                  = Z.land (exit_qualification (cpu s)) 7 + 1)
      by (unfold u8; apply Z.mod_small; lia).
    by rewrite Hu8. }
  destruct Hwp as (c & s' & Hrun & -> & Hres). by exists s'.
Qed.

End HandlersMore.

Lemma find_app_Some {A} (f : A → bool) (pre post : list A) (e : A) :
  Forall (λ x, f x = false) pre → f e = true →
  find f (pre ++ e :: post) = Some e.
Proof.
  intros Hpre He. induction Hpre as [|x pre Hx _ IH]; simpl.
  - by rewrite He.
  - by rewrite Hx.
Qed.

Lemma find_Forall_None {A} (f : A → bool) (l : list A) :
  Forall (λ x, f x = false) l → find f l = None.
Proof.
  intros Hl. induction Hl as [|x l Hx _ IH]; simpl; [done|]. by rewrite Hx.
Qed.

Section HandleCpuid.
Context {vmx : vmx_h} {kvm : kvm_h} {krn : kernel}.
Implicit Types (s : machine) (e : kvm_cpuid_entry2.t).

Ltac handler_exec :=
  wp_run; repeat (apply wp_skip_emulated_instruction; state_simpl; wp_run).

(** What [handle_cpuid] leaves for a function other than 1 when the lookup
    ended with the values [a], [b], [c], [d]. *)
Lemma handle_cpuid_result s found :
  u32 (regs (cpu s) VCPU_REGS_RAX) ≠ 1 →
  find (λ e, bool_decide (kvm_cpuid_entry2.function e
                            = u32 (regs (cpu s) VCPU_REGS_RAX)
                          ∧ kvm_cpuid_entry2.index e
                            = u32 (regs (cpu s) VCPU_REGS_RCX)))
       (take (Z.to_nat (cpuid_count (cpu s))) (cpuids (cpu s))) = found →
  ∃ s', handle_cpuid s = Ok 1 s'
    ∧ (regs (cpu s') VCPU_REGS_RAX, regs (cpu s') VCPU_REGS_RBX,
       regs (cpu s') VCPU_REGS_RCX, regs (cpu s') VCPU_REGS_RDX)
      = match found with
        | Some e => (u32 (kvm_cpuid_entry2.eax e), u32 (kvm_cpuid_entry2.ebx e),
                     u32 (kvm_cpuid_entry2.ecx e), u32 (kvm_cpuid_entry2.edx e))
        | None =>
            let '(a, b, c, d) := cpuid (u32 (regs (cpu s) VCPU_REGS_RAX))
                                       (u32 (regs (cpu s) VCPU_REGS_RCX)) in
            (u32 a, u32 b, u32 c, u32 d)
        end
    ∧ regs (cpu s') VCPU_REGS_RIP
      = ulong (regs (cpu s) VCPU_REGS_RIP + exit_instruction_len (cpu s)).
Proof.
  intros Hfn Hfind.
  assert (Hwp : wp handle_cpuid (λ r s', r = 1
    ∧ (regs (cpu s') VCPU_REGS_RAX, regs (cpu s') VCPU_REGS_RBX,
       regs (cpu s') VCPU_REGS_RCX, regs (cpu s') VCPU_REGS_RDX)
      = match found with
        | Some e => (u32 (kvm_cpuid_entry2.eax e), u32 (kvm_cpuid_entry2.ebx e),
                     u32 (kvm_cpuid_entry2.ecx e), u32 (kvm_cpuid_entry2.edx e))
        | None =>
            let '(a, b, c, d) := cpuid (u32 (regs (cpu s) VCPU_REGS_RAX))
                                       (u32 (regs (cpu s) VCPU_REGS_RCX)) in
            (u32 a, u32 b, u32 c, u32 d)
        end
    ∧ regs (cpu s') VCPU_REGS_RIP
      = ulong (regs (cpu s) VCPU_REGS_RIP + exit_instruction_len (cpu s))) s).
  { unfold handle_cpuid. wp_step. wp_step. cbv beta zeta.
    rewrite Hfind. destruct found as [e|];
      [|destruct (cpuid _ _) as [[[a' b'] c'] d']];
      cbv beta iota; rewrite decide_False by done;
      handler_exec; (split; [done|]).
    all: repeat (rewrite fn_lookup_insert_ne by done).
    all: split; [|by rewrite fn_lookup_insert].
    all: repeat f_equal.
    all: repeat (rewrite fn_lookup_insert_ne by done); by rewrite fn_lookup_insert. }
  destruct Hwp as (c & s' & Hrun & -> & Hres). by exists s'.
Qed.

(** X9. A CPUID exit for a function other than 1 is answered from the first
    entry of the override table, among the [cpuid_count] entries that
    count, whose function and index are the guest's EAX and ECX; the
    answer is the entry as it is, cut to 32 bits. *)
Theorem handle_cpuid_override s pre e post :
  u32 (regs (cpu s) VCPU_REGS_RAX) ≠ 1 →
  cpuids (cpu s) = pre ++ e :: post →
  (Z.of_nat (length pre) < cpuid_count (cpu s)) →
  Forall (λ e', ¬ cpuid_entry_matches s e') pre →
  cpuid_entry_matches s e →
  ∃ s', handle_cpuid s = Ok 1 s'
    ∧ regs (cpu s') VCPU_REGS_RAX = u32 (kvm_cpuid_entry2.eax e)
    ∧ regs (cpu s') VCPU_REGS_RBX = u32 (kvm_cpuid_entry2.ebx e)
    ∧ regs (cpu s') VCPU_REGS_RCX = u32 (kvm_cpuid_entry2.ecx e)
    ∧ regs (cpu s') VCPU_REGS_RDX = u32 (kvm_cpuid_entry2.edx e)
    ∧ regs (cpu s') VCPU_REGS_RIP
      = ulong (regs (cpu s) VCPU_REGS_RIP + exit_instruction_len (cpu s)).
Proof.
  intros Hfn Hids Hcount Hpre He.
  destruct (handle_cpuid_result s (Some e) Hfn) as (s' & Hrun & Hregs & Hrip).
  { rewrite Hids.
    rewrite take_app_ge by lia.
    replace (Z.to_nat (cpuid_count (cpu s)) - length pre)%nat
      with (S (Z.to_nat (cpuid_count (cpu s)) - length pre - 1)) by lia.
    rewrite firstn_cons. apply find_app_Some.
    - eapply Forall_impl; [|exact Hpre]. intros e' Hne.
      by apply bool_decide_eq_false_2.
    - by apply bool_decide_eq_true_2. }
  exists s'. split; [done|]. by simplify_eq.
Qed.

(** X10. When none of the entries that count matches, the answer is the one of
    the [cpuid] instruction of the host, executed with the guest's EAX and
    ECX. *)
Theorem handle_cpuid_fallback s :
  u32 (regs (cpu s) VCPU_REGS_RAX) ≠ 1 →
  Forall (λ e', ¬ cpuid_entry_matches s e')
         (take (Z.to_nat (cpuid_count (cpu s))) (cpuids (cpu s))) →
  ∃ s', handle_cpuid s = Ok 1 s'
    ∧ (regs (cpu s') VCPU_REGS_RAX, regs (cpu s') VCPU_REGS_RBX,
       regs (cpu s') VCPU_REGS_RCX, regs (cpu s') VCPU_REGS_RDX)
      = (let '(a, b, c, d) := cpuid (u32 (regs (cpu s) VCPU_REGS_RAX))
                                    (u32 (regs (cpu s) VCPU_REGS_RCX)) in
         (u32 a, u32 b, u32 c, u32 d))
    ∧ regs (cpu s') VCPU_REGS_RIP
      = ulong (regs (cpu s) VCPU_REGS_RIP + exit_instruction_len (cpu s)).
Proof.
  intros Hfn Hnone.
  apply (handle_cpuid_result s None Hfn).
  apply find_Forall_None.
  eapply Forall_impl; [|exact Hnone]. intros e' Hne.
  by apply bool_decide_eq_false_2.
Qed.

End HandleCpuid.

(** [val & (1 << 31)] on an [unsigned long]: the constant is the [int]
    with only the sign bit set, and its conversion sets the bits 31 to 63. *)
Lemma cr0_paging_mask (val : Z) :
  0 ≤ val < 2 ^ 64 →
  Z.land val (ulong (int (Z.shiftl 1 31))) ≠ 0 ↔ 2 ^ 31 ≤ val.
Proof.
  intros Hval.
  change (ulong (int (Z.shiftl 1 31))) with (Z.shiftl (Z.ones 33) 31).
  assert (Hsh : Z.land val (Z.shiftl (Z.ones 33) 31)
                = Z.shiftl (Z.shiftr val 31) 31).
  { apply Z.bits_inj'. intros n Hn.
    rewrite Z.land_spec. rewrite !Z.shiftl_spec by lia.
    destruct (decide (n < 31)) as [Hlt|Hge].
    - rewrite !(Z.testbit_neg_r _ (n - 31)) by lia. apply andb_false_r.
    - rewrite Z.shiftr_spec by lia. replace (n - 31 + 31) with n by lia.
      destruct (decide (n - 31 < 33)).
      + rewrite Z.ones_spec_low by lia. apply andb_true_r.
      + rewrite Z.ones_spec_high by lia. rewrite andb_false_r.
        symmetry. apply Z.bits_above_log2; [lia|].
        destruct (decide (val = 0)) as [->|]; [simpl; lia|].
        assert (Z.log2 val < 64) by (apply Z.log2_lt_pow2; lia). lia. }
  rewrite Hsh.
  rewrite Z.shiftl_mul_pow2, Z.shiftr_div_pow2 by lia.
  split.
  - intros Hnz. destruct (decide (2 ^ 31 ≤ val)); [done|].
    rewrite Z.div_small in Hnz by lia. done.
  - intros Hge. assert (1 ≤ val / 2 ^ 31) by (apply Z.div_le_lower_bound; lia).
    lia.
Qed.

Section HandleCr.
Context {vmx : vmx_h} {kvm : kvm_h} {krn : kernel}.
Implicit Types (s : machine).

Ltac handler_exec :=
  wp_run; repeat (apply wp_skip_emulated_instruction; state_simpl; wp_run).

(** X11. A move to CR0 is written to the guest's CR0 as it is.  Paging counts
    as enabled when any of the bits 31 to 63 of the value is set; it is
    recorded in [paging], the unrestricted-guest control is cleared when it
    is on and set when it is off, and the read shadow of CR0 becomes the
    sign-extended [1 << 31] or 0. *)
Theorem handle_cr_mov_to_cr0 s :
  int (Z.land (exit_qualification (cpu s)) CONTROL_REG_ACCESS_NUM) = 0 →
  int (Z.shiftr (Z.land (exit_qualification (cpu s)) CONTROL_REG_ACCESS_TYPE) 4)
    = 0 →
  ∀ val,
    val = regs (cpu s)
            (kvm_reg_index
               (int (Z.shiftr (Z.land (exit_qualification (cpu s))
                                      CONTROL_REG_ACCESS_REG) 8))) →
    0 ≤ val < 2 ^ 64 →
    ∃ s', handle_cr s = Ok 1 s'
      ∧ vmcs s' GUEST_CR0 = val
      ∧ paging (cpu s') = (if decide (2 ^ 31 ≤ val) then 1 else 0)
      ∧ vmcs s' CR0_READ_SHADOW
        = (if decide (2 ^ 31 ≤ val) then 0xFFFFFFFF80000000 else 0)
      ∧ vmcs s' SECONDARY_VM_EXEC_CONTROL
        = (if decide (2 ^ 31 ≤ val)
           then u32 (Z.land (u32 (vmcs s SECONDARY_VM_EXEC_CONTROL))
                            (Z.lnot SECONDARY_EXEC_UNRESTRICTED_GUEST))
           else u32 (Z.lor (u32 (vmcs s SECONDARY_VM_EXEC_CONTROL))
                           SECONDARY_EXEC_UNRESTRICTED_GUEST))
      ∧ regs (cpu s') VCPU_REGS_RIP
        = ulong (regs (cpu s) VCPU_REGS_RIP + exit_instruction_len (cpu s)).
Proof.
  intros Hnum Htype val Hval Hrange.
  pose proof (cr0_paging_mask val Hrange) as Hmask.
  assert (Hwp : wp handle_cr (λ c s', c = 1
      ∧ vmcs s' GUEST_CR0 = val
      ∧ paging (cpu s') = (if decide (2 ^ 31 ≤ val) then 1 else 0)
      ∧ vmcs s' CR0_READ_SHADOW
        = (if decide (2 ^ 31 ≤ val) then 0xFFFFFFFF80000000 else 0)
      ∧ vmcs s' SECONDARY_VM_EXEC_CONTROL
        = (if decide (2 ^ 31 ≤ val)
           then u32 (Z.land (u32 (vmcs s SECONDARY_VM_EXEC_CONTROL))
                            (Z.lnot SECONDARY_EXEC_UNRESTRICTED_GUEST))
           else u32 (Z.lor (u32 (vmcs s SECONDARY_VM_EXEC_CONTROL))
                           SECONDARY_EXEC_UNRESTRICTED_GUEST))
      ∧ regs (cpu s') VCPU_REGS_RIP
        = ulong (regs (cpu s) VCPU_REGS_RIP + exit_instruction_len (cpu s))) s).
  { unfold handle_cr. wp_step. wp_step. cbv beta zeta.
    rewrite Hnum, Htype, <- Hval.
    rewrite (decide_False (P := 0 = 3)) by done.
    rewrite !(decide_True (P := 0 = 0)) by done.
    destruct (decide (2 ^ 31 ≤ val)) as [Hon|Hoff].
    - rewrite decide_True by (by apply Hmask).
      handler_exec. split; [done|].
      repeat (rewrite ?fn_lookup_insert, ?fn_lookup_insert_ne by done).
      split; [unfold ulong; apply Z.mod_small; lia|].
      split; [done|]. split; [done|]. split; done.
    - rewrite decide_False by (intros Hc; by apply Hoff, Hmask).
      handler_exec. split; [done|].
      repeat (rewrite ?fn_lookup_insert, ?fn_lookup_insert_ne by done).
      split; [unfold ulong; apply Z.mod_small; lia|].
      split; [done|]. split; [done|]. split; done. }
  destruct Hwp as (c & s' & Hrun & -> & Hres). by exists s'.
Qed.

(** X12. A move to CR3 records the value in the shadow and writes it to the
    guest's CR3 as it is; a move from CR3 afterwards gives the recorded
    value back. *)
Theorem handle_cr_cr3_round_trip s q1 q2 :
  wf_ept (kmem s) (pml4 (cpu s)) →
  exit_qualification (cpu s) = q1 →
  int (Z.land q1 CONTROL_REG_ACCESS_NUM) = 3 →
  int (Z.shiftr (Z.land q1 CONTROL_REG_ACCESS_TYPE) 4) = 0 →
  int (Z.land q2 CONTROL_REG_ACCESS_NUM) = 3 →
  int (Z.shiftr (Z.land q2 CONTROL_REG_ACCESS_TYPE) 4) = 1 →
  ∀ src dst,
    src = kvm_reg_index (int (Z.shiftr (Z.land q1 CONTROL_REG_ACCESS_REG) 8)) →
    dst = kvm_reg_index (int (Z.shiftr (Z.land q2 CONTROL_REG_ACCESS_REG) 8)) →
    dst ≠ VCPU_REGS_RIP →
    ∃ s1 s2,
      handle_cr s = Ok 1 s1
      ∧ cr3_shadow (cpu s1) = regs (cpu s) src
      ∧ vmcs s1 GUEST_CR3 = ulong (regs (cpu s) src)
      ∧ handle_cr (set_cpu (set_exit_qualification q2 (cpu s1)) s1) = Ok 1 s2
      ∧ regs (cpu s2) dst = regs (cpu s) src.
Proof.
  intros Hwf Hq1 Hnum1 Htype1 Hnum2 Htype2 src dst Hsrc Hdst Hrip.
  assert (Hwp1 : wp handle_cr (λ c s1, c = 1
      ∧ cr3_shadow (cpu s1) = regs (cpu s) src
      ∧ vmcs s1 GUEST_CR3 = ulong (regs (cpu s) src)) s).
  { unfold handle_cr. wp_step. wp_step. cbv beta zeta.
    rewrite Hq1, Hnum1, Htype1, <- Hsrc.
    rewrite !(decide_True (P := 3 = 3)) by done.
    rewrite !(decide_True (P := 0 = 0)) by done.
    wp_run.
    destruct (ept_translate_total (kmem s) (pml4 (cpu s))
                (regs (cpu s) src) Hwf) as [pa Hpa].
    eapply wp_lift_option; [exact Hpa|].
    handler_exec. split; [done|]. split; [done|].
    by rewrite fn_lookup_insert. }
  destruct Hwp1 as (c & s1 & Hrun1 & -> & Hsh & Hcr3).
  assert (Hwp2 : wp handle_cr (λ c s2, c = 1
      ∧ regs (cpu s2) dst = cr3_shadow (cpu s1))
      (set_cpu (set_exit_qualification q2 (cpu s1)) s1)).
  { unfold handle_cr. wp_step. wp_step. cbv beta zeta. state_simpl.
    rewrite Hnum2, Htype2, <- Hdst.
    rewrite !(decide_True (P := 3 = 3)) by done.
    rewrite !(decide_False (P := 1 = 0)) by done.
    rewrite !(decide_True (P := 1 = 1)) by done.
    handler_exec. split; [done|].
    rewrite fn_lookup_insert_ne by done. by rewrite fn_lookup_insert. }
  destruct Hwp2 as (c & s2 & Hrun2 & -> & Hdstv).
  exists s1, s2. rewrite Hdstv, Hsh. done.
Qed.

End HandleCr.

(** ** Interrupt delivery *)

Lemma Z_land_bit_testbit (p i : Z) :
  0 ≤ i → Z.land p (Z.shiftl 1 i) ≠ 0 ↔ Z.testbit p i = true.
Proof.
  intros Hi.
  assert (Hbits : Z.land p (Z.shiftl 1 i)
                  = if Z.testbit p i then Z.shiftl 1 i else 0).
  { apply Z.bits_inj'. intros n Hn. rewrite Z.land_spec.
    destruct (decide (n = i)) as [->|Hne].
    - rewrite Z.shiftl_spec, Z.sub_diag by lia. change (Z.testbit 1 0) with true.
      rewrite andb_true_r. destruct (Z.testbit p i) eqn:Hp.
      + by rewrite Z.shiftl_spec, Z.sub_diag by lia.
      + by rewrite Z.bits_0.
    - assert (Z.testbit (Z.shiftl 1 i) n = false) as ->.
      { rewrite Z.shiftl_spec by lia.
        destruct (decide (n < i)); [by rewrite Z.testbit_neg_r by lia|].
        apply (Z.bits_above_log2 1); simpl; lia. }
      rewrite andb_false_r. destruct (Z.testbit p i); [|by rewrite Z.bits_0].
      rewrite Z.shiftl_spec by lia.
      destruct (decide (n < i)); [by rewrite Z.testbit_neg_r by lia|].
      symmetry. apply (Z.bits_above_log2 1); simpl; lia. }
  rewrite Hbits. destruct (Z.testbit p i); [|done].
  split; [done|]. intros _. rewrite Z.shiftl_mul_pow2 by lia.
  pose proof (Z.pow_pos_nonneg 2 i). lia.
Qed.

Lemma find_seqZ_first (P : Z → bool) (a n i : Z) :
  a ≤ i < a + n → P i = true → (∀ j, a ≤ j < i → P j = false) →
  find P (seqZ a n) = Some i.
Proof.
  intros Hi HPi Hlow.
  replace n with ((i - a) + (n - (i - a))) by lia.
  rewrite seqZ_app by lia.
  rewrite (seqZ_cons (a + (i - a))) by lia.
  replace (a + (i - a)) with i by lia.
  apply find_app_Some; [|done].
  apply list.Forall_forall. intros j Hj. apply Hlow.
  apply elem_of_seqZ in Hj. lia.
Qed.

Section Interrupts.
Context {vmx : vmx_h} {kvm : kvm_h} {krn : kernel}.
Implicit Types (s : machine).

(** The injection when [i] is the lowest pending line. *)
Lemma kvm_run_wrapper_inject_first s i :
  0 ≤ i < IRQ_MAX →
  Z.testbit (pending_irq (cpu s)) i = true →
  (∀ j, 0 ≤ j < i → Z.testbit (pending_irq (cpu s)) j = false) →
  ∃ s', kvm_run_wrapper_inject s
        = Ok (Z.lor (Z.lor INTR_INFO_VALID_MASK INTR_TYPE_EXT_INTR)
                    (i + if decide (paging (cpu s) ≠ 0) then 0x30 else 8))
             s'
    ∧ (∀ j, 0 ≤ j →
         Z.testbit (pending_irq (cpu s')) j
         = if decide (j = i) then false
           else Z.testbit (pending_irq (cpu s)) j)
    ∧ irq_level (cpu s') = irq_level (cpu s).
Proof.
  intros Hi Hbit Hlow. unfold kvm_run_wrapper_inject.
  unfold mbind, M_bind, get_vcpu. cbv beta iota.
  rewrite (find_seqZ_first _ 0 IRQ_MAX i); [|lia| |].
  2:{ apply bool_decide_eq_true_2. by apply Z_land_bit_testbit; [lia|]. }
  2:{ intros j Hj. apply bool_decide_eq_false_2.
      rewrite Z_land_bit_testbit by lia. rewrite Hlow by done. done. }
  unfold modify_vcpu, modify. cbv beta iota. state_simpl.
  eexists. split.
  { destruct (decide (paging (cpu s) ≠ 0)); reflexivity. }
  state_simpl. split; [|done].
  intros j Hj. rewrite Z.land_spec, Z.lnot_spec by done.
  rewrite Z.shiftl_spec by done.
  destruct (decide (j = i)) as [->|Hne].
  - rewrite Z.sub_diag. change (Z.testbit 1 0) with true. apply andb_false_r.
  - assert (Z.testbit 1 (j - i) = false) as ->.
    { destruct (decide (j < i)); [by rewrite Z.testbit_neg_r by lia|].
      apply (Z.bits_above_log2 1); simpl; lia. }
    apply andb_true_r.
Qed.

(** X13. The injection of the run loop, which runs after a pending-interrupt
    exit, takes the lowest pending line below [IRQ_MAX]: it clears the bit
    of that line, leaves the other bits, and gives the interrupt
    information of an external interrupt whose vector is the line plus
    0x30 with paging on and plus 8 with paging off.  With no line pending
    it gives 0 and changes nothing. *)
Theorem kvm_run_wrapper_inject_lowest s :
  (∀ i, 0 ≤ i < IRQ_MAX →
     Z.testbit (pending_irq (cpu s)) i = true →
     (∀ j, 0 ≤ j < i → Z.testbit (pending_irq (cpu s)) j = false) →
     ∃ s', kvm_run_wrapper_inject s
           = Ok (Z.lor (Z.lor INTR_INFO_VALID_MASK INTR_TYPE_EXT_INTR)
                       (i + if decide (paging (cpu s) ≠ 0) then 0x30 else 8))
                s'
       ∧ (∀ j, 0 ≤ j →
            Z.testbit (pending_irq (cpu s')) j
            = if decide (j = i) then false
              else Z.testbit (pending_irq (cpu s)) j)
       ∧ irq_level (cpu s') = irq_level (cpu s))
  ∧ ((∀ j, 0 ≤ j < IRQ_MAX → Z.testbit (pending_irq (cpu s)) j = false) →
     kvm_run_wrapper_inject s = Ok 0 s).
Proof.
  split.
  - intros i Hi Hbit Hlow. by apply kvm_run_wrapper_inject_first.
  - intros Hnone. unfold kvm_run_wrapper_inject.
    unfold mbind, M_bind, get_vcpu. cbv beta iota.
    rewrite find_Forall_None; [done|].
    apply list.Forall_forall. intros j Hj. apply elem_of_seqZ in Hj.
    apply bool_decide_eq_false_2. rewrite Z_land_bit_testbit by lia.
    rewrite Hnone by lia. done.
Qed.

(** X14. Deasserting a line never touches the pending bitmap, and asserting
    it again afterwards is a rising edge: the pending bit of the line is
    set, whatever the line was before. *)
Theorem kvm_irq_line_falling_rising s n :
  0 ≤ n < IRQ_MAX →
  length (irq_level (cpu s)) = Z.to_nat IRQ_MAX →
  ∃ s1 s2,
    kvm_irq_line {| kvm_irq_level.irq := n; kvm_irq_level.level := 0 |} s
      = Ok 0 s1
    ∧ pending_irq (cpu s1) = pending_irq (cpu s)
    ∧ irq_level (cpu s1) !! Z.to_nat n = Some 0
    ∧ kvm_irq_line {| kvm_irq_level.irq := n; kvm_irq_level.level := 1 |} s1
      = Ok 0 s2
    ∧ pending_irq (cpu s2) = Z.lor (pending_irq (cpu s)) (Z.shiftl 1 n)
    ∧ irq_level (cpu s2) !! Z.to_nat n = Some 1.
Proof.
  intros Hn Hlen.
  assert (Hlt : (Z.to_nat n < length (irq_level (cpu s)))%nat)
    by (rewrite Hlen; unfold IRQ_MAX in *; lia).
  destruct (lookup_lt_is_Some_2 _ _ Hlt) as [l Hl].
  rewrite (kvm_irq_line_in_range s
             {| kvm_irq_level.irq := n; kvm_irq_level.level := 0 |} l Hn Hl).
  cbn [kvm_irq_level.irq kvm_irq_level.level].
  rewrite decide_False by (by intros [_ ?]).
  eexists _, _. split; [reflexivity|]. state_simpl.
  split; [done|]. split; [by apply list_lookup_insert_eq|].
  erewrite kvm_irq_line_in_range; [|done|].
  2:{ state_simpl. cbn [kvm_irq_level.irq]. by apply list_lookup_insert_eq. }
  cbn [kvm_irq_level.irq kvm_irq_level.level].
  change (int 0) with 0. rewrite decide_True by done.
  split; [reflexivity|]. state_simpl. split; [done|].
  rewrite list_lookup_insert_eq; [done|]. by rewrite length_insert.
Qed.

(** X15. A line asserted on a vcpu with nothing pending is the one that the
    next injection delivers, and the bitmap is empty again afterwards. *)
Theorem kvm_irq_line_then_inject s n :
  0 ≤ n < IRQ_MAX →
  pending_irq (cpu s) = 0 →
  irq_level (cpu s) !! Z.to_nat n = Some 0 →
  ∃ s1 s2,
    kvm_irq_line {| kvm_irq_level.irq := n; kvm_irq_level.level := 1 |} s
      = Ok 0 s1
    ∧ kvm_run_wrapper_inject s1
      = Ok (Z.lor (Z.lor INTR_INFO_VALID_MASK INTR_TYPE_EXT_INTR)
                  (n + if decide (paging (cpu s) ≠ 0) then 0x30 else 8)) s2
    ∧ pending_irq (cpu s2) = 0
    ∧ irq_level (cpu s2) !! Z.to_nat n = Some 1.
Proof.
  intros Hn Hpend Hl.
  rewrite (kvm_irq_line_in_range s
             {| kvm_irq_level.irq := n; kvm_irq_level.level := 1 |} 0 Hn Hl).
  cbn [kvm_irq_level.irq kvm_irq_level.level].
  rewrite decide_True by done. rewrite Hpend, Z.lor_0_l.
  eexists _, _. split; [reflexivity|].
  unfold kvm_run_wrapper_inject.
  unfold mbind, M_bind, get_vcpu. cbv beta iota. state_simpl.
  assert (Hbit : ∀ j, 0 ≤ j → Z.testbit (Z.shiftl 1 n) j = bool_decide (j = n)).
  { intros j Hj. rewrite Z.shiftl_spec by done.
    destruct (decide (j = n)) as [->|Hne].
    - rewrite Z.sub_diag. by rewrite bool_decide_eq_true_2.
    - rewrite bool_decide_eq_false_2 by done.
      destruct (decide (j < n)); [by rewrite Z.testbit_neg_r by lia|].
      apply (Z.bits_above_log2 1); simpl; lia. }
  rewrite (find_seqZ_first _ 0 IRQ_MAX n); [|lia| |].
  2:{ apply bool_decide_eq_true_2. apply Z_land_bit_testbit; [lia|].
      rewrite Hbit by lia. by apply bool_decide_eq_true_2. }
  2:{ intros j Hj. apply bool_decide_eq_false_2.
      rewrite Z_land_bit_testbit by lia. rewrite Hbit by lia.
      rewrite bool_decide_eq_false_2 by lia. done. }
  unfold modify_vcpu, modify. cbv beta iota. state_simpl.
  rewrite Z.land_lnot_diag.
  split; [destruct (decide (paging (cpu s) ≠ 0)); reflexivity|].
  assert (Hlen : (Z.to_nat n < length (irq_level (cpu s)))%nat)
    by (by eapply lookup_lt_Some).
  destruct (decide (paging (cpu s) ≠ 0)); state_simpl;
    (split; [done|]); by apply list_lookup_insert_eq.
Qed.

End Interrupts.

(** ** Completing an IN, the timer tick and the ignored CR accesses *)

(** [memcpy(&val, src, n)] into a [val] that was 0: the bytes of [val] are
    the bytes of [src], and [val] has no bit above them. *)
Lemma memcpy_to_ulong_bits (l : list Z) :
  let val := foldr (λ b acc, Z.lor (Z.land b 0xFF) (Z.shiftl acc 8)) 0 l in
  0 ≤ val < 2 ^ (8 * Z.of_nat (length l))
  ∧ ∀ (k : nat) b, l !! k = Some b →
      Z.land (Z.shiftr val (8 * Z.of_nat k)) 0xFF = Z.land b 0xFF.
Proof.
  induction l as [|b0 l [IHr IHb]]; cbn [foldr length].
  - split; [simpl; lia|]. intros k b Hk. by rewrite lookup_nil in Hk.
  - set (acc := foldr (λ b acc, Z.lor (Z.land b 0xFF) (Z.shiftl acc 8)) 0 l)
      in *.
    assert (Hb0 : 0 ≤ Z.land b0 0xFF < 2 ^ 8).
    { change 0xFF with (Z.ones 8). rewrite Z.land_ones by lia.
      apply Z.mod_pos_bound. lia. }
    split.
    + split.
      * apply Z.lor_nonneg. split; [lia|]. apply Z.shiftl_nonneg. lia.
      * apply Z.bounded_iff_bits_nonneg; [lia| |].
        { apply Z.lor_nonneg. split; [lia|]. apply Z.shiftl_nonneg. lia. }
        intros j Hj. rewrite Z.lor_spec, Z.shiftl_spec by lia.
        apply orb_false_intro.
        -- apply (proj1 (Z.bounded_iff_bits_nonneg 8 (Z.land b0 0xFF)
                            ltac:(lia) ltac:(lia))); lia.
        -- apply (proj1 (Z.bounded_iff_bits_nonneg
                            (8 * Z.of_nat (length l)) acc
                            ltac:(lia) ltac:(lia))); lia.
    + intros k b Hk. apply Z.bits_inj'. intros j Hj.
      rewrite !Z.land_spec, Z.shiftr_spec, Z.lor_spec, Z.land_spec by lia.
      rewrite Z.shiftl_spec by lia.
      destruct (decide (j < 8)) as [Hlt|Hge].
      2:{ change 0xFF with (Z.ones 8). rewrite (Z.ones_spec_high 8 j) by lia.
          by rewrite !andb_false_r. }
      destruct k as [|k]; cbn [lookup] in Hk.
      * injection Hk as ->. rewrite Z.mul_0_r, Z.add_0_r.
        rewrite (Z.testbit_neg_r acc) by lia. rewrite orb_false_r.
        by rewrite <- andb_assoc, andb_diag.
      * simpl in Hk. specialize (IHb k b Hk).
        apply (f_equal (λ x, Z.testbit x j)) in IHb.
        rewrite !Z.land_spec, Z.shiftr_spec in IHb by lia.
        replace (j + 8 * Z.of_nat (S k) - 8) with (j + 8 * Z.of_nat k) by lia.
        rewrite <- IHb.
        change 0xFF with (Z.ones 8).
        rewrite (Z.ones_spec_high 8 (j + 8 * Z.of_nat (S k))) by lia.
        by rewrite andb_false_r, orb_false_l.
Qed.

Section HandlersRest.
Context {vmx : vmx_h} {kvm : kvm_h} {krn : kernel}.
Implicit Types (s : machine).

(** [kvm_run_wrapper] with an IN pending starts by loading RAX from the
    data page and clearing [pending_io]; from there on it runs as it does
    without a pending IN. *)
Lemma kvm_run_wrapper_pending_io (fuel : nat) exits s :
  pending_io (cpu s) ≠ 0 →
  kvm_run_wrapper fuel exits s
  = kvm_run_wrapper fuel exits
      (set_cpu
         (set_pending_io 0
            (set_regs
               (<[VCPU_REGS_RAX :=
                    memcpy_to_ulong (pio_data (cpu s))
                      (Z.min (u32 (kvm_run.size (kvm_run.io (kvm_vcpu (cpu s)))
                                   * kvm_run.count
                                       (kvm_run.io (kvm_vcpu (cpu s)))))
                             8)]> (regs (cpu s)))
               (cpu s))) s).
Proof.
  intros Hpend. unfold kvm_run_wrapper.
  match goal with
  | |- (_ ≫= λ v, _ ≫= ?k) _ = _ => set (rest := k)
  end.
  unfold mbind, M_bind, get_vcpu. cbv beta iota.
  rewrite decide_True by done.
  state_simpl. rewrite decide_False by (intros Hc; by apply Hc).
  unfold modify_vcpu, modify, mret, M_ret. cbv beta iota.
  by state_simpl.
Qed.

(** X16. An IN round trip: [handle_io] leaves the exit to user space with
    [pending_io] set; with the bytes of the device in the data page, the
    next [kvm_run_wrapper] runs from the state in which RAX holds the first
    bytes of the page, as many as the access is wide, little endian with
    all bytes above them zero, and [pending_io] is clear. *)
Theorem handle_io_in_kvm_run_wrapper (fuel : nat) exits s (data : list Z) :
  Z.land (exit_qualification (cpu s)) 8 ≠ 0 →
  ∃ s1 val,
    handle_io s = Ok 0 s1
    ∧ pending_io (cpu s1) = 1
    ∧ pio_data (cpu s1) = pio_data (cpu s)
    ∧ 0 ≤ val < 2 ^ (8 * (Z.land (exit_qualification (cpu s)) 7 + 1))
    ∧ (∀ (k : nat) b,
         Z.of_nat k < Z.land (exit_qualification (cpu s)) 7 + 1 →
         data !! k = Some b →
         Z.land (Z.shiftr val (8 * Z.of_nat k)) 0xFF = Z.land b 0xFF)
    ∧ kvm_run_wrapper fuel exits (set_cpu (set_pio_data data (cpu s1)) s1)
      = kvm_run_wrapper fuel exits
          (set_cpu
             (set_pending_io 0
                (set_regs (<[VCPU_REGS_RAX := val]> (regs (cpu s1)))
                   (set_pio_data data (cpu s1)))) s1).
Proof.
  intros Hin. pose proof (Z_land_7_range (exit_qualification (cpu s))) as Hsz.
  destruct (handle_io_in s Hin) as (s1 & Hrun & Hio & Hdata & Hpend).
  set (n := Z.land (exit_qualification (cpu s)) 7 + 1) in *.
  exists s1, (memcpy_to_ulong data n).
  split; [done|]. split; [done|]. split; [done|].
  pose proof (memcpy_to_ulong_bits (take (Z.to_nat n) data)) as [Hr Hb].
  cbv zeta in Hr, Hb. fold (memcpy_to_ulong data n) in Hr, Hb.
  split; [|split].
  - split; [lia|]. eapply Z.lt_le_trans; [apply Hr|].
    apply Z.pow_le_mono_r; [lia|]. rewrite length_take. lia.
  - intros k b Hk Hl. apply Hb. rewrite lookup_take_lt by lia. done.
  - rewrite kvm_run_wrapper_pending_io by (state_simpl; rewrite Hpend; done).
    state_simpl. rewrite Hio. cbn [kvm_run.size kvm_run.count].
    rewrite Z.mul_1_r.
    assert (Hu32 : u32 n = n) by (unfold u32; apply Z.mod_small; lia).
    rewrite Hu32, Z.min_l by lia. done.
Qed.

(** X17. The host's timer tick becomes the guest's: an external-interrupt exit
    with exit qualification 0 sets line 0 pending, whether or not a signal
    ends the run, and line 0 is the one that the next injection delivers,
    whatever else is pending. *)
Theorem handle_external_interrupt_timer s :
  exit_qualification (cpu s) = 0 →
  ∃ s1 s2,
    handle_external_interrupt s = Ok (if signal_pending s then 0 else 1) s1
    ∧ pending_irq (cpu s1) = Z.lor (pending_irq (cpu s)) 1
    ∧ kvm_run_wrapper_inject s1
      = Ok (Z.lor (Z.lor INTR_INFO_VALID_MASK INTR_TYPE_EXT_INTR)
                  (if decide (paging (cpu s) ≠ 0) then 0x30 else 8)) s2
    ∧ (∀ j, 0 ≤ j →
         Z.testbit (pending_irq (cpu s2)) j
         = if decide (j = 0) then false
           else Z.testbit (pending_irq (cpu s)) j).
Proof.
  intros Hq.
  assert (Hh : ∃ s1, handle_external_interrupt s
                     = Ok (if signal_pending s then 0 else 1) s1
                 ∧ pending_irq (cpu s1) = Z.lor (pending_irq (cpu s)) 1
                 ∧ paging (cpu s1) = paging (cpu s)).
  { unfold handle_external_interrupt.
    unfold mbind, M_bind, get_vcpu, get. cbv beta iota.
    rewrite decide_True by done.
    unfold modify_vcpu, modify. cbv beta iota. state_simpl.
    destruct (signal_pending s) eqn:Hsig.
    - unfold printf, modify, mret, M_ret. cbv beta iota.
      eexists. split; [reflexivity|]. by state_simpl.
    - unfold mret, M_ret. eexists. split; [reflexivity|]. by state_simpl. }
  destruct Hh as (s1 & Hrun & Hpend & Hpag).
  destruct (kvm_run_wrapper_inject_first s1 0) as (s2 & Hinj & Hbits & _).
  { unfold IRQ_MAX. lia. }
  { rewrite Hpend, Z.lor_spec. apply orb_true_r. }
  { intros j Hj. lia. }
  exists s1, s2. split; [done|]. split; [done|].
  rewrite Hpag, Z.add_0_l in Hinj. split; [done|].
  intros j Hj. rewrite Hbits by done. destruct (decide (j = 0)); [done|].
  rewrite Hpend, Z.lor_spec.
  assert (Z.testbit 1 j = false) as ->
    by (apply (Z.bits_above_log2 1); simpl; lia).
  apply orb_false_r.
Qed.

(** X18. The accesses that [handle_cr] does not emulate are skipped: for a
    control register other than CR0 and CR3, for an access to CR3 that is
    no move, and for anything but a move to CR0, the guest goes on after
    the instruction with the VMCS and the vcpu, its RIP apart, as they
    were. *)
Theorem handle_cr_not_emulated s :
  let cr_num := int (Z.land (exit_qualification (cpu s))
                            CONTROL_REG_ACCESS_NUM) in
  let cr_type := int (Z.shiftr (Z.land (exit_qualification (cpu s))
                                       CONTROL_REG_ACCESS_TYPE) 4) in
  (cr_num ≠ 0 ∧ cr_num ≠ 3) ∨ (cr_num = 3 ∧ cr_type ≠ 0 ∧ cr_type ≠ 1)
  ∨ (cr_num = 0 ∧ cr_type ≠ 0) →
  ∃ s', handle_cr s = Ok 1 s'
    ∧ vmcs s' = vmcs s ∧ kmem s' = kmem s
    ∧ cpu s'
      = set_regs (<[VCPU_REGS_RIP :=
                      ulong (regs (cpu s) VCPU_REGS_RIP
                             + exit_instruction_len (cpu s))]> (regs (cpu s)))
          (cpu s)
    ∧ console s'
      = console s
        ++ (if decide (cr_num ≠ 0 ∧ cr_num ≠ 3)
            then [("can't emulate cr%d\n"%string, [cr_num])] else []).
Proof.
  intros cr_num cr_type Hcase.
  unfold handle_cr. unfold mbind at 1, M_bind at 1, get_vcpu. cbv beta iota zeta.
  fold cr_num cr_type.
  destruct Hcase as [[H0 H3]|[(H3 & T0 & T1)|[H0 T0]]].
  - rewrite (decide_False (P := cr_num = 3)) by done.
    rewrite (decide_False (P := cr_num = 0)) by done.
    rewrite decide_True by done.
    unfold mbind, M_bind, printf, modify, skip_emulated_instruction,
      modify_vcpu, modify, mret, M_ret. cbv beta iota.
    eexists. split; [reflexivity|]. by state_simpl.
  - rewrite (decide_True (P := cr_num = 3)) by done.
    rewrite (decide_False (P := cr_type = 0)) by done.
    rewrite (decide_False (P := cr_type = 1)) by done.
    rewrite decide_False by (intros [_ ?]; congruence).
    unfold mbind, M_bind, skip_emulated_instruction,
      modify_vcpu, modify, mret, M_ret. cbv beta iota.
    eexists. split; [reflexivity|]. state_simpl. by rewrite app_nil_r.
  - rewrite (decide_False (P := cr_num = 3)) by congruence.
    rewrite (decide_True (P := cr_num = 0)) by done.
    rewrite (decide_False (P := cr_type = 0)) by done.
    rewrite decide_False by (intros [? _]; congruence).
    unfold mbind, M_bind, skip_emulated_instruction,
      modify_vcpu, modify, mret, M_ret. cbv beta iota.
    eexists. split; [reflexivity|]. state_simpl. by rewrite app_nil_r.
Qed.

End HandlersRest.

(** ** More on the run loop *)

Section RunLoopMore.
Context {vmx : vmx_h} {kvm : kvm_h} {krn : kernel}.
Implicit Types (s : machine) (m : mem) (e : vmexit).

(** One pass through the loop body, with what it leaves besides the
    frame: the dispatch starts with the shared page and the console of
    the start of the pass; after the dispatch the VMCS is released, the
    interrupts of the host are on again, and the console has one more line
    unless the exit is one of the six the loop does not report. *)
Lemma kvm_run_wrapper_body_spec m p n b exits cpun maxcont er
    (R : Z → machine → Prop) s :
  frame m p n b s →
  (∀ s1, frame m p (S n) (exit_signal_pending (exits n)) s1 →
     kvm_vcpu (cpu s1) = kvm_vcpu (cpu s) → console s1 = console s →
     host_msr s1 = exit_host_msr (exits n) →
     regs (cpu s1) VCPU_REGS_RCX = exit_regs (exits n) VCPU_REGS_RCX →
     wp (kvm_run_wrapper_dispatch (u32 (exit_vmcs (exits n) VM_EXIT_REASON)))
        (λ c s2, frame m p (S n) (exit_signal_pending (exits n)) s2
                 ∧ R c s2)
        s1) →
  wp (kvm_run_wrapper_body exits cpun maxcont er)
     (λ '(c, er', err) s',
        frame m p (S n) (exit_signal_pending (exits n)) s'
        ∧ (∃ s2 args, R c s2 ∧ cpu s' = set_vmcs_loaded 0 (cpu s2)
             ∧ console s'
               = console s2
                 ++ (if decide (er' ≠ EXIT_REASON_IO_INSTRUCTION
                                ∧ er' ≠ EXIT_REASON_PREEMPTION_TIMER
                                ∧ er' ≠ EXIT_REASON_EXTERNAL_INTERRUPT
                                ∧ er' ≠ EXIT_REASON_PENDING_INTERRUPT
                                ∧ er' ≠ EXIT_REASON_TASK_SWITCH
                                ∧ er' ≠ EXIT_REASON_CPUID)
                     then [("%3d -(%d,%d)- entry %ld exit %ld(0x%lx) error %ld phys 0x%lx    rip %lx  rsp %lx\n"%string, args)]
                     else []))
        ∧ host_if s' = true
        ∧ er' = u32 (exit_vmcs (exits n) VM_EXIT_REASON)
        ∧ err = u32 (exit_vmcs (exits n) VM_INSTRUCTION_ERROR)) s.
Proof.
  intros (<- & <- & <- & <-) Hdisp. unfold kvm_run_wrapper_body.
  repeat (first [wp_step
                |progress unfold kvm_run_wrapper_inject, kvm_run, world_switch];
          cbv beta iota; state_simpl).
  all: (eapply wp_mono;
        [apply Hdisp;
         [by unfold frame; state_simpl|by state_simpl|by state_simpl
         |by state_simpl
         |state_simpl;
          first [done|by rewrite decide_False by (by intros [?|?])]]|]).
  all: intros c s2 [Hf HR]; cbv beta.
  all: wp_run.
  all: split; [frame_solve|]; split; [|done].
  all: exists s2.
  all: first [exists []; split; [done|]; split; [done|];
              rewrite decide_False by done; by rewrite app_nil_r
             |eexists; split; [done|]; split; [done|];
              rewrite decide_True by done; reflexivity].
Qed.

(** The loop always ends: each pass performs one world switch and there
    are at most as many passes as [maxcont] is below the bound.  After a
    pass the VMCS is released and the interrupts of the host are on. *)
Lemma kvm_run_wrapper_loop_total m p exits cpun n0 :
  wf_ept m p →
  (∀ i, (n0 ≤ i)%nat → rdmsr_exit_readable (exits i)) →
  ∀ fuel cont maxcont er n b s,
    0 ≤ maxcont ≤ 1000 → (Z.to_nat (1000 - maxcont) < fuel)%nat →
    (n0 ≤ n)%nat → frame m p n b s →
    wp (kvm_run_wrapper_loop fuel exits cpun cont maxcont er)
       (λ _ s',
          ∃ k b',
            frame m p (n + k) b' s'
            ∧ (k ≤ Z.to_nat (1000 - maxcont))%nat
            ∧ (k = 0%nat ∧ s' = s
               ∨ (1 ≤ k)%nat ∧ host_if s' = true ∧ vmcs_loaded (cpu s') = 0)
            ∧ (cont ≠ 0 → maxcont < 1000 → (1 ≤ k)%nat)) s.
Proof.
  intros Hwf Hmsr fuel.
  induction fuel as [|fuel IH]; intros cont maxcont er n b s Hmc Hfuel Hn Hf;
    [lia|].
  cbn [kvm_run_wrapper_loop].
  destruct (decide (cont ≠ 0)) as [Hcont|Hstop].
  2:{ apply wp_ret. exists 0%nat, b. rewrite Nat.add_0_r.
      split; [done|]. split; [lia|]. split; [by left|done]. }
  destruct (decide (maxcont < 1000)) as [Hlt|Hge].
  2:{ apply wp_ret. exists 0%nat, b. rewrite Nat.add_0_r.
      split; [done|]. split; [lia|]. split; [by left|lia]. }
  cbv zeta. apply wp_bind.
  eapply wp_mono;
    [apply (kvm_run_wrapper_body_spec m p n b exits cpun (maxcont + 1) er
              (λ _ _, True) s Hf)|].
  - intros s1 Hf1 _ _ Hm1 Hc1.
    eapply wp_mono; [apply kvm_run_wrapper_dispatch_frame; [done| |done]|].
    + rewrite Hm1, Hc1. by apply Hmsr.
    + by intros c s2 Hf2.
  - intros [[c er'] err] s' (Hf' & (s2 & args & _ & Hcpu & _) & Hif & -> & ->).
    cbv beta iota.
    assert (Hvl : vmcs_loaded (cpu s') = 0) by (by rewrite Hcpu).
    destruct (decide (u32 (exit_vmcs (exits n) VM_INSTRUCTION_ERROR) ≠ 0)).
    + apply wp_ret. exists 1%nat, (exit_signal_pending (exits n)).
      rewrite Nat.add_1_r. split; [done|]. split; [lia|].
      split; [by right|done].
    + eapply wp_mono;
        [eapply (IH c (maxcont + 1) _ (S n)); [lia|lia|lia|exact Hf']|].
      intros _ s'' (k & b' & Hf'' & Hk & Hlast & _).
      exists (S k), b'. rewrite Nat.add_succ_r, <- Nat.add_succ_l.
      split; [done|]. split; [lia|]. split; [|lia]. right.
      split; [lia|]. by destruct Hlast as [[_ ->]|(_ & ? & ?)].
Qed.

(** X19. [KVM_RUN] comes back unless the guest reads an MSR that the host
    lacks: for exits whose MSR reads all name an MSR of the host,
    [kvm_run_wrapper] returns 0 after at least one and at most 1000 world
    switches, with the VMCS released, the interrupts of the host on, and
    the kernel memory and the root of the page tables as they were. *)
Theorem kvm_run_wrapper_total (fuel : nat) exits s :
  (1000 < fuel)%nat →
  wf_ept (kmem s) (pml4 (cpu s)) →
  (∀ i, (world_switches s ≤ i)%nat → rdmsr_exit_readable (exits i)) →
  ∃ s' k,
    kvm_run_wrapper fuel exits s = Ok 0 s'
    ∧ world_switches s' = (world_switches s + k)%nat
    ∧ (1 ≤ k ≤ 1000)%nat
    ∧ host_if s' = true
    ∧ vmcs_loaded (cpu s') = 0
    ∧ kmem s' = kmem s
    ∧ pml4 (cpu s') = pml4 (cpu s).
Proof.
  intros Hfuel Hwf Hmsr.
  assert (Hwp : wp (kvm_run_wrapper fuel exits)
            (λ r s', r = 0 ∧ ∃ k,
               world_switches s' = (world_switches s + k)%nat
               ∧ (1 ≤ k ≤ 1000)%nat
               ∧ host_if s' = true
               ∧ vmcs_loaded (cpu s') = 0
               ∧ kmem s' = kmem s
               ∧ pml4 (cpu s') = pml4 (cpu s)) s).
  { unfold kvm_run_wrapper. wp_run.
    all: (eapply wp_mono;
          [apply (kvm_run_wrapper_loop_total _ _ exits cpu_number
                    (world_switches s) Hwf Hmsr fuel 1 0 0
                    (world_switches s) (signal_pending s));
           [lia|simpl; lia|lia|by unfold frame; state_simpl]|]).
    all: intros [[c mc] er] s' (k & b' & Hf & Hk & Hlast & Hk1);
         cbv beta iota.
    all: destruct Hlast as [[-> _]|(_ & Hif & Hvl)];
           [specialize (Hk1 ltac:(done) ltac:(lia)); lia|].
    all: destruct Hf as (Hm & Hp & Hws & _).
    all: wp_run.
    all: split; [done|]; exists k; state_simpl.
    all: repeat split; try done; simpl in Hk; lia. }
  destruct Hwp as (r & s' & Hrun & -> & k & Hres). by exists s', k.
Qed.




End RunLoopMore.

(** ** Installing a memory region *)

Lemma ept_page_ulong (x : Z) : ept_page (ulong x) = ept_page x.
Proof.
  apply Z.bits_inj'. intros r Hr. rewrite !ept_page_testbit by done.
  case_decide; [|done]. unfold ulong.
  rewrite <- Z.land_ones by lia. rewrite Z.land_spec.
  rewrite Z.ones_spec_low by lia. apply andb_true_r.
Qed.

Lemma ept_page_offset (g k : Z) :
  ept_page (ulong (g + k * PAGE_SIZE)) = (g / 4096 + k) mod 2 ^ 36.
Proof.
  rewrite ept_page_ulong. unfold ept_page, PAGE_SIZE.
  rewrite Z.land_ones, Z.shiftr_div_pow2 by lia.
  change (2 ^ 12) with 4096. by rewrite Z.div_add by lia.
Qed.

(** The pages of a region of at most 2^36 pages have different page
    numbers. *)
Lemma ept_page_offset_inj (g k k' : Z) :
  0 ≤ k < 2 ^ 36 → 0 ≤ k' < 2 ^ 36 →
  ept_page (ulong (g + k * PAGE_SIZE)) = ept_page (ulong (g + k' * PAGE_SIZE)) →
  k = k'.
Proof.
  intros Hk Hk'. rewrite !ept_page_offset. intros Heq.
  pose proof (Z.div_mod (g / 4096 + k) (2 ^ 36) ltac:(lia)) as H1.
  pose proof (Z.div_mod (g / 4096 + k') (2 ^ 36) ltac:(lia)) as H2.
  rewrite Heq in H1.
  assert (Hq : k - k' = 2 ^ 36 * ((g / 4096 + k) / 2 ^ 36
                                   - (g / 4096 + k') / 2 ^ 36)) by lia.
  destruct (decide ((g / 4096 + k) / 2 ^ 36 - (g / 4096 + k') / 2 ^ 36 = 0));
    nia.
Qed.

Section MemoryRegion.
Context {vmx : vmx_h} {kvm : kvm_h} {krn : kernel}.
Implicit Types (s : machine) (mr : kvm_userspace_memory_region.t).

Hypothesis IOMallocAligned_fresh : ∀ (m : mem) size alignment,
  IOMallocAligned m size alignment ≠ 0 →
  m !! IOMallocAligned m size alignment = None.
Hypothesis IOMallocAligned_ok : ∀ (m : mem) size alignment,
  IOMallocAligned m size alignment ≠ 0.
Hypothesis EPT_DEFAULTS_low : 0 ≤ EPT_DEFAULTS < PAGE_SIZE.

(** The first [j] passes of the loop, when the memory descriptor has a
    physical page for each of them: the loop goes on from page [j] in a
    state whose page tables map these [j] pages and translate every other
    address as before. *)
Lemma kvm_set_user_memory_region_pages_prefix mr (j : nat) :
  ∀ (n : nat) s (t f : mem),
    (j ≤ n)%nat → Z.of_nat j ≤ 2 ^ 36 →
    ept_tree 3 (pml4 (cpu s)) t → kmem s = t ∪ f → t ##ₘ f →
    (∀ k, 0 ≤ k < Z.of_nat j →
       0 < getPhysicalSegment (kvm_userspace_memory_region.userspace_addr mr)
             (kvm_userspace_memory_region.memory_size mr) (k * PAGE_SIZE)
         < 2 ^ 64) →
    ∃ s' t',
      kvm_set_user_memory_region_pages mr n 0 s
      = kvm_set_user_memory_region_pages mr (n - j) (Z.of_nat j * PAGE_SIZE) s'
      ∧ cpu s' = cpu s ∧ console s' = console s
      ∧ kmem s' = t' ∪ f ∧ ept_tree 3 (pml4 (cpu s)) t' ∧ t' ##ₘ f
      ∧ (∀ k gpb, 0 ≤ k < Z.of_nat j →
           ept_page gpb
           = ept_page (ulong (kvm_userspace_memory_region.guest_phys_addr mr
                              + k * PAGE_SIZE)) →
           ept_translate (kmem s') (pml4 (cpu s)) gpb
           = Some (getPhysicalSegment
                     (kvm_userspace_memory_region.userspace_addr mr)
                     (kvm_userspace_memory_region.memory_size mr)
                     (k * PAGE_SIZE)
                   - getPhysicalSegment
                       (kvm_userspace_memory_region.userspace_addr mr)
                       (kvm_userspace_memory_region.memory_size mr)
                       (k * PAGE_SIZE) mod PAGE_SIZE))
      ∧ (∀ gpb,
           (∀ k, 0 ≤ k < Z.of_nat j →
              ept_page gpb
              ≠ ept_page (ulong (kvm_userspace_memory_region.guest_phys_addr mr
                                 + k * PAGE_SIZE))) →
           ept_translate (kmem s') (pml4 (cpu s)) gpb
           = ept_translate (kmem s) (pml4 (cpu s)) gpb).
Proof using IOMallocAligned_fresh IOMallocAligned_ok EPT_DEFAULTS_low.
  induction j as [|j IH]; intros n s t f Hjn Hj Htree Hm Hd Hpa.
  - exists s, t. rewrite Nat.sub_0_r.
    split; [done|]. split; [done|]. split; [done|]. split; [done|].
    split; [done|]. split; [done|]. split; [|done].
    intros k gpb Hk. lia.
  - destruct (IH n s t f) as (s1 & t1 & Hrun & Hcpu & Hcon & Hm1 & Htree1 & Hd1 & Hin & Hout);
      [lia|lia|done..| |].
    { intros k Hk. apply Hpa. lia. }
    set (gpa := kvm_userspace_memory_region.guest_phys_addr mr) in *.
    set (pa := getPhysicalSegment (kvm_userspace_memory_region.userspace_addr mr)
                 (kvm_userspace_memory_region.memory_size mr)) in *.
    pose proof (Hpa (Z.of_nat j) ltac:(lia)) as Hpaj.
    destruct (ept_add_page_update IOMallocAligned_fresh IOMallocAligned_ok
                EPT_DEFAULTS_low t1 f (pml4 (cpu s))
                (ulong (gpa + Z.of_nat j * PAGE_SIZE))
                (pa (Z.of_nat j * PAGE_SIZE)) Htree1 Hd1 ltac:(lia))
      as (t2 & Hadd & Htree2 & Hd2 & Htr).
    exists (set_kmem (t2 ∪ f) s1), t2. split.
    { rewrite Hrun.
      replace (n - j)%nat with (S (n - S j)) by lia.
      cbn [kvm_set_user_memory_region_pages]. fold pa gpa.
      rewrite decide_True by lia.
      unfold mbind, M_bind, get, lift_option, modify.
      rewrite Hcpu, Hm1, Hadd.
      replace (Z.of_nat (S j) * PAGE_SIZE)
        with (Z.of_nat j * PAGE_SIZE + PAGE_SIZE) by lia.
      done. }
    state_simpl. split; [done|]. split; [done|]. split; [done|].
    split; [done|]. split; [done|]. split.
    + intros k gpb Hk Hpage. rewrite Htr.
      destruct (decide (k = Z.of_nat j)) as [->|Hne].
      * by rewrite decide_True.
      * rewrite decide_False.
        { rewrite <- Hm1. apply Hin; [lia|done]. }
        rewrite Hpage. intros Heq. apply Hne.
        by apply (ept_page_offset_inj gpa); [lia|lia|].
    + intros gpb Hgpb. rewrite Htr.
      rewrite decide_False by (apply Hgpb; lia).
      rewrite <- Hm1. apply Hout. intros k Hk. apply Hgpb. lia.
Qed.

(** X22. When the memory descriptor cannot be wired the call returns [EINVAL]
    and installs nothing. *)
Theorem kvm_set_user_memory_region_prepare_fails mr s :
  prepare (kvm_userspace_memory_region.userspace_addr mr)
          (kvm_userspace_memory_region.memory_size mr) ≠ 0 →
  ∃ s', kvm_set_user_memory_region mr s = Ok EINVAL s'
        ∧ kmem s' = kmem s ∧ cpu s' = cpu s
        ∧ list.last (console s') = Some ("wire pages failed :(\n"%string, []).
Proof using Type.
  intros Hprep. unfold kvm_set_user_memory_region.
  unfold mbind, M_bind, printf, modify. cbv beta iota.
  rewrite decide_True by done.
  unfold mbind, M_bind, printf, modify, mret, M_ret. cbv beta iota.
  eexists. split; [reflexivity|]. state_simpl.
  split; [done|]. split; [done|]. apply last_snoc.
Qed.

(** X23. A region whose pages all have a physical page is installed in full:
    the call returns 0, every address of the guest's range translates to
    its physical page, and every address outside translates as before. *)
Theorem kvm_set_user_memory_region_installs mr s (t f : mem) :
  ept_tree 3 (pml4 (cpu s)) t → kmem s = t ∪ f → t ##ₘ f →
  0 ≤ kvm_userspace_memory_region.memory_size mr ≤ 2 ^ 48 →
  prepare (kvm_userspace_memory_region.userspace_addr mr)
          (kvm_userspace_memory_region.memory_size mr) = 0 →
  (∀ k, 0 ≤ k → k * PAGE_SIZE < kvm_userspace_memory_region.memory_size mr →
     0 < getPhysicalSegment (kvm_userspace_memory_region.userspace_addr mr)
           (kvm_userspace_memory_region.memory_size mr) (k * PAGE_SIZE)
       < 2 ^ 64) →
  ∃ s', kvm_set_user_memory_region mr s = Ok 0 s'
    ∧ cpu s' = cpu s
    ∧ (∀ k gpb, 0 ≤ k →
         k * PAGE_SIZE < kvm_userspace_memory_region.memory_size mr →
         ept_page gpb
         = ept_page (ulong (kvm_userspace_memory_region.guest_phys_addr mr
                            + k * PAGE_SIZE)) →
         ept_translate (kmem s') (pml4 (cpu s)) gpb
         = Some (getPhysicalSegment
                   (kvm_userspace_memory_region.userspace_addr mr)
                   (kvm_userspace_memory_region.memory_size mr)
                   (k * PAGE_SIZE)
                 - getPhysicalSegment
                     (kvm_userspace_memory_region.userspace_addr mr)
                     (kvm_userspace_memory_region.memory_size mr)
                     (k * PAGE_SIZE) mod PAGE_SIZE))
    ∧ (∀ gpb,
         (∀ k, 0 ≤ k →
            k * PAGE_SIZE < kvm_userspace_memory_region.memory_size mr →
            ept_page gpb
            ≠ ept_page (ulong (kvm_userspace_memory_region.guest_phys_addr mr
                               + k * PAGE_SIZE))) →
         ept_translate (kmem s') (pml4 (cpu s)) gpb
         = ept_translate (kmem s) (pml4 (cpu s)) gpb).
Proof using IOMallocAligned_fresh IOMallocAligned_ok EPT_DEFAULTS_low.
  intros Htree Hm Hd Hsize Hprep Hpa.
  set (size := kvm_userspace_memory_region.memory_size mr) in *.
  set (n := Z.to_nat ((size + PAGE_SIZE - 1) / PAGE_SIZE)).
  assert (Hn : ∀ k, 0 ≤ k → k < Z.of_nat n ↔ k * PAGE_SIZE < size).
  { intros k Hk. unfold n, PAGE_SIZE.
    assert (0 ≤ (size + 4096 - 1) / 4096) by (apply Z.div_pos; lia).
    rewrite Z2Nat.id by done.
    pose proof (Z.div_mod (size + 4096 - 1) 4096 ltac:(lia)).
    pose proof (Z.mod_pos_bound (size + 4096 - 1) 4096 ltac:(lia)). lia. }
  assert (Hn36 : Z.of_nat n ≤ 2 ^ 36).
  { destruct (decide (Z.of_nat n ≤ 2 ^ 36)) as [|Hgt]; [done|].
    assert (2 ^ 36 < Z.of_nat n) as Hlt by lia.
    apply Hn in Hlt; [|lia]. unfold PAGE_SIZE in Hlt. lia. }
  set (s0 := set_console (console s ++
      [("MAPPING 0x%llx WITH FLAGS %x SLOT %d IN GUEST AT 0x%llx-0x%llx\n"%string,
        [kvm_userspace_memory_region.userspace_addr mr;
         kvm_userspace_memory_region.flags mr;
         kvm_userspace_memory_region.slot mr;
         kvm_userspace_memory_region.guest_phys_addr mr;
         ulong (kvm_userspace_memory_region.guest_phys_addr mr + size)])]) s).
  destruct (kvm_set_user_memory_region_pages_prefix mr n n s0 t f)
    as (s' & t' & Hrun & Hcpu & Hcon & Hm' & Htree' & Hd' & Hin & Hout);
    [lia|done|done..| |].
  { intros k Hk. apply Hpa; [lia|]. apply Hn; lia. }
  exists s'. split.
  { unfold kvm_set_user_memory_region. fold size.
    unfold mbind at 1, M_bind at 1, printf, modify. cbv beta iota.
    fold s0. rewrite Hprep, decide_False by (by intros ?).
    fold n. rewrite Hrun, Nat.sub_diag. done. }
  split; [done|]. split.
  - intros k gpb Hk Hlt. apply Hin. split; [done|]. by apply Hn.
  - intros gpb Hgpb. apply Hout. intros k Hk. apply Hgpb; [lia|].
    apply Hn; lia.
Qed.

(** X24. Pages installed before a page without a physical page stay
    installed: the call returns [EINVAL] at the first such page, and the
    pages before it translate to their physical pages. *)
Theorem kvm_set_user_memory_region_no_rollback mr s (t f : mem) (j : Z) :
  ept_tree 3 (pml4 (cpu s)) t → kmem s = t ∪ f → t ##ₘ f →
  0 ≤ kvm_userspace_memory_region.memory_size mr ≤ 2 ^ 48 →
  prepare (kvm_userspace_memory_region.userspace_addr mr)
          (kvm_userspace_memory_region.memory_size mr) = 0 →
  0 ≤ j → j * PAGE_SIZE < kvm_userspace_memory_region.memory_size mr →
  getPhysicalSegment (kvm_userspace_memory_region.userspace_addr mr)
    (kvm_userspace_memory_region.memory_size mr) (j * PAGE_SIZE) = 0 →
  (∀ k, 0 ≤ k < j →
     0 < getPhysicalSegment (kvm_userspace_memory_region.userspace_addr mr)
           (kvm_userspace_memory_region.memory_size mr) (k * PAGE_SIZE)
       < 2 ^ 64) →
  ∃ s', kvm_set_user_memory_region mr s = Ok EINVAL s'
    ∧ (∀ k, 0 ≤ k < j →
         ept_translate (kmem s') (pml4 (cpu s))
           (ulong (kvm_userspace_memory_region.guest_phys_addr mr
                   + k * PAGE_SIZE))
         = Some (getPhysicalSegment
                   (kvm_userspace_memory_region.userspace_addr mr)
                   (kvm_userspace_memory_region.memory_size mr)
                   (k * PAGE_SIZE)
                 - getPhysicalSegment
                     (kvm_userspace_memory_region.userspace_addr mr)
                     (kvm_userspace_memory_region.memory_size mr)
                     (k * PAGE_SIZE) mod PAGE_SIZE))
    ∧ list.last (console s')
      = Some ("couldn't find vpage %lx\n"%string,
              [ulong (kvm_userspace_memory_region.userspace_addr mr
                      + j * PAGE_SIZE)]).
Proof using IOMallocAligned_fresh IOMallocAligned_ok EPT_DEFAULTS_low.
  intros Htree Hm Hd Hsize Hprep Hj Hjlt Hfail Hpa.
  set (size := kvm_userspace_memory_region.memory_size mr) in *.
  set (n := Z.to_nat ((size + PAGE_SIZE - 1) / PAGE_SIZE)).
  assert (Hn : ∀ k, 0 ≤ k → k < Z.of_nat n ↔ k * PAGE_SIZE < size).
  { intros k Hk. unfold n, PAGE_SIZE.
    assert (0 ≤ (size + 4096 - 1) / 4096) by (apply Z.div_pos; lia).
    rewrite Z2Nat.id by done.
    pose proof (Z.div_mod (size + 4096 - 1) 4096 ltac:(lia)).
    pose proof (Z.mod_pos_bound (size + 4096 - 1) 4096 ltac:(lia)). lia. }
  assert (Hjn : j < Z.of_nat n) by (by apply Hn).
  assert (Hj36 : j ≤ 2 ^ 36) by (unfold PAGE_SIZE in Hjlt; lia).
  set (s0 := set_console (console s ++
      [("MAPPING 0x%llx WITH FLAGS %x SLOT %d IN GUEST AT 0x%llx-0x%llx\n"%string,
        [kvm_userspace_memory_region.userspace_addr mr;
         kvm_userspace_memory_region.flags mr;
         kvm_userspace_memory_region.slot mr;
         kvm_userspace_memory_region.guest_phys_addr mr;
         ulong (kvm_userspace_memory_region.guest_phys_addr mr + size)])]) s).
  destruct (kvm_set_user_memory_region_pages_prefix mr (Z.to_nat j) n s0 t f)
    as (s1 & t1 & Hrun & Hcpu & Hcon & Hm1 & Htree1 & Hd1 & Hin & _);
    [lia|lia|done..| |].
  { intros k Hk. apply Hpa. lia. }
  rewrite Z2Nat.id in Hrun, Hin by done.
  eexists. split.
  { unfold kvm_set_user_memory_region. fold size.
    unfold mbind at 1, M_bind at 1, printf at 1, modify. cbv beta iota.
    fold s0. rewrite Hprep, decide_False by (by intros ?).
    fold n. rewrite Hrun.
    replace (n - Z.to_nat j)%nat with (S (n - S (Z.to_nat j))) by lia.
    cbn [kvm_set_user_memory_region_pages]. fold size.
    rewrite Hfail, decide_False by (by intros ?).
    unfold mbind, M_bind, printf, modify, mret, M_ret. reflexivity. }
  state_simpl. split; [|apply last_snoc].
  intros k Hk. by apply (Hin k).
Qed.

End MemoryRegion.

(** ** Register access *)

Section Regs.
Context {vmx : vmx_h} {kvm : kvm_h} {krn : kernel} {errno : errno_h}.
Implicit Types (s : machine) (r : kvm_regs.t).

Lemma kvm_set_regs_wp r s :
  wp (kvm_set_regs r)
     (λ c s', c = 0
        ∧ regs (cpu s') VCPU_REGS_RAX = kvm_regs.rax r
        ∧ regs (cpu s') VCPU_REGS_RCX = kvm_regs.rcx r
        ∧ regs (cpu s') VCPU_REGS_RDX = kvm_regs.rdx r
        ∧ regs (cpu s') VCPU_REGS_RBX = kvm_regs.rbx r
        ∧ regs (cpu s') VCPU_REGS_RSP = kvm_regs.rsp r
        ∧ regs (cpu s') VCPU_REGS_RBP = kvm_regs.rbp r
        ∧ regs (cpu s') VCPU_REGS_RSI = kvm_regs.rsi r
        ∧ regs (cpu s') VCPU_REGS_RDI = kvm_regs.rdi r
        ∧ regs (cpu s') VCPU_REGS_R8 = kvm_regs.r8 r
        ∧ regs (cpu s') VCPU_REGS_R9 = kvm_regs.r9 r
        ∧ regs (cpu s') VCPU_REGS_R10 = kvm_regs.r10 r
        ∧ regs (cpu s') VCPU_REGS_R11 = kvm_regs.r11 r
        ∧ regs (cpu s') VCPU_REGS_R12 = kvm_regs.r12 r
        ∧ regs (cpu s') VCPU_REGS_R13 = kvm_regs.r13 r
        ∧ regs (cpu s') VCPU_REGS_R14 = kvm_regs.r14 r
        ∧ regs (cpu s') VCPU_REGS_R15 = kvm_regs.r15 r
        ∧ regs (cpu s') VCPU_REGS_RIP = kvm_regs.rip r
        ∧ rflags (cpu s') = kvm_regs.rflags r
        ∧ s' = set_console (console s ++ [("setting rip: %llx\n"%string,
                                            [kvm_regs.rip r])])
                 (set_cpu (set_rflags (rflags (cpu s'))
                             (set_regs (regs (cpu s')) (cpu s))) s)) s.
Proof.
  unfold kvm_set_regs, set_reg. wp_run.
  repeat (split; [repeat (rewrite fn_lookup_insert_ne by done);
                  by rewrite ?fn_lookup_insert|]).
  done.
Qed.

(** What [kvm_set_regs] stored is what [kvm_get_regs] reads back, and
    storing changes nothing of the machine but the registers, the flags
    and the console. *)
Lemma kvm_set_regs_get_regs r s :
  ∃ s', kvm_set_regs r s = Ok 0 s'
    ∧ kvm_get_regs s' = Ok (0, r) s'
    ∧ kmem s' = kmem s ∧ vmcs s' = vmcs s
    ∧ pending_irq (cpu s') = pending_irq (cpu s)
    ∧ pml4 (cpu s') = pml4 (cpu s).
Proof.
  destruct (kvm_set_regs_wp r s) as (c & s' & Hrun & -> & Hregs).
  exists s'. split; [done|].
  destruct Hregs as (? & ? & ? & ? & ? & ? & ? & ? & ? & ? & ? & ? & ? & ? & ?
                     & ? & ? & ? & Hs').
  split.
  - unfold kvm_get_regs, mbind, M_bind, get_vcpu, mret, M_ret.
    do 2 f_equal. destruct r. simpl in *. by f_equal.
  - rewrite Hs'. by state_simpl.
Qed.

(** Storing what [kvm_get_regs] read leaves every register and the flags
    as they were. *)
Lemma kvm_get_regs_set_regs s :
  ∃ r s', kvm_get_regs s = Ok (0, r) s
    ∧ kvm_set_regs r s = Ok 0 s'
    ∧ (∀ x, regs (cpu s') x = regs (cpu s) x)
    ∧ rflags (cpu s') = rflags (cpu s).
Proof.
  eexists _. 
  destruct (kvm_set_regs_wp
    {| kvm_regs.rax := regs (cpu s) VCPU_REGS_RAX;
       kvm_regs.rcx := regs (cpu s) VCPU_REGS_RCX;
       kvm_regs.rdx := regs (cpu s) VCPU_REGS_RDX;
       kvm_regs.rbx := regs (cpu s) VCPU_REGS_RBX;
       kvm_regs.rsp := regs (cpu s) VCPU_REGS_RSP;
       kvm_regs.rbp := regs (cpu s) VCPU_REGS_RBP;
       kvm_regs.rsi := regs (cpu s) VCPU_REGS_RSI;
       kvm_regs.rdi := regs (cpu s) VCPU_REGS_RDI;
       kvm_regs.r8 := regs (cpu s) VCPU_REGS_R8;
       kvm_regs.r9 := regs (cpu s) VCPU_REGS_R9;
       kvm_regs.r10 := regs (cpu s) VCPU_REGS_R10;
       kvm_regs.r11 := regs (cpu s) VCPU_REGS_R11;
       kvm_regs.r12 := regs (cpu s) VCPU_REGS_R12;
       kvm_regs.r13 := regs (cpu s) VCPU_REGS_R13;
       kvm_regs.r14 := regs (cpu s) VCPU_REGS_R14;
       kvm_regs.r15 := regs (cpu s) VCPU_REGS_R15;
       kvm_regs.rip := regs (cpu s) VCPU_REGS_RIP;
       kvm_regs.rflags := rflags (cpu s) |} s)
    as (c & s' & Hrun & -> & Hregs).
  exists s'. split; [reflexivity|]. split; [exact Hrun|].
  destruct Hregs as (? & ? & ? & ? & ? & ? & ? & ? & ? & ? & ? & ? & ? & ? & ?
                     & ? & ? & ? & _).
  split; [|done]. by intros [].
Qed.

(** ** The supported CPUID leaves *)

Ltac handler_exec :=
  wp_run; repeat (apply wp_skip_emulated_instruction; state_simpl; wp_run).

(** [handle_cpuid] on function 1 leaves the SSE bit of EDX clear. *)
Lemma handle_cpuid_hides_sse s :
  u32 (regs (cpu s) VCPU_REGS_RAX) = 1 →
  ∃ s', handle_cpuid s = Ok 1 s'
        ∧ Z.testbit (regs (cpu s') VCPU_REGS_RDX) 25 = false.
Proof.
  intros Hfn.
  assert (Hwp : wp handle_cpuid
            (λ c s', c = 1
               ∧ Z.testbit (regs (cpu s') VCPU_REGS_RDX) 25 = false) s).
  { unfold handle_cpuid. wp_step. wp_step. cbv beta zeta.
    lazymatch goal with
    | |- context [find ?f ?l] => destruct (find f l) as [e|]
    end;
      [|destruct (cpuid _ _) as [[[a' b'] c'] d']];
      cbv beta iota;
      (destruct (decide (u32 (regs (cpu s) VCPU_REGS_RAX) = 1)); [|done]);
      handler_exec; (split; [done|]).
    all: repeat (rewrite fn_lookup_insert_ne by done);
         rewrite fn_lookup_insert, !Z.land_spec.
    all: apply andb_false_r. }
  destruct Hwp as (c & s' & Hrun & -> & Hbit). by exists s'.
Qed.

(** X25. [kvm_set_regs] and [kvm_get_regs] are inverse to each other.  What
    [kvm_set_regs] stored is what [kvm_get_regs] reads back, with the
    kernel memory, the VMCS, the pending interrupts and the root of the
    page tables as they were; and storing what [kvm_get_regs] read leaves
    all registers and the flags as they were. *)
Theorem kvm_regs_round_trip r s :
  (∃ s', kvm_set_regs r s = Ok 0 s'
     ∧ kvm_get_regs s' = Ok (0, r) s'
     ∧ kmem s' = kmem s ∧ vmcs s' = vmcs s
     ∧ pending_irq (cpu s') = pending_irq (cpu s)
     ∧ pml4 (cpu s') = pml4 (cpu s))
  ∧ (∃ r0 s', kvm_get_regs s = Ok (0, r0) s
       ∧ kvm_set_regs r0 s = Ok 0 s'
       ∧ (∀ x, regs (cpu s') x = regs (cpu s) x)
       ∧ rflags (cpu s') = rflags (cpu s)).
Proof.
  split; [apply kvm_set_regs_get_regs|apply kvm_get_regs_set_regs].
Qed.

(** X26. A request with room for fewer than 15 entries is refused with
    [E2BIG] and nothing is copied out.  Any other request is answered with
    15 entries, and off function 1 the report is what the guest gets: for
    a reported leaf that the override table does not cover, [handle_cpuid]
    answers the guest's CPUID with the values of the reported entry. *)
Theorem kvm_get_supported_cpuid_agrees nent :
  (nent < 15 → kvm_get_supported_cpuid nent = (E2BIG, None))
  ∧ (15 ≤ nent →
     ∃ entries,
       kvm_get_supported_cpuid nent = (0, Some (15, entries))
       ∧ length entries = 15%nat
       ∧ ∀ e s, e ∈ entries → kvm_cpuid_entry2.function e ≠ 1 →
           cpuid_entry_matches s e →
           Forall (λ e', ¬ cpuid_entry_matches s e')
                  (take (Z.to_nat (cpuid_count (cpu s))) (cpuids (cpu s))) →
           ∃ s', handle_cpuid s = Ok 1 s'
             ∧ regs (cpu s') VCPU_REGS_RAX = kvm_cpuid_entry2.eax e
             ∧ regs (cpu s') VCPU_REGS_RBX = kvm_cpuid_entry2.ebx e
             ∧ regs (cpu s') VCPU_REGS_RCX = kvm_cpuid_entry2.ecx e
             ∧ regs (cpu s') VCPU_REGS_RDX = kvm_cpuid_entry2.edx e).
Proof.
  split.
  - intros Hlt. unfold kvm_get_supported_cpuid.
    by rewrite decide_True by (simpl; lia).
  - intros Hge. unfold kvm_get_supported_cpuid.
    rewrite decide_False by (simpl; lia).
    eexists. split; [reflexivity|]. split; [done|].
    intros e s [[f i] [-> _]]%list_elem_of_fmap Hfn [Hf Hi] Hnone.
    destruct (cpuid f i) as [[[a b] c] d] eqn:Hc.
    cbn in Hfn, Hf, Hi |- *.
    destruct (handle_cpuid_result s None) as (s' & Hrun & Hregs & _).
    { by rewrite <- Hf. }
    { apply find_Forall_None.
      eapply Forall_impl; [|exact Hnone]. intros e' Hne.
      by apply bool_decide_eq_false_2. }
    rewrite <- Hf, <- Hi, Hc in Hregs.
    exists s'. split; [done|]. by simplify_eq.
Qed.

(** X27. The report and the handler disagree: when the processor of the host
    has SSE, the entry that [kvm_get_supported_cpuid] reports for
    function 1 says so, and the answer of [handle_cpuid] to the guest's
    CPUID for function 1 does not. *)
Theorem kvm_get_supported_cpuid_not_masked nent s :
  15 ≤ nent →
  Z.testbit (u32 (cpuid 1 0).2) 25 = true →
  u32 (regs (cpu s) VCPU_REGS_RAX) = 1 →
  ∃ entries e s',
    kvm_get_supported_cpuid nent = (0, Some (15, entries))
    ∧ e ∈ entries
    ∧ kvm_cpuid_entry2.function e = 1
    ∧ Z.testbit (kvm_cpuid_entry2.edx e) 25 = true
    ∧ handle_cpuid s = Ok 1 s'
    ∧ Z.testbit (regs (cpu s') VCPU_REGS_RDX) 25 = false.
Proof.
  intros Hge Hsse Hfn.
  destruct (handle_cpuid_hides_sse s Hfn) as (s' & Hrun & Hbit).
  unfold kvm_get_supported_cpuid.
  rewrite decide_False by (simpl; lia).
  eexists _, _, s'. split; [reflexivity|]. split.
  { apply list_elem_of_fmap. exists (1, 0). split; [reflexivity|].
    unfold kvm_get_supported_cpuid_param. set_solver. }
  destruct (cpuid 1 0) as [[[a b] c] d]. done.
Qed.

End Regs.

(** ** The device functions *)

Section DevWp.
Context {A B : Type}.
Implicit Types (d : device).

Lemma dev_wp_ret (x : A) Q d : Q x d → dev_wp (mret x) Q d.
Proof. intros HQ. by exists x, d. Qed.

Lemma dev_wp_bind (c : DevM A) (f : A → DevM B) (R : B → device → Prop) d :
  dev_wp c (λ x d', dev_wp (f x) R d') d → dev_wp (c ≫= f) R d.
Proof.
  intros (x & d' & Hc & y & d'' & Hf & HR). exists y, d''.
  split; [|done]. unfold mbind, DevM_bind. by rewrite Hc.
Qed.

Lemma dev_wp_mono (c : DevM A) Q (Q' : A → device → Prop) d :
  dev_wp c Q d → (∀ x d', Q x d' → Q' x d') → dev_wp c Q' d.
Proof. intros (x & d' & Hc & HQ) Himp. exists x, d'. eauto. Qed.

End DevWp.

Lemma dev_wp_get Q d : Q d d → dev_wp dev_get Q d.
Proof. intros HQ. by exists d, d. Qed.

Lemma dev_wp_modify f Q d : Q () (f d) → dev_wp (dev_modify f) Q d.
Proof. intros HQ. by exists (), (f d). Qed.

Lemma dev_wp_printf fmt args Q d :
  Q () (set_dev_console (dev_console d ++ [(fmt, args)]) d) →
  dev_wp (dev_printf fmt args) Q d.
Proof. intros HQ. by eexists _, _. Qed.

Lemma dev_wp_load p i v Q d :
  load (dev_mem d) p i = Some v → Q v d → dev_wp (dev_load p i) Q d.
Proof. intros Hl HQ. exists v, d. unfold dev_load. by rewrite Hl. Qed.

Lemma dev_wp_store p i v m Q d :
  store (dev_mem d) p i v = Some m → Q () (set_dev_mem m d) →
  dev_wp (dev_store p i v) Q d.
Proof.
  intros Hs HQ. exists (), (set_dev_mem m d). unfold dev_store. by rewrite Hs.
Qed.

Lemma dev_wp_alloc f Q d :
  Q (f (kernel_objects d)) (set_kernel_objects (S (kernel_objects d)) d) →
  dev_wp (dev_alloc f) Q d.
Proof. intros HQ. by eexists _, _. Qed.

Lemma dev_wp_lock Q d :
  state_lock d = false → Q () (set_state_lock true d) →
  dev_wp IOLockLock_state_lock Q d.
Proof.
  intros Hl HQ. exists (), (set_state_lock true d).
  unfold IOLockLock_state_lock. by rewrite Hl.
Qed.

Lemma dev_wp_unlock Q d :
  state_lock d = true → Q () (set_state_lock false d) →
  dev_wp IOLockUnlock_state_lock Q d.
Proof.
  intros Hl HQ. exists (), (set_state_lock false d).
  unfold IOLockUnlock_state_lock. by rewrite Hl.
Qed.

(** Reading and writing a member of the block at [a]. *)
Lemma load_insert_eq (m : mem) a b i :
  a ≠ 0 → 0 ≤ i → load (<[a := b]> m) a i = b !! Z.to_nat i.
Proof.
  intros Ha Hi. unfold load. rewrite decide_False by lia.
  by rewrite lookup_insert_eq.
Qed.

Lemma store_insert_eq (m : mem) a b i v :
  a ≠ 0 → 0 ≤ i → (Z.to_nat i < length b)%nat →
  store (<[a := b]> m) a i v = Some (<[a := <[Z.to_nat i := v]> b]> m).
Proof.
  intros Ha Hi Hlen. unfold store. rewrite decide_False by lia.
  rewrite lookup_insert_eq. cbn [mbind option_bind].
  rewrite decide_True by done. by rewrite insert_insert_eq.
Qed.

Ltac dev_simpl :=
  unfold set_dev_mem, set_head_of_state, set_state_lock, set_kernel_objects,
         set_dev_console;
  cbn [dev_mem head_of_state state_lock kernel_objects dev_console].

Ltac dev_step :=
  lazymatch goal with
  | |- dev_wp (mbind _ _) _ _ => apply dev_wp_bind
  | |- dev_wp (mret _) _ _ => apply dev_wp_ret
  | |- dev_wp dev_get _ _ => apply dev_wp_get
  | |- dev_wp (dev_modify _) _ _ => apply dev_wp_modify
  | |- dev_wp (dev_printf _ _) _ _ => apply dev_wp_printf
  | |- dev_wp (dev_alloc _) _ _ => apply dev_wp_alloc
  | |- dev_wp IOLockLock_state_lock _ _ =>
      apply dev_wp_lock; [reflexivity|]
  | |- dev_wp IOLockUnlock_state_lock _ _ =>
      apply dev_wp_unlock; [reflexivity|]
  | |- dev_wp (dev_load _ _) _ _ =>
      eapply dev_wp_load;
      [dev_simpl; rewrite load_insert_eq by (done || lia); reflexivity|]
  | |- dev_wp (dev_store _ _ _) _ _ =>
      eapply dev_wp_store;
      [dev_simpl; rewrite store_insert_eq by (done || (vm_compute; lia));
       reflexivity|]
  end.

Ltac dev_run := repeat (dev_step; cbv beta iota; dev_simpl).

(** ** The list of states *)

(** The list depends on the blocks at its addresses only. *)
Lemma state_list_frame (m m' : mem) l : ∀ prev head,
  state_list m prev head l →
  (∀ a, a ∈ l.*1.*1 → m' !! a = m !! a) →
  state_list m' prev head l.
Proof.
  induction l as [|[[a p] c] l IH]; intros prev head Hl Hsame; [done|].
  destruct Hl as (-> & Ha & b & next & Hb & Hlen & Hn & Hp & Hpr & Hc & Hl).
  split; [done|]. split; [done|]. exists b, next.
  split; [rewrite Hsame; [done|]; simpl; by left|].
  do 5 (split; [done|]).
  apply IH; [done|]. intros a' Ha'. apply Hsame. simpl. by right.
Qed.

(** The addresses of a list are live and none is [NULL]. *)
Lemma state_list_live (m : mem) l : ∀ prev head a,
  state_list m prev head l → a ∈ l.*1.*1 →
  is_Some (m !! a) ∧ PAGE_SIZE ≤ a < 2 ^ 64.
Proof.
  induction l as [|[[a0 p] c] l IH]; intros prev head a Hl Hin.
  - by apply elem_of_nil in Hin.
  - destruct Hl as (-> & Ha & b & next & Hb & _ & _ & _ & _ & _ & Hl).
    simpl in Hin. apply elem_of_cons in Hin as [->|Hin]; [by eauto|].
    by eapply IH.
Qed.

(** A process without a state is not in the list. *)
Lemma state_lookup_None (m : mem) l p : ∀ prev head,
  state_list m prev head l → state_lookup p l = 0 → p ∉ l.*1.*2.
Proof.
  induction l as [|[[a q] c] l IH]; intros prev head Hl Hlook.
  - apply not_elem_of_nil.
  - destruct Hl as (-> & Ha & b & next & _ & _ & _ & _ & _ & _ & Hl).
    simpl in Hlook |- *. case_decide as Hq.
    + unfold PAGE_SIZE in Ha. lia.
    + apply not_elem_of_cons. split; [done|]. by eapply IH.
Qed.

(** The state of a process splits the list at the first entry of the
    process. *)
Lemma state_lookup_split l p :
  state_lookup p l ≠ 0 →
  ∃ l1 c l2, l = l1 ++ (state_lookup p l, p, c) :: l2
             ∧ (p ∉ l1.*1.*2)
             ∧ state_bump p l = l1 ++ (state_lookup p l, p, int (c + 1)) :: l2.
Proof.
  induction l as [|[[a q] c] l IH]; intros Hlook; [done|].
  simpl in Hlook |- *. case_decide as Hq.
  - subst q. exists [], c, l. split; [done|]. split; [apply not_elem_of_nil|done].
  - destruct (IH Hlook) as (l1 & c' & l2 & Hl & Hp & Hb).
    exists ((a, q, c) :: l1), c', l2. simpl.
    split; [(by rewrite Hl at 1)|].
    split; [apply not_elem_of_cons; split; [congruence|done]|].
    by rewrite Hb.
Qed.

Lemma state_lookup_app l1 a p c l2 :
  p ∉ l1.*1.*2 → state_lookup p (l1 ++ (a, p, c) :: l2) = a.
Proof.
  induction l1 as [|[[a0 q] c0] l1 IH]; intros Hp; simpl.
  - by rewrite decide_True.
  - simpl in Hp. apply not_elem_of_cons in Hp as [Hne Hp].
    rewrite decide_False by congruence. by apply IH.
Qed.

(** The block of an entry of the list. *)
Lemma state_list_entry (m : mem) l1 a p c l2 : ∀ prev head,
  state_list m prev head (l1 ++ (a, p, c) :: l2) →
  PAGE_SIZE ≤ a < 2 ^ 64
  ∧ ∃ b, m !! a = Some b ∧ length b = 9%nat
         ∧ b !! Z.to_nat state.process = Some p
         ∧ b !! Z.to_nat state.open_count = Some c.
Proof.
  induction l1 as [|[[a0 q] c0] l1 IH]; intros prev head Hl.
  - destruct Hl as (-> & Ha & b & next & Hb & Hlen & _ & _ & Hp & Hc & _).
    split; [done|]. by exists b.
  - destruct Hl as (-> & _ & b & next & _ & _ & _ & _ & _ & _ & Hl).
    by eapply IH.
Qed.

(** A new block for an entry, with the links and the process of the old
    one, changes the open count of the entry and nothing else. *)
Lemma state_list_set_count (m : mem) l1 a p c c' l2 b b' : ∀ prev head,
  state_list m prev head (l1 ++ (a, p, c) :: l2) →
  NoDup ((l1 ++ (a, p, c) :: l2).*1.*1) →
  m !! a = Some b → length b' = 9%nat →
  b' !! Z.to_nat state.next = b !! Z.to_nat state.next →
  b' !! Z.to_nat state.prev = b !! Z.to_nat state.prev →
  b' !! Z.to_nat state.process = b !! Z.to_nat state.process →
  b' !! Z.to_nat state.open_count = Some c' →
  state_list (<[a := b']> m) prev head (l1 ++ (a, p, c') :: l2).
Proof.
  induction l1 as [|[[a0 q] c0] l1 IH];
    intros prev head Hl Hnd Hb Hlen Hn Hpr Hp Hc.
  - destruct Hl as (-> & Ha & b0 & next & Hb0 & _ & Hn0 & Hpr0 & Hp0 & _ & Hl).
    simplify_eq. split; [done|]. split; [done|].
    exists b', next. split; [by rewrite lookup_insert_eq|].
    split; [done|]. split; [congruence|]. split; [congruence|].
    split; [congruence|]. split; [done|].
    apply (state_list_frame m); [done|].
    intros a' Ha'. simpl in Hnd. apply list.NoDup_cons in Hnd as [Hni _].
    apply lookup_insert_ne. intros ->. done.
  - destruct Hl as (-> & Ha & b0 & next & Hb0 & Hl0 & Hn0 & Hpr0 & Hp0 & Hc0 & Hl).
    simpl in Hnd. apply list.NoDup_cons in Hnd as [Hni Hnd].
    split; [done|]. split; [done|].
    exists b0, next. split.
    { rewrite lookup_insert_ne; [done|]. intros ->. apply Hni.
      rewrite !fmap_app. simpl. apply elem_of_app. right. by left. }
    do 5 (split; [done|]). by apply IH.
Qed.

(** The first block of a list can point back to any block: its [prev] is
    the only member that says so. *)
Lemma state_list_set_prev (m : mem) l prev prev' head :
  state_list m prev head l → NoDup (l.*1.*1) →
  ∃ m', (∀ a, a ≠ head → m' !! a = m !! a)
        ∧ (head ≠ 0 → store m head state.prev prev' = Some m')
        ∧ (head = 0 → m' = m)
        ∧ state_list m' prev' head l.
Proof.
  destruct l as [|[[a p] c] l]; intros Hl Hnd.
  - simpl in Hl. subst head. exists m. by repeat split.
  - destruct Hl as (-> & Ha & b & next & Hb & Hlen & Hn & Hpr & Hp & Hc & Hl).
    assert (Ha0 : a ≠ 0) by (unfold PAGE_SIZE in Ha; lia).
    exists (<[a := <[Z.to_nat state.prev := prev']> b]> m).
    split; [intros a' Hne; apply lookup_insert_ne; congruence|].
    split.
    { intros _. rewrite <- (insert_id m a b) at 1 by done.
      apply store_insert_eq; [done|done|]. rewrite Hlen. unfold state.prev. lia. }
    split; [done|].
    split; [done|]. split; [done|].
    exists (<[Z.to_nat state.prev := prev']> b), next.
    split; [by rewrite lookup_insert_eq|].
    split; [by rewrite length_insert|].
    split; [by rewrite list_lookup_insert_ne|].
    split; [apply list_lookup_insert_eq; rewrite Hlen; unfold state.prev; lia|].
    split; [by rewrite list_lookup_insert_ne|].
    split; [by rewrite list_lookup_insert_ne|].
    apply (state_list_frame m); [done|].
    intros a' Ha'. simpl in Hnd. apply list.NoDup_cons in Hnd as [Hni _].
    apply lookup_insert_ne. intros ->. done.
Qed.

Lemma store_insert_ne (m m' : mem) a b p i v :
  a ≠ p → store m p i v = Some m' →
  store (<[a := b]> m) p i v = Some (<[a := b]> m').
Proof.
  intros Hne. unfold store. case_decide; [done|].
  rewrite lookup_insert_ne by done.
  destruct (m !! p) as [b0|]; [|done]. cbn [mbind option_bind].
  case_decide; [|done]. intros [= <-]. f_equal.
  by apply insert_insert_ne.
Qed.

(** The head of a list that is not empty is its first address. *)
Lemma state_list_head (m : mem) l prev head :
  state_list m prev head l → head ≠ 0 → head ∈ l.*1.*1.
Proof.
  destruct l as [|[[a p] c] l]; [done|]. intros (-> & _) _. simpl. by left.
Qed.

(** The states of a device after the block of one state was replaced by
    one with the same links and process. *)
Lemma states_wf_set_count (m : mem) hd lk n con l1 a p c c' l2 b b' :
  state_list m 0 hd (l1 ++ (a, p, c) :: l2) →
  NoDup ((l1 ++ (a, p, c) :: l2).*1.*1) →
  NoDup ((l1 ++ (a, p, c) :: l2).*1.*2) →
  m !! a = Some b → length b' = 9%nat →
  b' !! Z.to_nat state.next = b !! Z.to_nat state.next →
  b' !! Z.to_nat state.prev = b !! Z.to_nat state.prev →
  b' !! Z.to_nat state.process = b !! Z.to_nat state.process →
  b' !! Z.to_nat state.open_count = Some c' →
  states_wf {| dev_mem := <[a := b']> m; head_of_state := hd;
               state_lock := lk; kernel_objects := n; dev_console := con |}
    (l1 ++ (a, p, c') :: l2)
  ∧ ∀ a0, a0 ∉ (l1 ++ (a, p, c') :: l2).*1.*1 →
          <[a := b']> m !! a0 = m !! a0.
Proof.
  intros Hl Hnda Hndp Hb Hlen Hn Hpr Hp Hc.
  assert (Ha : (l1 ++ (a, p, c') :: l2).*1.*1
               = (l1 ++ (a, p, c) :: l2).*1.*1) by (by rewrite !fmap_app).
  assert (Hpp : (l1 ++ (a, p, c') :: l2).*1.*2
                = (l1 ++ (a, p, c) :: l2).*1.*2) by (by rewrite !fmap_app).
  split; [split; [|split]|].
  - cbn [dev_mem head_of_state]. by eapply state_list_set_count.
  - by rewrite Ha.
  - by rewrite Hpp.
  - intros a0 Ha0. apply lookup_insert_ne. intros ->. apply Ha0.
    rewrite !fmap_app. apply elem_of_app. right. simpl. by left.
Qed.

Lemma state_lookup_bump p q l :
  state_lookup q (state_bump p l) = state_lookup q l.
Proof.
  induction l as [|[[a r] c] l IH]; [done|]. simpl.
  destruct (decide (r = p)) as [->|Hne]; simpl; [done|]. by rewrite IH.
Qed.

Lemma state_bump_length p l : length (state_bump p l) = length l.
Proof.
  induction l as [|[[a r] c] l IH]; [done|]. simpl.
  case_decide; simpl; [done|]. by rewrite IH.
Qed.

(** A process has a state exactly when it is in the list, and the state
    is a block of the list that names the process. *)
Lemma state_lookup_spec (m : mem) l p : ∀ prev head,
  state_list m prev head l →
  (state_lookup p l ≠ 0 ↔ p ∈ l.*1.*2)
  ∧ (state_lookup p l ≠ 0 →
     state_lookup p l ∈ l.*1.*1
     ∧ load m (state_lookup p l) state.process = Some p).
Proof.
  induction l as [|[[a q] c] l IH]; intros prev head Hl.
  - simpl. split; [|done]. split; [done|]. by intros ?%elem_of_nil.
  - destruct Hl as (-> & Ha & b & next & Hb & Hlen & Hn & Hpr & Hp & Hc & Hl).
    destruct (IH _ _ Hl) as [IH1 IH2].
    assert (Ha0 : a ≠ 0) by (unfold PAGE_SIZE in Ha; lia).
    simpl. destruct (decide (q = p)) as [->|Hne].
    + split; [split; [intros _; by left|done]|]. intros _.
      split; [by left|]. unfold load.
      rewrite decide_False by (unfold state.process; lia).
      rewrite Hb. done.
    + split.
      * rewrite IH1. split; [by right|].
        intros [?|?]%elem_of_cons; [congruence|done].
      * intros Hnz. destruct (IH2 Hnz) as [Hin Hld]. split; [by right|done].
Qed.

Section DeviceProofs.
Context {iokit : iokit_h}.
Implicit Types (d : device) (l : list (Z * Z * Z)).

(** The loop of [state_find] on a list of states: it stops at the first
    state of the process, or at the end of the list, and changes nothing. *)
Lemma state_find_loop_list p d l : ∀ fuel prev head,
  state_list (dev_mem d) prev head l → (length l < fuel)%nat →
  state_find_loop fuel p head d = DevOk (state_lookup p l) d.
Proof.
  induction l as [|[[a q] c] l IH]; intros fuel prev head Hl Hfuel.
  - simpl in Hl. subst head.
    destruct fuel as [|fuel]; [exfalso; simpl in Hfuel; lia|].
    cbn [state_find_loop]. by rewrite decide_False by (intros Hc; by apply Hc).
  - destruct Hl as (-> & Ha & b & next & Hb & Hlen & Hn & Hpr & Hp & Hc & Hl).
    destruct fuel as [|fuel]; [exfalso; simpl in Hfuel; lia|].
    assert (Ha0 : a ≠ 0) by (unfold PAGE_SIZE in Ha; lia).
    cbn [state_find_loop state_lookup]. rewrite decide_True by done.
    rewrite decide_False
      by (unfold PAGE_SIZE in *; unfold ulong; rewrite Z.mod_small by lia; lia).
    unfold mbind at 1, DevM_bind at 1, dev_load at 1, load.
    rewrite decide_False by (unfold state.process; lia).
    rewrite Hb. cbn [mbind option_bind]. rewrite Hp.
    destruct (decide (q = p)) as [->|Hne]; [done|].
    unfold mbind, DevM_bind, dev_load, load.
    rewrite decide_False by (unfold state.next; lia).
    rewrite Hb. cbn [mbind option_bind]. rewrite Hn.
    apply (IH fuel a next); [done|]. simpl in Hfuel. lia.
Qed.

(** The end of [kvm_dev_open], from the release of [state_lock] on. *)
Ltac dev_open_tail :=
  dev_run;
  lazymatch goal with
  | |- dev_wp (if decide ?P then _ else _) _ _ => destruct (decide P)
  end;
  dev_run.

Lemma kvm_dev_open_known (fuel : nat) Dev fFlags fDevType pProcess d l :
  state_lock d = false → states_wf d l → (length l < fuel)%nat →
  state_lookup pProcess l ≠ 0 →
  dev_wp (kvm_dev_open fuel Dev fFlags fDevType pProcess)
    (λ r d', r = 0
       ∧ state_lock d' = false
       ∧ head_of_state d' = head_of_state d
       ∧ states_wf d' (state_bump pProcess l)
       ∧ dev_console d'
         = dev_console d ++ [("kvm_dev_open: %p\n"%string, [pProcess])]
       ∧ (∀ a, a ∉ (state_bump pProcess l).*1.*1 →
               dev_mem d' !! a = dev_mem d !! a)
       ∧ ∀ b c, dev_mem d !! state_lookup pProcess l = Some b →
           b !! Z.to_nat state.open_count = Some c →
           let n := kernel_objects d in
           if decide (int (c + 1) = 1) then
             dev_mem d' !! state_lookup pProcess l
             = Some (<[Z.to_nat state.mp_lock_grp :=
                         lck_grp_alloc_init (3 + n) "vmx"
                           (lck_grp_attr_alloc_init (2 + n))]>
                       (<[Z.to_nat state.mp_lock_grp_attr :=
                            lck_grp_attr_alloc_init (2 + n)]>
                          (<[Z.to_nat state.irq_lock := IOLockAlloc (1 + n)]>
                             (<[Z.to_nat state.ioctl_lock := IOLockAlloc n]>
                                (<[Z.to_nat state.open_count := int (c + 1)]>
                                   b)))))
             ∧ kernel_objects d' = (4 + n)%nat
           else
             dev_mem d' !! state_lookup pProcess l
             = Some (<[Z.to_nat state.open_count := int (c + 1)]> b)
             ∧ kernel_objects d' = n) d.
Proof.
  intros Hlock (Hl & Hnda & Hndp) Hfuel Hold.
  unfold kvm_dev_open. apply dev_wp_bind. apply dev_wp_lock; [done|].
  apply dev_wp_bind. unfold state_find. apply dev_wp_bind. apply dev_wp_get.
  dev_simpl.
  eexists _, _. split.
  { apply (state_find_loop_list pProcess _ l fuel 0); [by dev_simpl|done]. }
  rewrite decide_False by done.
  destruct (state_lookup_split l pProcess Hold)
    as (l1 & c & l2 & Hsplit & Hnot & Hbump).
  set (a := state_lookup pProcess l) in *.
  rewrite Hbump. rewrite Hsplit in Hl, Hnda, Hndp.
  destruct (state_list_entry _ _ _ _ _ _ _ _ Hl)
    as (Ha & b & Hb & Hlen & Hp & Hc).
  assert (Ha0 : a ≠ 0) by (unfold PAGE_SIZE in Ha; lia).
  destruct b as [|x0 [|x1 [|x2 [|x3 [|x4 [|x5 [|x6 [|x7 [|x8 [|]]]]]]]]]];
    try done.
  vm_compute in Hp, Hc. simplify_eq.
  destruct d as [m hd lk n con]. cbn in Hlock, Hl, Hb |- *. subst lk.
  pose proof (states_wf_set_count m hd false) as Hwf.
  rewrite <- (insert_id m a _ Hb) at 1.
  apply dev_wp_bind. apply dev_wp_ret.
  dev_open_tail.
  all: split; [done|]; split; [done|]; split; [done|].
  all: edestruct Hwf as [Hwf' Hfr]; [exact Hl|exact Hnda|exact Hndp|exact Hb| | | | | |].
  all: cycle 5.
  all: try (split; [exact Hwf'|]; split; [done|]; split; [exact Hfr|]).
  all: try reflexivity.
  all: intros b' c' Hb' Hc'; rewrite Hb in Hb'.
  all: injection Hb' as <-; vm_compute in Hc'; injection Hc' as <-.
  all: cbv zeta; rewrite lookup_insert_eq.
  - by rewrite decide_True by done.
  - by rewrite decide_False by done.
Qed.

Hypothesis IOMalloc_fresh : ∀ (m : mem) size,
  IOMalloc m size ≠ 0 →
  m !! IOMalloc m size = None ∧ PAGE_SIZE ≤ IOMalloc m size < 2 ^ 64.

Lemma kvm_dev_open_new (fuel : nat) Dev fFlags fDevType pProcess d l :
  state_lock d = false → states_wf d l → (length l < fuel)%nat →
  state_lookup pProcess l = 0 →
  IOMalloc (dev_mem d) state.sizeof ≠ 0 →
  dev_wp (kvm_dev_open fuel Dev fFlags fDevType pProcess)
    (λ r d', r = 0
       ∧ state_lock d' = false
       ∧ head_of_state d' = IOMalloc (dev_mem d) state.sizeof
       ∧ states_wf d'
           ((IOMalloc (dev_mem d) state.sizeof, pProcess, 1) :: l)
       ∧ dev_console d'
         = dev_console d ++ [("kvm_dev_open: %p\n"%string, [pProcess])]
       ∧ (∀ a, a ∉ ((IOMalloc (dev_mem d) state.sizeof, pProcess, 1)
                      :: l).*1.*1 →
               dev_mem d' !! a = dev_mem d !! a)
       ∧ (let n := kernel_objects d in
          dev_mem d' !! IOMalloc (dev_mem d) state.sizeof
          = Some [head_of_state d; 0; pProcess; 1; 0;
                  IOLockAlloc n; IOLockAlloc (1 + n);
                  lck_grp_attr_alloc_init (2 + n);
                  lck_grp_alloc_init (3 + n) "vmx"
                    (lck_grp_attr_alloc_init (2 + n))]
          ∧ kernel_objects d' = (4 + n)%nat)) d.
Proof.
  intros Hlock (Hl & Hnda & Hndp) Hfuel Hnew Halloc.
  destruct (IOMalloc_fresh _ _ Halloc) as [Hfresh Hrange].
  unfold kvm_dev_open. apply dev_wp_bind. apply dev_wp_lock; [done|].
  apply dev_wp_bind. unfold state_find. apply dev_wp_bind. apply dev_wp_get.
  dev_simpl.
  eexists _, _. split.
  { apply (state_find_loop_list pProcess _ l fuel 0); [by dev_simpl|done]. }
  rewrite Hnew. rewrite decide_True by done.
  destruct d as [m hd lk n con]. cbn in Hlock, Hl, Halloc, Hfresh, Hrange |- *.
  subst lk.
  set (a := IOMalloc m state.sizeof) in *.
  assert (Ha0 : a ≠ 0) by done.
  assert (Hni : a ∉ l.*1.*1).
  { intros Hin. destruct (state_list_live _ _ _ _ _ Hl Hin) as [[b Hb] _].
    congruence. }
  destruct (state_list_set_prev m l 0 a hd Hl Hnda)
    as (m' & Hm' & Hst & Hm0 & Hl').
  apply dev_wp_bind. apply dev_wp_bind.
  eexists _, _. split.
  { unfold IOCalloc. cbn [dev_mem]. fold a. rewrite decide_True by done.
    reflexivity. }
  dev_simpl.
  change (replicate (Z.to_nat (state.sizeof / 8)) 0)
    with [0; 0; 0; 0; 0; 0; 0; 0; 0].
  dev_run.
  assert (Hstore : dev_wp
            (if decide (hd ≠ 0) then dev_store hd state.prev a else mret ())
            (λ _ d', d' = {| dev_mem :=
                               <[a := [hd; 0; pProcess; 0; 0; 0; 0; 0; 0]]> m';
                             head_of_state := hd; state_lock := true;
                             kernel_objects := n; dev_console := con |})
            {| dev_mem :=
                 <[a := <[Z.to_nat state.next := hd]>
                          (<[Z.to_nat state.process := pProcess]>
                             [0; 0; 0; 0; 0; 0; 0; 0; 0])]> m;
               head_of_state := hd; state_lock := true;
               kernel_objects := n; dev_console := con |}).
  { destruct (decide (hd ≠ 0)) as [Hhd|Hhd].
    - eapply dev_wp_store; [|reflexivity]. dev_simpl.
      apply store_insert_ne; [|by apply Hst].
      intros ->. by apply Hni, (state_list_head m l 0).
    - apply dev_wp_ret. rewrite Hm0; [done|].
      by destruct (decide (hd = 0)). }
  eapply dev_wp_mono; [exact Hstore|]. clear Hstore. cbv beta. intros _ d' ->.
  dev_run. dev_open_tail.
  all: try (exfalso; match goal with H : int _ ≠ 1 |- _ => by apply H end).
  all: split; [done|]; split; [done|]; split; [done|].
  all: split; [|split; [done|split]].
  all: cycle 2.
  { cbv zeta. cbn [dev_mem kernel_objects head_of_state].
    by rewrite lookup_insert_eq. }
  - split; [|split].
    + cbn [dev_mem head_of_state]. split; [done|]. split; [done|].
      eexists _, hd. split; [apply lookup_insert_eq|].
      do 5 (split; [reflexivity|]).
      apply (state_list_frame m'); [done|].
      intros a0 Hin. apply lookup_insert_ne. congruence.
    + simpl. apply list.NoDup_cons. by split.
    + simpl. apply list.NoDup_cons. split; [|done].
      by eapply state_lookup_None.
  - intros a0 Hnin. simpl in Hnin. apply not_elem_of_cons in Hnin as [Hne Hnin].
    rewrite lookup_insert_ne by done.
    destruct (decide (hd = 0)) as [Hz|Hnz]; [by rewrite (Hm0 Hz)|].
    apply Hm'. intros ->. by apply Hnin, (state_list_head m l 0).
Qed.

(** X28. [kvm_dev_open] on the states of a device.  A process that has a
    state gets one more open of it, and the rest of its block stays as it
    is unless the count becomes 1; a process without one gets a new state
    at the head of the list: a zeroed block with the process, the old head
    as [next], one open, and two locks, a lock group attribute and the
    lock group "vmx" that the kernel allocated for it, as it does for a
    state whose count becomes 1.  In both cases the call returns 0 with
    [state_lock] released, and the memory outside the states is as it
    was.  When the process has no state and the allocator has no memory,
    the call writes through the null pointer that [IOCalloc] returned. *)
Theorem kvm_dev_open_list (fuel : nat) Dev fFlags fDevType pProcess d l :
  state_lock d = false → states_wf d l → (length l < fuel)%nat →
  (state_lookup pProcess l ≠ 0 ∨ IOMalloc (dev_mem d) state.sizeof ≠ 0 →
   ∃ d', kvm_dev_open fuel Dev fFlags fDevType pProcess d = DevOk 0 d'
     ∧ state_lock d' = false
     ∧ states_wf d'
         (state_opened (IOMalloc (dev_mem d) state.sizeof) pProcess l)
     ∧ dev_console d'
       = dev_console d ++ [("kvm_dev_open: %p\n"%string, [pProcess])]
     ∧ (∀ a, a ∉ (state_opened (IOMalloc (dev_mem d) state.sizeof)
                     pProcess l).*1.*1 →
             dev_mem d' !! a = dev_mem d !! a)
     ∧ (let n := kernel_objects d in
        state_lookup pProcess l = 0 →
        dev_mem d' !! IOMalloc (dev_mem d) state.sizeof
        = Some [head_of_state d; 0; pProcess; 1; 0;
                IOLockAlloc n; IOLockAlloc (1 + n);
                lck_grp_attr_alloc_init (2 + n);
                lck_grp_alloc_init (3 + n) "vmx"
                  (lck_grp_attr_alloc_init (2 + n))]
        ∧ kernel_objects d' = (4 + n)%nat)
     ∧ (∀ b c, state_lookup pProcess l ≠ 0 →
          dev_mem d !! state_lookup pProcess l = Some b →
          b !! Z.to_nat state.open_count = Some c →
          let n := kernel_objects d in
          if decide (int (c + 1) = 1) then
            dev_mem d' !! state_lookup pProcess l
            = Some (<[Z.to_nat state.mp_lock_grp :=
                        lck_grp_alloc_init (3 + n) "vmx"
                          (lck_grp_attr_alloc_init (2 + n))]>
                      (<[Z.to_nat state.mp_lock_grp_attr :=
                           lck_grp_attr_alloc_init (2 + n)]>
                         (<[Z.to_nat state.irq_lock := IOLockAlloc (1 + n)]>
                            (<[Z.to_nat state.ioctl_lock := IOLockAlloc n]>
                               (<[Z.to_nat state.open_count := int (c + 1)]>
                                  b)))))
            ∧ kernel_objects d' = (4 + n)%nat
          else
            dev_mem d' !! state_lookup pProcess l
            = Some (<[Z.to_nat state.open_count := int (c + 1)]> b)
            ∧ kernel_objects d' = n))
  ∧ (state_lookup pProcess l = 0 →
     IOMalloc (dev_mem d) state.sizeof = 0 →
     kvm_dev_open fuel Dev fFlags fDevType pProcess d = DevFault).
Proof.
  intros Hlock Hwf Hfuel. split.
  - intros Hcase. unfold state_opened.
    destruct (decide (state_lookup pProcess l = 0)) as [Hnew|Hold].
    + destruct Hcase as [?|Halloc]; [done|].
      destruct (kvm_dev_open_new fuel Dev fFlags fDevType pProcess d l
                  Hlock Hwf Hfuel Hnew Halloc)
        as (r & d' & Hrun & -> & Hlk & _ & Hwf' & Hcon & Hfr & Hblk).
      exists d'. do 5 (split; [done|]). split; [done|]. by intros b c ?.
    + destruct (kvm_dev_open_known fuel Dev fFlags fDevType pProcess d l
                  Hlock Hwf Hfuel Hold)
        as (r & d' & Hrun & -> & Hlk & _ & Hwf' & Hcon & Hfr & Hblk).
      exists d'. do 5 (split; [done|]). split; [done|].
      intros b c _. apply Hblk.
  - intros Hnew Halloc. destruct Hwf as (Hl & _ & _).
    unfold kvm_dev_open, mbind, DevM_bind.
    unfold IOLockLock_state_lock at 1. rewrite Hlock.
    unfold state_find, mbind, DevM_bind, dev_get.
    rewrite (state_find_loop_list pProcess _ l fuel 0) by done.
    rewrite Hnew. rewrite decide_True by done.
    unfold IOCalloc. cbn [dev_mem set_state_lock]. rewrite Halloc.
    rewrite decide_False by (intros Hc; by apply Hc).
    unfold dev_store at 1, store. by rewrite decide_True by (by left).
Qed.

(** X29. Opening the device and looking the process up: after [kvm_dev_open]
    [state_find] finds a state of the process; it is a state with one
    open when the process had none, and the state the process had, with
    one more open, otherwise; the other processes find what they found
    before. *)
Theorem kvm_dev_open_state_find (fuel : nat) Dev fFlags fDevType pProcess d l :
  state_lock d = false → states_wf d l → (S (length l) < fuel)%nat →
  state_lookup pProcess l ≠ 0 ∨ IOMalloc (dev_mem d) state.sizeof ≠ 0 →
  ∃ d' st,
    kvm_dev_open fuel Dev fFlags fDevType pProcess d = DevOk 0 d'
    ∧ state_find fuel pProcess d' = DevOk st d'
    ∧ st ≠ 0
    ∧ load (dev_mem d') st state.process = Some pProcess
    ∧ (state_find fuel pProcess d = DevOk 0 d →
       load (dev_mem d') st state.open_count = Some 1)
    ∧ (∀ st0 c, st0 ≠ 0 →
         state_find fuel pProcess d = DevOk st0 d →
         load (dev_mem d) st0 state.open_count = Some c →
         st = st0
         ∧ load (dev_mem d') st state.open_count = Some (int (c + 1)))
    ∧ (∀ q st1, q ≠ pProcess →
         state_find fuel q d = DevOk st1 d →
         state_find fuel q d' = DevOk st1 d').
Proof.
  intros Hlock Hwf Hfuel Hcase.
  assert (Hfind : ∀ q, state_find fuel q d = DevOk (state_lookup q l) d).
  { intros q. destruct Hwf as (Hl & _ & _). unfold state_find, mbind, DevM_bind, dev_get.
    apply (state_find_loop_list q d l fuel 0); [done|lia]. }
  assert (Hfind' : ∀ d' l', states_wf d' l' → (length l' ≤ S (length l))%nat →
            ∀ q, state_find fuel q d' = DevOk (state_lookup q l') d').
  { intros d' l' (Hl' & _ & _) Hlen q.
    unfold state_find, mbind, DevM_bind, dev_get.
    apply (state_find_loop_list q d' l' fuel 0); [done|lia]. }
  assert (Hload : ∀ m a b i, a ≠ 0 → 0 ≤ i → m !! a = Some b →
            load m a i = b !! Z.to_nat i).
  { intros m a b i Ha Hi Hb. unfold load. rewrite decide_False by lia.
    by rewrite Hb. }
  destruct (decide (state_lookup pProcess l = 0)) as [Hnew|Hold].
  - destruct Hcase as [?|Halloc]; [done|].
    destruct (kvm_dev_open_new fuel Dev fFlags fDevType pProcess d l
                Hlock Hwf ltac:(lia) Hnew Halloc)
      as (r & d' & Hrun & -> & Hlk & Hhd & Hwf' & Hcon & Hfr & _).
    set (a := IOMalloc (dev_mem d) state.sizeof) in *.
    exists d', a. split; [done|].
    pose proof (Hfind' d' _ Hwf' ltac:(simpl; lia)) as Hf'.
    split; [rewrite Hf'; simpl; by rewrite decide_True|].
    destruct Hwf' as (Hl' & _ & _).
    destruct Hl' as (_ & Ha & b & next & Hb & Hlen & _ & _ & Hp & Hc & _).
    assert (Ha0 : a ≠ 0) by (unfold PAGE_SIZE in Ha; lia).
    split; [done|].
    split; [by rewrite (Hload _ _ b) by (done || unfold state.process; lia)|].
    split; [intros _;
            by rewrite (Hload _ _ b) by (done || unfold state.open_count; lia)|].
    split.
    + intros st0 c Hst0 Hf0. rewrite Hfind in Hf0. congruence.
    + intros q st1 Hq Hf1. rewrite Hfind in Hf1. injection Hf1 as <-.
      rewrite Hf'. simpl. by rewrite decide_False by congruence.
  - destruct (kvm_dev_open_known fuel Dev fFlags fDevType pProcess d l
                Hlock Hwf ltac:(lia) Hold)
      as (r & d' & Hrun & -> & Hlk & Hhd & Hwf' & Hcon & Hfr & _).
    pose proof (Hfind' d' _ Hwf' ltac:(rewrite state_bump_length; lia)) as Hf'.
    exists d', (state_lookup pProcess l). split; [done|].
    split; [by rewrite Hf', state_lookup_bump|].
    split; [done|].
    destruct (state_lookup_split l pProcess Hold)
      as (l1 & c0 & l2 & Hsplit & Hnot & Hbump).
    destruct Hwf' as (Hl' & _ & _). rewrite Hbump in Hl'.
    destruct (state_list_entry _ _ _ _ _ _ _ _ Hl')
      as (Ha & b & Hb & Hlen & Hp & Hc).
    destruct Hwf as (Hl & _ & _).
    pose proof Hl as Hl0. rewrite Hsplit in Hl0.
    destruct (state_list_entry _ _ _ _ _ _ _ _ Hl0)
      as (_ & b0 & Hb0 & _ & _ & Hc0).
    split; [by rewrite (Hload _ _ b) by (done || unfold state.process; lia)|].
    split; [intros Hf0; rewrite Hfind in Hf0; congruence|].
    split.
    + intros st0 c Hst0 Hf0 Hld. rewrite Hfind in Hf0. injection Hf0 as <-.
      split; [done|].
      rewrite (Hload _ _ b0) in Hld by (done || unfold state.open_count; lia).
      rewrite (Hload _ _ b) by (done || unfold state.open_count; lia).
      congruence.
    + intros q st1 Hq Hf1. rewrite Hfind in Hf1. injection Hf1 as <-.
      by rewrite Hf', state_lookup_bump.
Qed.

(** X30. [state_find] on the states of a device returns the state of the
    process, the block of the list that names it, or [NULL] when the
    process is not in the list, and changes nothing. *)
Theorem state_find_list (fuel : nat) pProcess d l :
  states_wf d l → (length l < fuel)%nat →
  ∃ st,
    state_find fuel pProcess d = DevOk st d
    ∧ (st = 0 ↔ pProcess ∉ l.*1.*2)
    ∧ (st ≠ 0 →
       st ∈ l.*1.*1
       ∧ load (dev_mem d) st state.process = Some pProcess).
Proof.
  intros (Hl & _ & _) Hfuel. exists (state_lookup pProcess l).
  destruct (state_lookup_spec _ _ pProcess _ _ Hl) as [Hiff Hst].
  split; [|split; [|done]].
  - unfold state_find, mbind, DevM_bind, dev_get.
    by apply (state_find_loop_list pProcess d l fuel 0).
  - rewrite <- Hiff. destruct (decide (state_lookup pProcess l = 0)); tauto.
Qed.

End DeviceProofs.

(** ** More examples on the concrete kernel *)

Section MoreExamples.
#[local] Existing Instances intel_vmx linux_kvm bump_kernel posix_errno.

Lemma fresh_ept_nonnull : (@ept_init bump_kernel ∅).2 ≠ 0.
Proof. by vm_compute. Qed.

Lemma fresh_ept_tree :
  fresh_ept.1 = {[fresh_ept.2 := replicate 1024 0]} ∪ ∅
  ∧ {[fresh_ept.2 := replicate 1024 0]} ##ₘ (∅ : mem)
  ∧ ept_tree 3 fresh_ept.2 {[fresh_ept.2 := replicate 1024 0]}.
Proof. exact (ept_init_tree bump_kernel_fresh ∅ fresh_ept_nonnull). Qed.

Lemma ept_init_translate_witness :
  ept_translate fresh_ept.1 fresh_ept.2 0x1000 = Some 0.
Proof.
  exact (ept_init_translate bump_kernel_fresh ∅ 0x1000 fresh_ept_nonnull).
Defined.

Lemma ept_add_page_tree_witness :
  ∃ t', ept_add_page fresh_ept.1 fresh_ept.2 0x1000 0x5000 = Some (t' ∪ ∅)
        ∧ ept_tree 3 fresh_ept.2 t' ∧ t' ##ₘ (∅ : mem).
Proof.
  destruct fresh_ept_tree as (Hm & Hd & Htree). rewrite Hm.
  exact (ept_add_page_tree bump_kernel_fresh bump_kernel_no_oom _ ∅
           fresh_ept.2 0x1000 0x5000 Htree Hd).
Defined.

Lemma ept_add_page_translate_witness :
  ∃ m', ept_add_page fresh_ept.1 fresh_ept.2 0x1000 0x5123 = Some m'
        ∧ ept_translate m' fresh_ept.2 0x1fff = Some 0x5000
        ∧ ept_translate m' fresh_ept.2 0x2000 = Some 0.
Proof.
  destruct fresh_ept_tree as (Hm & Hd & Htree). rewrite Hm.
  destruct (ept_add_page_translate bump_kernel_fresh bump_kernel_no_oom
              intel_EPT_DEFAULTS_low _ ∅ fresh_ept.2 0x1000 0x5123 Htree Hd
              ltac:(lia)) as (m' & Hadd & Htr).
  exists m'. split; [exact Hadd|]. split.
  - rewrite Htr. reflexivity.
  - rewrite Htr. rewrite <- Hm. reflexivity.
Defined.

Lemma ept_free_tree_witness : ept_free fresh_ept.1 fresh_ept.2 = Some ∅.
Proof.
  destruct fresh_ept_tree as (Hm & Hd & Htree). rewrite Hm.
  exact (ept_free_tree _ ∅ fresh_ept.2 Htree Hd).
Defined.

Lemma ept_free_round_trip_witness :
  ∃ m', ept_add_pages (ept_init ∅).1 (ept_init ∅).2
          [(0x1000, 0x5000); (0x40000000, 0x6000); (0x1000, 0x7000)] = Some m'
        ∧ ept_free m' (ept_init ∅).2 = Some ∅.
Proof.
  exact (ept_free_round_trip bump_kernel_fresh bump_kernel_no_oom ∅
           [(0x1000, 0x5000); (0x40000000, 0x6000); (0x1000, 0x7000)]).
Defined.

Lemma ept_hardware_entries_witness :
  ∃ m' pdpt,
    ept_add_pages (ept_init ∅).1 (ept_init ∅).2
      [(0x1000, 0x5000); (0x40000000, 0x6000)] = Some m'
    ∧ load m' (ept_init ∅).2 (PAGE_OFFSET + 0) = Some pdpt
    ∧ load m' (ept_init ∅).2 0
      = Some (if decide (pdpt = 0) then 0 else Z.lor (__pa pdpt) EPT_DEFAULTS).
Proof.
  destruct (ept_hardware_entries bump_kernel_fresh bump_kernel_no_oom ∅
              [(0x1000, 0x5000); (0x40000000, 0x6000)] 0x1000)
    as (m' & pdpt & Hadd & Hl & Hh & _).
  exists m', pdpt. split; [exact Hadd|]. split; [exact Hl|exact Hh].
Defined.

Lemma ept_add_page_alloc_fails_witness :
  @ept_add_page intel_vmx oom_kernel fresh_ept.1 fresh_ept.2 0x1000 0x5000
  = None.
Proof.
  apply (@ept_add_page_alloc_fails intel_vmx oom_kernel).
  - left. reflexivity.
  - intros m size alignment. reflexivity.
Defined.

Lemma handle_io_out_witness :
  ∃ s', handle_io out_machine = Ok 0 s'
    ∧ pio_data (cpu s') !! 0%nat = Some 0x34
    ∧ pio_data (cpu s') !! 1%nat = Some 0x12
    ∧ pio_data (cpu s') !! 2%nat = Some 0
    ∧ kvm_run.port (kvm_run.io (kvm_vcpu (cpu s'))) = 0x3f8
    ∧ pending_io (cpu s') = 0.
Proof.
  destruct (handle_io_out out_machine eq_refl) as (s' & Hrun & Hio & Hdata & Hp).
  { vm_compute. lia. }
  exists s'. split; [exact Hrun|].
  split; [rewrite (Hdata 0%nat); reflexivity|].
  split; [rewrite (Hdata 1%nat); reflexivity|].
  split; [rewrite (Hdata 2%nat); reflexivity|].
  split; [rewrite Hio; reflexivity|exact Hp].
Defined.

Lemma handle_io_in_kvm_run_wrapper_witness :
  ∃ s1 val,
    handle_io in_machine = Ok 0 s1
    ∧ pending_io (cpu s1) = 1
    ∧ 0 ≤ val < 2 ^ 8
    ∧ kvm_run_wrapper 2 (λ _, exit_with 28)
        (set_cpu (set_pio_data [0xAB; 0xCD] (cpu s1)) s1)
      = kvm_run_wrapper 2 (λ _, exit_with 28)
          (set_cpu
             (set_pending_io 0
                (set_regs (<[VCPU_REGS_RAX := val]> (regs (cpu s1)))
                   (set_pio_data [0xAB; 0xCD] (cpu s1)))) s1).
Proof.
  destruct (handle_io_in_kvm_run_wrapper 2 (λ _, exit_with 28) in_machine
              [0xAB; 0xCD])
    as (s1 & val & Hrun & Hp & _ & Hval & _ & Heq).
  { vm_compute. discriminate. }
  exists s1, val. split; [exact Hrun|]. split; [exact Hp|].
  split; [exact Hval|exact Heq].
Defined.

Lemma handle_cpuid_override_witness :
  ∃ s', handle_cpuid cpuid7_machine = Ok 1 s'
    ∧ regs (cpu s') VCPU_REGS_RAX = 5
    ∧ regs (cpu s') VCPU_REGS_RBX = 6
    ∧ regs (cpu s') VCPU_REGS_RCX = 7
    ∧ regs (cpu s') VCPU_REGS_RDX = 8.
Proof.
  destruct (handle_cpuid_override cpuid7_machine
              [ {| kvm_cpuid_entry2.function := 0; kvm_cpuid_entry2.index := 0;
                   kvm_cpuid_entry2.flags := 0;
                   kvm_cpuid_entry2.eax := 1; kvm_cpuid_entry2.ebx := 2;
                   kvm_cpuid_entry2.ecx := 3; kvm_cpuid_entry2.edx := 4 |} ]
              {| kvm_cpuid_entry2.function := 7; kvm_cpuid_entry2.index := 0;
                 kvm_cpuid_entry2.flags := 0;
                 kvm_cpuid_entry2.eax := 5; kvm_cpuid_entry2.ebx := 6;
                 kvm_cpuid_entry2.ecx := 7; kvm_cpuid_entry2.edx := 8 |}
              [ {| kvm_cpuid_entry2.function := 7; kvm_cpuid_entry2.index := 0;
                   kvm_cpuid_entry2.flags := 0;
                   kvm_cpuid_entry2.eax := 9; kvm_cpuid_entry2.ebx := 9;
                   kvm_cpuid_entry2.ecx := 9; kvm_cpuid_entry2.edx := 9 |} ])
    as (s' & Hrun & Ha & Hb & Hc & Hd & _).
  - vm_compute. discriminate.
  - reflexivity.
  - vm_compute. reflexivity.
  - constructor; [|constructor]. intros [Hf _]. vm_compute in Hf. discriminate.
  - split; reflexivity.
  - exists s'. split; [exact Hrun|].
    split; [exact Ha|]. split; [exact Hb|]. split; [exact Hc|exact Hd].
Defined.

Lemma handle_cpuid_fallback_witness :
  ∃ s', handle_cpuid boot_machine = Ok 1 s'
    ∧ (regs (cpu s') VCPU_REGS_RAX, regs (cpu s') VCPU_REGS_RBX,
       regs (cpu s') VCPU_REGS_RCX, regs (cpu s') VCPU_REGS_RDX)
      = (0xFFFFFFFF, 0xFFFFFFFF, 0xFFFFFFFF, 0xFFFFFFFF).
Proof.
  destruct (handle_cpuid_fallback boot_machine) as (s' & Hrun & Hregs & _).
  - vm_compute. discriminate.
  - constructor.
  - exists s'. split; [exact Hrun|exact Hregs].
Defined.

Lemma handle_cr_mov_to_cr0_witness :
  ∃ s', handle_cr cr0_machine = Ok 1 s'
    ∧ vmcs s' GUEST_CR0 = 0x80000011
    ∧ paging (cpu s') = 1
    ∧ vmcs s' CR0_READ_SHADOW = 0xFFFFFFFF80000000.
Proof.
  assert (Hnum : int (Z.land (exit_qualification (cpu cr0_machine))
                            CONTROL_REG_ACCESS_NUM) = 0)
    by (vm_compute; reflexivity).
  assert (Htype : int (Z.shiftr (Z.land (exit_qualification (cpu cr0_machine))
                                        CONTROL_REG_ACCESS_TYPE) 4) = 0)
    by (vm_compute; reflexivity).
  destruct (handle_cr_mov_to_cr0 cr0_machine Hnum Htype 0x80000011)
    as (s' & Hrun & Hcr0 & Hpg & Hsh & _);
    [vm_compute; reflexivity|lia|].
  exists s'. split; [exact Hrun|]. split; [exact Hcr0|].
  split; [exact Hpg|exact Hsh].
Defined.

Lemma handle_cr_cr3_round_trip_witness :
  ∃ s1 s2,
    handle_cr cr3_machine = Ok 1 s1
    ∧ vmcs s1 GUEST_CR3 = 0x2000
    ∧ handle_cr (set_cpu (set_exit_qualification 0x113 (cpu s1)) s1) = Ok 1 s2
    ∧ regs (cpu s2) VCPU_REGS_RCX = 0x2000.
Proof.
  destruct (handle_cr_cr3_round_trip cr3_machine 0x303 0x113 boot_machine_wf)
    with (src := VCPU_REGS_RBX) (dst := VCPU_REGS_RCX)
    as (s1 & s2 & Hrun1 & _ & Hcr3 & Hrun2 & Hdst);
    [vm_compute; reflexivity..|discriminate|].
  exists s1, s2. split; [exact Hrun1|]. split; [exact Hcr3|].
  split; [exact Hrun2|exact Hdst].
Defined.

Lemma kvm_run_wrapper_inject_lowest_witness :
  ∃ s', kvm_run_wrapper_inject irq_machine = Ok 0x8000000B s'
    ∧ Z.testbit (pending_irq (cpu s')) 3 = false
    ∧ Z.testbit (pending_irq (cpu s')) 5 = true.
Proof.
  destruct (kvm_run_wrapper_inject_lowest irq_machine) as [Hlow _].
  destruct (Hlow 3 ltac:(by compute) eq_refl) as (s' & Hrun & Hbits & _).
  { intros j Hj.
    assert (j = 0 ∨ j = 1 ∨ j = 2) as [->|[->| ->]] by lia; reflexivity. }
  exists s'. split; [exact Hrun|].
  split; [exact (Hbits 3 ltac:(lia))|exact (Hbits 5 ltac:(lia))].
Defined.

Lemma kvm_irq_line_falling_rising_witness :
  ∃ s1 s2,
    kvm_irq_line {| kvm_irq_level.irq := 3; kvm_irq_level.level := 0 |}
      irq_machine = Ok 0 s1
    ∧ pending_irq (cpu s1) = 0x28
    ∧ kvm_irq_line {| kvm_irq_level.irq := 3; kvm_irq_level.level := 1 |} s1
      = Ok 0 s2
    ∧ pending_irq (cpu s2) = 0x28.
Proof.
  destruct (kvm_irq_line_falling_rising irq_machine 3 ltac:(by compute) eq_refl)
    as (s1 & s2 & Hrun1 & Hp1 & _ & Hrun2 & Hp2 & _).
  exists s1, s2. split; [exact Hrun1|]. split; [exact Hp1|].
  split; [exact Hrun2|exact Hp2].
Defined.

Lemma kvm_irq_line_then_inject_witness :
  ∃ s1 s2,
    kvm_irq_line {| kvm_irq_level.irq := 4; kvm_irq_level.level := 1 |}
      boot_machine = Ok 0 s1
    ∧ kvm_run_wrapper_inject s1 = Ok 0x8000000C s2
    ∧ pending_irq (cpu s2) = 0.
Proof.
  destruct (kvm_irq_line_then_inject boot_machine 4 ltac:(by compute) eq_refl
              eq_refl)
    as (s1 & s2 & Hrun1 & Hrun2 & Hp & _).
  exists s1, s2. split; [exact Hrun1|]. split; [exact Hrun2|exact Hp].
Defined.

Lemma kvm_run_wrapper_total_witness :
  ∃ s' k,
    kvm_run_wrapper 1001 (λ _, exit_with 28) boot_machine = Ok 0 s'
    ∧ (1 ≤ k ≤ 1000)%nat
    ∧ world_switches s' = k
    ∧ host_if s' = true
    ∧ vmcs_loaded (cpu s') = 0
    ∧ kmem s' = kmem boot_machine.
Proof.
  assert (Hmsr : ∀ i, (world_switches boot_machine ≤ i)%nat →
            rdmsr_exit_readable (exit_with 28)).
  { intros i _ _. exists 7. reflexivity. }
  destruct (kvm_run_wrapper_total 1001 (λ _, exit_with 28) boot_machine
              ltac:(lia) boot_machine_wf Hmsr)
    as (s' & k & Hrun & Hws & Hk & Hif & Hvl & Hm & _).
  exists s', k. split; [exact Hrun|]. split; [exact Hk|].
  split; [exact Hws|]. split; [exact Hif|]. split; [exact Hvl|exact Hm].
Defined.



Lemma kvm_set_user_memory_region_prepare_fails_witness :
  ∃ s', @kvm_set_user_memory_region intel_vmx linux_kvm unwired_kernel
          two_page_region boot_machine = Ok 22 s'
        ∧ kmem s' = kmem boot_machine.
Proof.
  destruct (@kvm_set_user_memory_region_prepare_fails intel_vmx linux_kvm
              unwired_kernel two_page_region boot_machine)
    as (s' & Hrun & Hm & _).
  { vm_compute. discriminate. }
  exists s'. split; [exact Hrun|exact Hm].
Defined.

Lemma kvm_set_user_memory_region_installs_witness :
  ∃ s', kvm_set_user_memory_region two_page_region boot_machine = Ok 0 s'
    ∧ ept_translate (kmem s') (pml4 (cpu boot_machine)) 0x1000 = Some 0x7000
    ∧ ept_translate (kmem s') (pml4 (cpu boot_machine)) 0x2abc = Some 0x8000.
Proof.
  destruct fresh_ept_tree as (Hm & Hd & Htree).
  destruct (kvm_set_user_memory_region_installs bump_kernel_fresh
              bump_kernel_no_oom intel_EPT_DEFAULTS_low two_page_region
              boot_machine _ ∅ Htree Hm Hd)
    as (s' & Hrun & _ & Hin & _).
  - vm_compute. split; discriminate.
  - reflexivity.
  - intros k Hk Hlt. change (0 < 0x7000 + k * PAGE_SIZE < 2 ^ 64).
    change (k * 4096 < 0x2000) in Hlt. unfold PAGE_SIZE. lia.
  - exists s'. split; [exact Hrun|]. split.
    + exact (Hin 0 0x1000 ltac:(lia) eq_refl eq_refl).
    + exact (Hin 1 0x2abc ltac:(lia) eq_refl eq_refl).
Defined.

Lemma kvm_set_user_memory_region_no_rollback_witness :
  ∃ s', @kvm_set_user_memory_region intel_vmx linux_kvm sparse_kernel
          two_page_region boot_machine = Ok 22 s'
    ∧ ept_translate (kmem s') (pml4 (cpu boot_machine)) 0x1000 = Some 0x7000.
Proof.
  destruct fresh_ept_tree as (Hm & Hd & Htree).
  destruct (@kvm_set_user_memory_region_no_rollback intel_vmx linux_kvm
              sparse_kernel bump_kernel_fresh bump_kernel_no_oom
              intel_EPT_DEFAULTS_low two_page_region
              boot_machine _ ∅ 1 Htree Hm Hd)
    as (s' & Hrun & Hin & _).
  - vm_compute. split; discriminate.
  - reflexivity.
  - lia.
  - reflexivity.
  - reflexivity.
  - intros k Hk. assert (k = 0) as -> by lia. vm_compute. done.
  - exists s'. split; [exact Hrun|]. exact (Hin 0 ltac:(lia)).
Defined.

Lemma kvm_get_supported_cpuid_agrees_witness :
  kvm_get_supported_cpuid 14 = (7, None)
  ∧ ∃ entries, kvm_get_supported_cpuid 15 = (0, Some (15, entries))
               ∧ length entries = 15%nat.
Proof.
  split.
  - destruct (kvm_get_supported_cpuid_agrees 14) as [Hsmall _].
    exact (Hsmall ltac:(lia)).
  - destruct (kvm_get_supported_cpuid_agrees 15) as [_ Hbig].
    destruct (Hbig ltac:(lia)) as (entries & Hrun & Hlen & _).
    exists entries. split; [exact Hrun|exact Hlen].
Defined.

Lemma kvm_get_supported_cpuid_not_masked_witness :
  ∃ entries e s',
    kvm_get_supported_cpuid 15 = (0, Some (15, entries))
    ∧ e ∈ entries
    ∧ kvm_cpuid_entry2.function e = 1
    ∧ Z.testbit (kvm_cpuid_entry2.edx e) 25 = true
    ∧ handle_cpuid cpuid_machine = Ok 1 s'
    ∧ Z.testbit (regs (cpu s') VCPU_REGS_RDX) 25 = false.
Proof.
  exact (kvm_get_supported_cpuid_not_masked 15 cpuid_machine ltac:(lia)
           eq_refl eq_refl).
Defined.

Lemma handle_external_interrupt_timer_witness :
  ∃ s1 s2,
    handle_external_interrupt irq_machine = Ok 1 s1
    ∧ pending_irq (cpu s1) = 0x29
    ∧ kvm_run_wrapper_inject s1 = Ok 0x80000008 s2.
Proof.
  destruct (handle_external_interrupt_timer irq_machine eq_refl)
    as (s1 & s2 & Hrun & Hpend & Hinj & _).
  exists s1, s2. split; [exact Hrun|]. split; [exact Hpend|exact Hinj].
Defined.

Lemma handle_cr_not_emulated_witness :
  ∃ s', handle_cr cr4_machine = Ok 1 s'
    ∧ vmcs s' = vmcs cr4_machine
    ∧ console s' = [("can't emulate cr%d\n"%string, [4])].
Proof.
  destruct (handle_cr_not_emulated cr4_machine)
    as (s' & Hrun & Hvmcs & _ & _ & Hcon).
  { left. split; vm_compute; discriminate. }
  exists s'. split; [exact Hrun|]. split; [exact Hvmcs|exact Hcon].
Defined.

Lemma one_block_iokit_fresh (m : mem) size :
  @IOMalloc one_block_iokit m size ≠ 0 →
  m !! @IOMalloc one_block_iokit m size = None
  ∧ PAGE_SIZE ≤ @IOMalloc one_block_iokit m size < 2 ^ 64.
Proof.
  unfold IOMalloc, one_block_iokit, PAGE_SIZE.
  destruct (decide (m !! 0x10000 = None)) as [Hm|Hm]; [|done].
  intros _. split; [exact Hm|lia].
Defined.

Lemma closed_device_wf : states_wf closed_device [].
Proof. split; [reflexivity|]. split; apply NoDup_nil_2. Defined.

Lemma opened_device_wf : states_wf opened_device [(0x10000, 7, 1)].
Proof.
  split; [|split; apply NoDup_singleton].
  split; [reflexivity|]. split; [unfold PAGE_SIZE; lia|].
  eexists _, 0. split; [apply lookup_singleton_eq|].
  repeat split.
Defined.

Lemma kvm_dev_open_list_witness :
  ∃ d', @kvm_dev_open one_block_iokit 1 0 0 0 7 closed_device = DevOk 0 d'
    ∧ state_lock d' = false
    ∧ states_wf d' [(0x10000, 7, 1)]
    ∧ dev_mem d' !! 0x10000
      = Some [0; 0; 7; 1; 0; 0x20000; 0x20001; 0x20002; 0x20003]
    ∧ kernel_objects d' = 4%nat.
Proof.
  destruct (@kvm_dev_open_list one_block_iokit one_block_iokit_fresh
              1 0 0 0 7 closed_device [] eq_refl closed_device_wf
              ltac:(simpl; lia))
    as [Hopen _].
  destruct Hopen as (d' & Hrun & Hlk & Hwf & _ & _ & Hnew & _).
  { right. vm_compute. discriminate. }
  destruct (Hnew eq_refl) as [Hblk Hobj].
  exists d'. split; [exact Hrun|]. split; [exact Hlk|]. split; [exact Hwf|].
  split; [exact Hblk|exact Hobj].
Defined.

Lemma kvm_dev_open_state_find_witness :
  ∃ d' st,
    @kvm_dev_open one_block_iokit 3 0 0 0 7 opened_device = DevOk 0 d'
    ∧ state_find 3 7 d' = DevOk st d'
    ∧ st = 0x10000
    ∧ load (dev_mem d') st state.open_count = Some 2.
Proof.
  destruct (@kvm_dev_open_state_find one_block_iokit one_block_iokit_fresh
              3 0 0 0 7 opened_device [(0x10000, 7, 1)] eq_refl
              opened_device_wf ltac:(simpl; lia))
    as (d' & st & Hrun & Hfind & _ & _ & _ & Hcount & _).
  { left. vm_compute. discriminate. }
  destruct (Hcount 0x10000 1) as [Hst Hc];
    [discriminate|reflexivity|reflexivity|].
  exists d', st. split; [exact Hrun|]. split; [exact Hfind|].
  split; [exact Hst|exact Hc].
Defined.

Lemma state_find_list_witness :
  ∃ st, state_find 2 7 opened_device = DevOk st opened_device ∧ st ≠ 0.
Proof.
  destruct (state_find_list 2 7 opened_device [(0x10000, 7, 1)]
              opened_device_wf ltac:(simpl; lia))
    as (st & Hfind & Hiff & _).
  exists st. split; [exact Hfind|].
  intros Hz. apply Hiff in Hz. apply Hz. simpl. left.
Defined.

End MoreExamples.
